(** * Markly smart attendance: sessions, rotating QR tokens, check-in, sweeps

    A shallow embedding of the session/attendance core of the repository:

    - [src/lib/api.ts]: [createSession], [extendSession], [endSession],
      [generateQRToken], [acknowledgeScan], [getActiveSessionsCount] and
      the two class registers;
    - the edge functions [submit-attendance], [secure-qr-token],
      [secure-image-access], [send-absence-notifications],
      [send-absence-notifications-scheduled] and
      [send-all-absence-notifications].

    Conventions of the embedding.

    - Instants ([Date], [timestamptz], ISO strings) are integers: milliseconds
      since the epoch, in [Z]; [Math.floor] of a quotient is [Z.div].  One
      invocation of an operation reads the clock once (the argument [now]).
      The local calendar of the runtime, which [createSession] asks for the
      bounds of the day, is a parameter of it.
    - JavaScript strings are Rocq strings, that is sequences of code units
      in the range 0..255.  This is the range of what [atob] returns and of
      what [btoa] accepts; ids are uuids and secrets are base-36 strings.
      A string that [JSON.parse] builds with a code unit above 255 is kept
      apart, as [Json.JWide].  A number is the double its literal denotes.
    - A table is the list of its rows.  [single] and [maybeSingle] are the
      PostgREST result modifiers, applied to the rows a filter selected.  An
      id is the text of a uuid as the database prints it, and a filter
      compares texts.  A statement fails only by a key constraint of its
      table or by a value that is not a string for a uuid column; the
      network and the mail transport do not fail.
    - Each operation is a function from the store to a result and the next
      store: one call is one atomic step.
    - Row-level security and triggers are not part of the operations, which
      are embedded as the TypeScript has them.  The trigger on [attendance],
      the update policy of students and the select policies on [sessions]
      are embedded by themselves in [Policy]; a property that depends on
      what the caller may read takes the policy as a hypothesis, and what
      is written is checked against the trigger where it matters. *)

From Stdlib Require Import List String Ascii ZArith NArith Bool Lia.
From Stdlib Require Import Decimal DecimalString DecimalZ DecimalFacts.
From Stdlib Require Import Permutation.
Import ListNotations.

Set Warnings "-register-all".

Local Open Scope string_scope.
Local Open Scope Z_scope.

(** ** Small string toolkit *)

Module Str.

(** The double quote character. *)
Definition dq : ascii := "034"%char.
Definition backslash : ascii := "092"%char.

Definition code (c : ascii) : N := N_of_ascii c.

Definition in_range (lo hi : N) (c : ascii) : bool :=
  (N.leb lo (code c)) && (N.leb (code c) hi).

Definition is_digit (c : ascii) : bool := in_range 48 57 c.

Fixpoint all (p : ascii -> bool) (s : string) : bool :=
  match s with
  | EmptyString => true
  | String c r => p c && all p r
  end.

Fixpoint filter (p : ascii -> bool) (s : string) : string :=
  match s with
  | EmptyString => EmptyString
  | String c r => if p c then String c (filter p r) else filter p r
  end.

(** Longest prefix whose characters satisfy [p], and the rest. *)
Fixpoint span (p : ascii -> bool) (s : string) : string * string :=
  match s with
  | EmptyString => (EmptyString, EmptyString)
  | String c r =>
      if p c then let '(a, b) := span p r in (String c a, b)
      else (EmptyString, s)
  end.

Definition starts_with_not (p : ascii -> bool) (s : string) : Prop :=
  match s with
  | EmptyString => True
  | String c _ => p c = false
  end.

End Str.

(** ** Base64: [btoa] and [atob]

    [btoa] is the base64 encoding of the code units of its argument, with
    padding.  [atob] is the forgiving-base64 decoding of the HTML standard:
    ASCII whitespace is dropped, one or two trailing [=] are removed when
    the length is a multiple of four, a length congruent to one modulo four
    or a character outside the alphabet is an error ([None], the thrown
    [InvalidCharacterError]), and left-over bits are discarded. *)

Module Base64.

(** Six bits, most significant first. *)
Inductive sextet : Type :=
| Sextet (b5 b4 b3 b2 b1 b0 : bool).

Definition sextet_value (x : sextet) : N :=
  let '(Sextet b5 b4 b3 b2 b1 b0) := x in
  N_of_ascii (Ascii b0 b1 b2 b3 b4 b5 false false).

Definition sextet_of_value (n : N) : sextet :=
  match ascii_of_N n with
  | Ascii b0 b1 b2 b3 b4 b5 _ _ => Sextet b5 b4 b3 b2 b1 b0
  end.

(** The alphabet: A-Z, a-z, 0-9, plus and slash. *)
Definition char_of_value (n : N) : ascii :=
  if N.ltb n 26 then ascii_of_N (n + 65)
  else if N.ltb n 52 then ascii_of_N (n + 71)
  else if N.ltb n 62 then ascii_of_N (n - 4)
  else if N.eqb n 62 then "+"%char
  else "/"%char.

Definition value_of_char (c : ascii) : option N :=
  let n := N_of_ascii c in
  if Str.in_range 65 90 c then Some (n - 65)%N
  else if Str.in_range 97 122 c then Some (n - 71)%N
  else if Str.in_range 48 57 c then Some (n + 4)%N
  else if N.eqb n 43 then Some 62%N
  else if N.eqb n 47 then Some 63%N
  else None.

Definition encode_sextet (x : sextet) : ascii := char_of_value (sextet_value x).

Definition decode_char (c : ascii) : option sextet :=
  option_map sextet_of_value (value_of_char c).

(** Bytes to sextets: three bytes give four sextets; one trailing byte
    gives two and two trailing bytes give three, the missing bits zero. *)
Fixpoint sextets_of_bytes (s : string) : list sextet :=
  match s with
  | EmptyString => []
  | String (Ascii a0 a1 a2 a3 a4 a5 a6 a7) EmptyString =>
      [Sextet a7 a6 a5 a4 a3 a2; Sextet a1 a0 false false false false]
  | String (Ascii a0 a1 a2 a3 a4 a5 a6 a7)
      (String (Ascii b0 b1 b2 b3 b4 b5 b6 b7) EmptyString) =>
      [Sextet a7 a6 a5 a4 a3 a2; Sextet a1 a0 b7 b6 b5 b4;
       Sextet b3 b2 b1 b0 false false]
  | String (Ascii a0 a1 a2 a3 a4 a5 a6 a7)
      (String (Ascii b0 b1 b2 b3 b4 b5 b6 b7)
         (String (Ascii c0 c1 c2 c3 c4 c5 c6 c7) r)) =>
      Sextet a7 a6 a5 a4 a3 a2 :: Sextet a1 a0 b7 b6 b5 b4 ::
      Sextet b3 b2 b1 b0 c7 c6 :: Sextet c5 c4 c3 c2 c1 c0 ::
      sextets_of_bytes r
  end.

Fixpoint bytes_of_sextets (l : list sextet) : string :=
  match l with
  | Sextet a7 a6 a5 a4 a3 a2 :: Sextet a1 a0 b7 b6 b5 b4 ::
    Sextet b3 b2 b1 b0 c7 c6 :: Sextet c5 c4 c3 c2 c1 c0 :: r =>
      String (Ascii a0 a1 a2 a3 a4 a5 a6 a7)
        (String (Ascii b0 b1 b2 b3 b4 b5 b6 b7)
           (String (Ascii c0 c1 c2 c3 c4 c5 c6 c7) (bytes_of_sextets r)))
  | [Sextet a7 a6 a5 a4 a3 a2; Sextet a1 a0 b7 b6 b5 b4;
     Sextet b3 b2 b1 b0 _ _] =>
      String (Ascii a0 a1 a2 a3 a4 a5 a6 a7)
        (String (Ascii b0 b1 b2 b3 b4 b5 b6 b7) EmptyString)
  | [Sextet a7 a6 a5 a4 a3 a2; Sextet a1 a0 _ _ _ _] =>
      String (Ascii a0 a1 a2 a3 a4 a5 a6 a7) EmptyString
  | _ => EmptyString
  end.

Fixpoint encode_sextets (l : list sextet) : string :=
  match l with
  | [] => EmptyString
  | x :: r => String (encode_sextet x) (encode_sextets r)
  end.

Fixpoint decode_chars (s : string) : option (list sextet) :=
  match s with
  | EmptyString => Some []
  | String c r =>
      match decode_char c, decode_chars r with
      | Some x, Some l => Some (x :: l)
      | _, _ => None
      end
  end.

Definition padding (n : nat) : string :=
  match Nat.modulo n 3 with
  | 1%nat => "=="
  | 2%nat => "="
  | _ => EmptyString
  end.

Definition btoa (s : string) : string :=
  encode_sextets (sextets_of_bytes s) ++ padding (String.length s).

Definition is_ascii_whitespace (c : ascii) : bool :=
  let n := N_of_ascii c in
  N.eqb n 9 || N.eqb n 10 || N.eqb n 12 || N.eqb n 13 || N.eqb n 32.

Definition is_eq_sign (c : ascii) : bool := Ascii.eqb c "="%char.

(** Removes the one or two [=] the string ends with, if any. *)
Fixpoint strip_padding (s : string) : string :=
  match s with
  | EmptyString => EmptyString
  | String c r =>
      if is_eq_sign c && (String.eqb r EmptyString || String.eqb r "=")
      then EmptyString
      else String c (strip_padding r)
  end.

Definition atob (data : string) : option string :=
  let d := Str.filter (fun c => negb (is_ascii_whitespace c)) data in
  let d := if Nat.eqb (Nat.modulo (String.length d) 4) 0
           then strip_padding d else d in
  if Nat.eqb (Nat.modulo (String.length d) 4) 1 then None
  else option_map bytes_of_sextets (decode_chars d).

End Base64.

(** ** JSON values, [JSON.parse] and [JSON.stringify] *)

Module Json.

(** A JavaScript value as [JSON.parse] builds it, plus [undefined], the
    value of a property that is not there.  A number literal is kept as
    mantissa and decimal exponent: [JNumber m e] is the double nearest to
    m * 10^e.  A string with a code unit above 255, which only a [\u]
    escape can write in a text that [atob] returned, is [JWide], the list
    of its code units: a string that no string of this embedding equals.
    The members of an object are kept in source order; a member whose name
    has a code unit above 255 is not kept, since no property this program
    reads has such a name and nothing enumerates the members. *)
Inductive JSON : Type :=
| JUndefined
| JNull
| JBool (b : bool)
| JNumber (m e : Z)
| JString (s : string)
| JWide (units : list N)
| JArray (l : list JSON)
| JObject (members : list (string * JSON)).

(** [v.name]: the last member of that name wins, as in [JSON.parse]; a
    property of a non-object primitive is [undefined].  Reading a property
    of [null] or [undefined] is a [TypeError]: callers test for these
    first. *)
Fixpoint lookup (name : string) (members : list (string * JSON)) : JSON :=
  match members with
  | [] => JUndefined
  | (k, v) :: r =>
      match lookup name r with
      | JUndefined => if String.eqb k name then v else JUndefined
      | found => found
      end
  end.

Definition get_field (v : JSON) (name : string) : JSON :=
  match v with
  | JObject members => lookup name members
  | _ => JUndefined
  end.

(** *** Numbers *)

(** The double a number literal denotes: zero, a finite [q * 2^E] with
    [0 < q < 2^53] and [-1074 <= E <= 971], or an infinity. *)
Inductive Double : Type :=
| DZero
| DFinite (neg : bool) (q E : Z)
| DInfinity (neg : bool).

(** [num / den] rounded to the nearest integer, a tie to the even one. *)
Definition round_half_even (num den : Z) : Z :=
  let q := num / den in
  match Z.compare (2 * (num mod den)) den with
  | Lt => q
  | Gt => q + 1
  | Eq => if Z.even q then q else q + 1
  end.

(** The double nearest to [m * 10^e], ties to even. *)
Definition double_of (m e : Z) : Double :=
  if Z.eqb m 0 then DZero
  else
    let neg := Z.ltb m 0 in
    let num := if Z.leb 0 e then Z.abs m * 10 ^ e else Z.abs m in
    let den := if Z.leb 0 e then 1 else 10 ^ (- e) in
    let reaches (k : Z) :=
      if Z.leb 0 k then Z.leb (den * 2 ^ k) num
      else Z.leb den (num * 2 ^ (- k)) in
    let b := Z.log2 num - Z.log2 den in
    let k := if reaches (b + 1) then b + 1
             else if reaches b then b else b - 1 in
    let E := Z.max (k - 52) (-1074) in
    let q := if Z.leb 0 E then round_half_even num (den * 2 ^ E)
             else round_half_even (num * 2 ^ (- E)) den in
    let E := if Z.eqb q (2 ^ 53) then E + 1 else E in
    let q := if Z.eqb q (2 ^ 53) then 2 ^ 52 else q in
    if Z.eqb q 0 then DZero
    else if Z.ltb 971 E then DInfinity neg
    else DFinite neg q E.

(** [s * 10^p] compared with [x * 2^t]. *)
Definition compare_scaled (s p x t : Z) : comparison :=
  Z.compare (s * 10 ^ Z.max p 0 * 2 ^ Z.max (- t) 0)
            (x * 2 ^ Z.max t 0 * 10 ^ Z.max (- p) 0).

(** The candidate of [k] digits for the double [q * 2^E], whose decimal
    exponent is [n]: the multiple of [10^(n-k)] nearest to it that reads
    back as it, if there is one. *)
Definition candidate (q E n k : Z) : option Z :=
  let t := E - 2 in
  let v := 4 * q in
  let low := if Z.eqb q (2 ^ 52) && Z.ltb (-1074) E then v - 1 else v - 2 in
  let high := v + 2 in
  let closed := Z.even q in
  let p := n - k in
  let s_lo := (v * 2 ^ Z.max t 0 * 10 ^ Z.max (- p) 0)
              / (2 ^ Z.max (- t) 0 * 10 ^ Z.max p 0) in
  let s_hi := s_lo + 1 in
  let lo_in :=
    match compare_scaled s_lo p low t with
    | Gt => true
    | Eq => closed
    | Lt => false
    end in
  let hi_in :=
    match compare_scaled s_hi p high t with
    | Lt => true
    | Eq => closed
    | Gt => false
    end in
  match lo_in, hi_in with
  | false, false => None
  | true, false => Some s_lo
  | false, true => Some s_hi
  | true, true =>
      match compare_scaled (2 * s_lo + 1) p (2 * v) t with
      | Gt => Some s_lo
      | Lt => Some s_hi
      | Eq => Some (if Z.even s_lo then s_lo else s_hi)
      end
  end.

(** The first length from [k] on that has a candidate; seventeen digits
    always have one. *)
Fixpoint first_candidate (q E n : Z) (k : Z) (fuel : nat) : Z * Z :=
  match fuel with
  | O => (0, k)
  | S f =>
      match candidate q E n k with
      | Some s => (s, k)
      | None => first_candidate q E n (k + 1) f
      end
  end.

(** The decimal exponent of [q * 2^E]: the [n] with
    [10^(n-1) <= q * 2^E < 10^n]. *)
Definition decimal_exponent (q E : Z) : Z :=
  let reaches (j : Z) :=
    match compare_scaled 1 j q E with
    | Gt => false
    | _ => true
    end in
  let g := ((Z.log2 q + E) * 30103) / 100000 in
  if reaches (g + 2) then g + 3
  else if reaches (g + 1) then g + 2
  else if reaches g then g + 1
  else if reaches (g - 1) then g
  else g - 1.

(** The digits and the exponent of Number::toString: the shortest decimal
    [s * 10^(n-k)], [s] of [k] digits, that reads back as the double, and
    among those the nearest to it; as [(s, n)]. *)
Definition shortest (q E : Z) : Z * Z :=
  let n := decimal_exponent q E in
  let '(s, k) := first_candidate q E n 1 17 in
  if Z.eqb s (10 ^ k) then (1, n + 1) else (s, n).

(** JavaScript truthiness, the meaning of [!v] and of [if (v)]: a number
    is falsy when its double is zero. *)
Definition truthy (v : JSON) : bool :=
  match v with
  | JUndefined | JNull => false
  | JBool b => b
  | JNumber m e =>
      match double_of m e with
      | DZero => false
      | _ => true
      end
  | JString s => negb (String.eqb s EmptyString)
  | JWide units =>
      match units with
      | [] => false
      | _ => true
      end
  | JArray _ | JObject _ => true
  end.

(** [v === s] for a string [s]. *)
Definition strict_eq_string (v : JSON) (s : string) : bool :=
  match v with
  | JString t => String.eqb t s
  | _ => false
  end.

(** *** Printing *)

Definition hex_digit (n : N) : ascii :=
  if N.ltb n 10 then ascii_of_N (n + 48) else ascii_of_N (n + 87).

(** QuoteJSONString, one code unit. *)
Definition escape_char (c : ascii) : string :=
  let n := N_of_ascii c in
  if Ascii.eqb c Str.dq then String Str.backslash (String Str.dq EmptyString)
  else if Ascii.eqb c Str.backslash
       then String Str.backslash (String Str.backslash EmptyString)
  else if N.eqb n 8 then String Str.backslash "b"
  else if N.eqb n 9 then String Str.backslash "t"
  else if N.eqb n 10 then String Str.backslash "n"
  else if N.eqb n 12 then String Str.backslash "f"
  else if N.eqb n 13 then String Str.backslash "r"
  else if N.ltb n 32
       then String Str.backslash
              (String "u" (String "0" (String "0"
                 (String (hex_digit (n / 16)) (String (hex_digit (n mod 16))
                    EmptyString)))))
  else String c EmptyString.

Fixpoint escape (s : string) : string :=
  match s with
  | EmptyString => EmptyString
  | String c r => escape_char c ++ escape r
  end.

Definition quote (s : string) : string :=
  String Str.dq (escape s ++ String Str.dq EmptyString).

(** Number::toString of an integer below 10^21 in magnitude. *)
Definition string_of_Z (z : Z) : string :=
  NilZero.string_of_int (Z.to_int z).

Fixpoint zeros (n : nat) : string :=
  match n with
  | O => EmptyString
  | S m => String "0" (zeros m)
  end.

(** Number::toString of a finite, non-zero magnitude [q * 2^E]. *)
Definition magnitude_toString (q E : Z) : string :=
  let '(s, n) := shortest q E in
  let digits := string_of_Z s in
  let k := Z.of_nat (String.length digits) in
  if Z.leb k n && Z.leb n 21 then
    digits ++ zeros (Z.to_nat (n - k))
  else if Z.ltb 0 n && Z.leb n 21 then
    substring 0 (Z.to_nat n) digits ++ "." ++
    substring (Z.to_nat n) (Z.to_nat (k - n)) digits
  else if Z.ltb (-6) n && Z.leb n 0 then
    "0." ++ zeros (Z.to_nat (- n)) ++ digits
  else
    let exponent :=
      (if Z.ltb (n - 1) 0 then "-" else "+") ++ string_of_Z (Z.abs (n - 1)) in
    if Z.eqb k 1 then digits ++ "e" ++ exponent
    else substring 0 1 digits ++ "." ++
         substring 1 (Z.to_nat (k - 1)) digits ++ "e" ++ exponent.

(** Number::toString of the number a literal [m * 10^e] denotes. *)
Definition Number_toString (m e : Z) : string :=
  match double_of m e with
  | DZero => "0"
  | DFinite neg q E =>
      (if neg then "-" else EmptyString) ++ magnitude_toString q E
  | DInfinity neg => if neg then "-Infinity" else "Infinity"
  end.

(** ToString, the conversion a template literal applies: [None] when the
    text has a code unit above 255.  An array is its elements joined by
    commas, [null] and [undefined] among them as the empty text. *)
Fixpoint ToString (v : JSON) : option string :=
  match v with
  | JUndefined => Some "undefined"
  | JNull => Some "null"
  | JBool b => Some (if b then "true" else "false")
  | JNumber m e => Some (Number_toString m e)
  | JString s => Some s
  | JWide _ => None
  | JArray l =>
      let element (x : JSON) : option string :=
        match x with
        | JUndefined | JNull => Some EmptyString
        | _ => ToString x
        end in
      (fix join (l : list JSON) : option string :=
         match l with
         | [] => Some EmptyString
         | [x] => element x
         | x :: r =>
             match element x, join r with
             | Some a, Some b => Some (a ++ "," ++ b)
             | _, _ => None
             end
         end) l
  | JObject _ => Some "[object Object]"
  end.

(** What the mint paths serialise: objects whose properties are strings
    and integers. *)
Inductive Scalar : Type :=
| SStr (s : string)
| SInt (z : Z).

Definition stringify_scalar (v : Scalar) : string :=
  match v with
  | SStr s => quote s
  | SInt z => string_of_Z z
  end.

Fixpoint stringify_members (o : list (string * Scalar)) : string :=
  match o with
  | [] => EmptyString
  | [(k, v)] => quote k ++ ":" ++ stringify_scalar v
  | (k, v) :: r =>
      quote k ++ ":" ++ stringify_scalar v ++ "," ++ stringify_members r
  end.

Definition JSON_stringify (o : list (string * Scalar)) : string :=
  "{" ++ stringify_members o ++ "}".

Definition value_of_scalar (v : Scalar) : JSON :=
  match v with
  | SStr s => JString s
  | SInt z => JNumber z 0
  end.

Definition object_of (o : list (string * Scalar)) : JSON :=
  JObject (map (fun kv => (fst kv, value_of_scalar (snd kv))) o).

(** What follows a value inside an object: a comma or the closing brace. *)
Definition after_value (t : string) : Prop :=
  exists c r, t = String c r /\ (c = ","%char \/ c = "}"%char).

(** *** Parsing *)

Definition is_ws (c : ascii) : bool :=
  let n := N_of_ascii c in
  N.eqb n 32 || N.eqb n 9 || N.eqb n 10 || N.eqb n 13.

Fixpoint skip_ws (s : string) : string :=
  match s with
  | EmptyString => EmptyString
  | String c r => if is_ws c then skip_ws r else s
  end.

Definition hex_value (c : ascii) : option N :=
  let n := N_of_ascii c in
  if Str.in_range 48 57 c then Some (n - 48)%N
  else if Str.in_range 97 102 c then Some (n - 87)%N
  else if Str.in_range 65 70 c then Some (n - 55)%N
  else None.

Definition hex4 (a b c d : ascii) : option N :=
  match hex_value a, hex_value b, hex_value c, hex_value d with
  | Some x, Some y, Some z, Some w => Some (((x * 16 + y) * 16 + z) * 16 + w)%N
  | _, _, _, _ => None
  end.

Definition unescape (c : ascii) : option ascii :=
  if Ascii.eqb c Str.dq then Some Str.dq
  else if Ascii.eqb c Str.backslash then Some Str.backslash
  else if Ascii.eqb c "/" then Some "/"%char
  else if Ascii.eqb c "b" then Some "008"%char
  else if Ascii.eqb c "f" then Some "012"%char
  else if Ascii.eqb c "n" then Some "010"%char
  else if Ascii.eqb c "r" then Some "013"%char
  else if Ascii.eqb c "t" then Some "009"%char
  else None.

Definition cons_char (c : ascii) (r : option (string * string))
  : option (string * string) :=
  match r with
  | Some (s, rest) => Some (String c s, rest)
  | None => None
  end.

(** The characters of a string literal after its opening quote, up to and
    including the closing quote; the unescaped string and the rest.  This
    is the reading of a literal all of whose code units are below 256:
    a [\u] escape above 00FF denotes a code unit outside this embedding's
    strings and is refused here, and [parse_string_units] reads such a
    literal. *)
Fixpoint parse_string_chars (s : string) : option (string * string) :=
  match s with
  | EmptyString => None
  | String c r =>
      if Ascii.eqb c Str.dq then Some (EmptyString, r)
      else if Ascii.eqb c Str.backslash then
        match r with
        | EmptyString => None
        | String e r1 =>
            if Ascii.eqb e "u" then
              match r1 with
              | String h1 (String h2 (String h3 (String h4 r2))) =>
                  match hex4 h1 h2 h3 h4 with
                  | Some n =>
                      if N.ltb n 256
                      then cons_char (ascii_of_N n) (parse_string_chars r2)
                      else None
                  | None => None
                  end
              | _ => None
              end
            else
              match unescape e with
              | Some x => cons_char x (parse_string_chars r1)
              | None => None
              end
        end
      else if N.ltb (N_of_ascii c) 32 then None
      else cons_char c (parse_string_chars r)
  end.

Definition cons_unit (u : N) (r : option (list N * string))
  : option (list N * string) :=
  match r with
  | Some (units, rest) => Some (u :: units, rest)
  | None => None
  end.

(** The same for any literal: its code units and the rest. *)
Fixpoint parse_string_units (s : string) : option (list N * string) :=
  match s with
  | EmptyString => None
  | String c r =>
      if Ascii.eqb c Str.dq then Some ([], r)
      else if Ascii.eqb c Str.backslash then
        match r with
        | EmptyString => None
        | String e r1 =>
            if Ascii.eqb e "u" then
              match r1 with
              | String h1 (String h2 (String h3 (String h4 r2))) =>
                  match hex4 h1 h2 h3 h4 with
                  | Some n => cons_unit n (parse_string_units r2)
                  | None => None
                  end
              | _ => None
              end
            else
              match unescape e with
              | Some x => cons_unit (N_of_ascii x) (parse_string_units r1)
              | None => None
              end
        end
      else if N.ltb (N_of_ascii c) 32 then None
      else cons_unit (N_of_ascii c) (parse_string_units r)
  end.

(** A string literal as a value. *)
Definition parse_string (s : string) : option (JSON * string) :=
  match parse_string_chars s with
  | Some (str, r1) => Some (JString str, r1)
  | None =>
      match parse_string_units s with
      | Some (units, r1) => Some (JWide units, r1)
      | None => None
      end
  end.

(** The name of a member: [Some] of the name, or [None] for a name with a
    code unit above 255. *)
Definition parse_name (s : string) : option (option string * string) :=
  match parse_string_chars s with
  | Some (k, r1) => Some (Some k, r1)
  | None =>
      match parse_string_units s with
      | Some (_, r1) => Some (None, r1)
      | None => None
      end
  end.

Definition add_member (k : option string) (v : JSON)
    (acc : list (string * JSON)) : list (string * JSON) :=
  match k with
  | Some k => (acc ++ [(k, v)])%list
  | None => acc
  end.

(** A run of digits as a decimal numeral. *)
Definition digits_of (s : string) : option uint :=
  match s with
  | EmptyString => None
  | _ => NilEmpty.uint_of_string s
  end.

Definition uint_eqb (a b : uint) : bool :=
  if uint_eq_dec a b then true else false.

(** The integer part of a number: 0, or digits that start with 1-9. *)
Definition parse_int_part (s : string) : option (uint * string) :=
  let '(ds, rest) := Str.span Str.is_digit s in
  match digits_of ds with
  | Some d => if uint_eqb (unorm d) d then Some (d, rest) else None
  | None => None
  end.

Definition parse_frac_part (s : string) : option (uint * string) :=
  match s with
  | String "." r =>
      let '(ds, rest) := Str.span Str.is_digit r in
      match digits_of ds with
      | Some d => Some (d, rest)
      | None => None
      end
  | _ => Some (Nil, s)
  end.

Definition parse_exp_part (s : string) : option (Z * string) :=
  match s with
  | String c r =>
      if Ascii.eqb c "e" || Ascii.eqb c "E" then
        let '(neg, r1) :=
          match r with
          | String "-" r1 => (true, r1)
          | String "+" r1 => (false, r1)
          | _ => (false, r)
          end in
        let '(ds, rest) := Str.span Str.is_digit r1 in
        match digits_of ds with
        | Some d =>
            Some (if neg then - Z.of_uint d else Z.of_uint d, rest)
        | None => None
        end
      else Some (0, s)
  | EmptyString => Some (0, s)
  end.

(** A number literal: sign, integer part, fraction, exponent. *)
Definition parse_number (s : string) : option (JSON * string) :=
  let '(neg, s1) :=
    match s with
    | String c r => if Ascii.eqb c "-" then (true, r) else (false, s)
    | EmptyString => (false, s)
    end in
  match parse_int_part s1 with
  | None => None
  | Some (i, s2) =>
      match parse_frac_part s2 with
      | None => None
      | Some (f, s3) =>
          match parse_exp_part s3 with
          | None => None
          | Some (e, s4) =>
              let m := Z.of_uint (Decimal.app i f) in
              Some (JNumber (if neg then - m else m)
                      (e - Z.of_nat (nb_digits f)), s4)
          end
      end
  end.

Definition parse_literal (s : string) : option (JSON * string) :=
  match s with
  | String "t" (String "r" (String "u" (String "e" r))) =>
      Some (JBool true, r)
  | String "f" (String "a" (String "l" (String "s" (String "e" r)))) =>
      Some (JBool false, r)
  | String "n" (String "u" (String "l" (String "l" r))) =>
      Some (JNull, r)
  | _ => None
  end.

(** The JSON grammar by recursive descent.  [fuel] bounds the depth of the
    calls; [JSON_parse] below gives the length of the text, and more. *)
Fixpoint parse_value (fuel : nat) (s : string) : option (JSON * string) :=
  match fuel with
  | O => None
  | S f =>
      match skip_ws s with
      | EmptyString => None
      | String c r =>
          if Ascii.eqb c "{" then
            match skip_ws r with
            | String "}" r1 => Some (JObject [], r1)
            | _ => parse_members f r []
            end
          else if Ascii.eqb c "[" then
            match skip_ws r with
            | String "]" r1 => Some (JArray [], r1)
            | _ => parse_elements f r []
            end
          else if Ascii.eqb c Str.dq then parse_string r
          else if Ascii.eqb c "-" || Str.is_digit c then
            parse_number (String c r)
          else parse_literal (String c r)
      end
  end

with parse_members (fuel : nat) (s : string) (acc : list (string * JSON))
  : option (JSON * string) :=
  match fuel with
  | O => None
  | S f =>
      match skip_ws s with
      | String c r =>
          if Ascii.eqb c Str.dq then
            match parse_name r with
            | Some (k, r1) =>
                match skip_ws r1 with
                | String ":" r2 =>
                    match parse_value f r2 with
                    | Some (v, r3) =>
                        match skip_ws r3 with
                        | String "," r4 =>
                            parse_members f r4 (add_member k v acc)
                        | String "}" r4 =>
                            Some (JObject (add_member k v acc), r4)
                        | _ => None
                        end
                    | None => None
                    end
                | _ => None
                end
            | None => None
            end
          else None
      | EmptyString => None
      end
  end

with parse_elements (fuel : nat) (s : string) (acc : list JSON)
  : option (JSON * string) :=
  match fuel with
  | O => None
  | S f =>
      match parse_value f s with
      | Some (v, r1) =>
          match skip_ws r1 with
          | String "," r2 => parse_elements f r2 (acc ++ [v])
          | String "]" r2 => Some (JArray (acc ++ [v]), r2)
          | _ => None
          end
      | None => None
      end
  end.

(** [JSON.parse]: one value, then only whitespace.  [None] is the thrown
    [SyntaxError]. *)
Definition JSON_parse (text : string) : option JSON :=
  match parse_value (S (String.length text)) text with
  | Some (v, rest) =>
      match skip_ws rest with
      | EmptyString => Some v
      | _ => None
      end
  | None => None
  end.

End Json.

(** ** The database: tables, rows and the query result modifiers *)

Module Db.

Inductive SessionStatus : Type := active | ended.

Inductive AttendanceStatus : Type := present | pending | absent | rejected.

Inductive Role : Type := admin | teacher | student.

(** A row of [sessions] (interface [Session] of api.ts, and the column
    [notifications_sent] of the generated types). *)
Record Session : Type := mkSession {
  s_id : string;
  s_class_id : string;
  s_teacher_id : string;
  s_start_time : Z;
  s_end_time : Z;
  s_extended : bool;
  s_qr_secret : string;
  s_status : SessionStatus;
  s_notifications_sent : bool
}.

(** A row of [attendance] (interface [Attendance]).  The generated row id
    is left out: UNIQUE(session_id, student_id) makes the pair the key, and
    the one update made by row id follows a [single] select by that pair.
    The review and hash columns, which no modelled operation touches, are
    left out too.  [a_liveness] keeps the value the handler sent. *)
Record Attendance : Type := mkAttendance {
  a_session_id : string;
  a_student_id : string;
  a_status : AttendanceStatus;
  a_checkin_time : option Z;
  a_face_score : option Z;
  a_liveness : Json.JSON;
  a_photo_url : option string
}.

Record Enrollment : Type := mkEnrollment {
  e_class_id : string;
  e_student_id : string;
  e_roll_number : option string
}.

Record Profile : Type := mkProfile {
  p_id : string;
  p_name : string;
  p_email : string;
  p_role : Role
}.

(** The store: the four tables and the object paths of the
    [attendance-photos] bucket. *)
Record Store : Type := mkStore {
  sessions : list Session;
  attendance : list Attendance;
  enrollments : list Enrollment;
  profiles : list Profile;
  photos : list string
}.

Definition with_sessions (st : Store) (l : list Session) : Store :=
  mkStore l (attendance st) (enrollments st) (profiles st) (photos st).

Definition with_attendance (st : Store) (l : list Attendance) : Store :=
  mkStore (sessions st) l (enrollments st) (profiles st) (photos st).

Definition with_photos (st : Store) (l : list string) : Store :=
  mkStore (sessions st) (attendance st) (enrollments st) (profiles st) l.

Definition status_eqb (a b : SessionStatus) : bool :=
  match a, b with
  | active, active | ended, ended => true
  | _, _ => false
  end.

Definition att_status_eqb (a b : AttendanceStatus) : bool :=
  match a, b with
  | present, present | pending, pending
  | absent, absent | rejected, rejected => true
  | _, _ => false
  end.

(** [.single()]: exactly one row, otherwise an error and no data. *)
Definition single {A : Type} (rows : list A) : option A :=
  match rows with
  | [r] => Some r
  | _ => None
  end.

(** [.maybeSingle()]: no row is [data: null] without error, one row is the
    row, several rows are an error. *)
Inductive MaybeRow (A : Type) : Type :=
| NoRow
| OneRow (r : A)
| ManyRows.
Arguments NoRow {A}.
Arguments OneRow {A} r.
Arguments ManyRows {A}.

Definition maybeSingle {A : Type} (rows : list A) : MaybeRow A :=
  match rows with
  | [] => NoRow
  | [r] => OneRow r
  | _ => ManyRows
  end.

(** [.eq('id', sessionId)] *)
Definition sessions_by_id (sessionId : string) (st : Store) : list Session :=
  filter (fun s => String.eqb (s_id s) sessionId) (sessions st).

(** [.update(f).eq('id', sessionId)] *)
Definition update_sessions_by_id (sessionId : string) (f : Session -> Session)
    (st : Store) : Store :=
  with_sessions st
    (map (fun s => if String.eqb (s_id s) sessionId then f s else s)
       (sessions st)).

(** [.eq('session_id', sessionId).eq('student_id', studentId)] *)
Definition is_attendance_of (sessionId studentId : string) (a : Attendance)
  : bool :=
  String.eqb (a_session_id a) sessionId && String.eqb (a_student_id a) studentId.

Definition attendance_of (sessionId studentId : string) (st : Store)
  : list Attendance :=
  filter (is_attendance_of sessionId studentId) (attendance st).

Definition update_attendance_of (sessionId studentId : string)
    (f : Attendance -> Attendance) (st : Store) : Store :=
  with_attendance st
    (map (fun a => if is_attendance_of sessionId studentId a then f a else a)
       (attendance st)).

(** Insertion of rows into [attendance]: UNIQUE(session_id, student_id) is
    checked against the table and among the new rows, and a violation
    refuses the whole statement ([None]). *)
Fixpoint insert_attendance (rows : list Attendance) (table : list Attendance)
  : option (list Attendance) :=
  match rows with
  | [] => Some table
  | r :: rest =>
      if existsb (is_attendance_of (a_session_id r) (a_student_id r)) table
      then None
      else insert_attendance rest (table ++ [r])
  end.

(** Insertion of a row into [sessions] under its primary key. *)
Definition insert_session (row : Session) (table : list Session)
  : option (list Session) :=
  if existsb (fun s => String.eqb (s_id s) (s_id row)) table then None
  else Some (table ++ [row])%list.

(** [.select('student_id').eq('class_id', classId)] on [enrollments] *)
Definition enrolled_in (classId : string) (st : Store) : list Enrollment :=
  filter (fun e => String.eqb (e_class_id e) classId) (enrollments st).

End Db.

(** ** src/lib/api.ts *)

Module Api.
Import Json Db.

(** The result of an async function: the value it resolves to, or the
    message of the error it throws. *)
Inductive Result (A : Type) : Type :=
| Ok (value : A)
| Err (message : string).
Arguments Ok {A} value.
Arguments Err {A} message.

(** The message of a PostgREST error that the code rethrows as it is. *)
Definition db_error : string := "database error".

Section LocalDay.

(** The local calendar of the runtime.  For the clock [now] and its local
    date y-m-d, [todayStart now] is the instant of [new Date(y, m, d)] and
    [todayEnd now] that of [new Date(y, m, d + 1)]: the time zone and its
    daylight saving rules decide them, and a day need not have 24 hours. *)
Variables todayStart todayEnd : Z -> Z.

(** The rows of the same-day lookup of [createSession]. *)
Definition sessions_today (classId teacherId : string) (now : Z) (st : Store)
  : list Session :=
  filter (fun s =>
            String.eqb (s_class_id s) classId
            && String.eqb (s_teacher_id s) teacherId
            && Z.leb (todayStart now) (s_start_time s)
            && Z.ltb (s_start_time s) (todayEnd now))
    (sessions st).

Definition reactivate (now : Z) (secret : string) (s : Session) : Session :=
  mkSession (s_id s) (s_class_id s) (s_teacher_id s) (s_start_time s)
    (now + 90 * 1000) (s_extended s) secret active (s_notifications_sent s).

Definition absent_record (sessionId : string) (e : Enrollment) : Attendance :=
  mkAttendance sessionId (e_student_id e) absent None None JNull None.

(** [createSession(classId, teacherId)].  [now] is the clock, [secret] the
    string drawn from [Math.random] and [new_id] the uuid the database
    generates for an inserted row. *)
Definition createSession (now : Z) (secret new_id : string)
    (classId teacherId : string) (st : Store) : Result Session * Store :=
  match maybeSingle (sessions_today classId teacherId now st) with
  | OneRow existingSession =>
      let st1 :=
        update_sessions_by_id (s_id existingSession) (reactivate now secret) st in
      match single (sessions_by_id (s_id existingSession) st1) with
      | Some data => (Ok data, st1)
      | None => (Err "Failed to reactivate session", st1)
      end
  | _ =>
      let row :=
        mkSession new_id classId teacherId now (now + 90 * 1000) false secret
          active false in
      match insert_session row (sessions st) with
      | None => (Err db_error, st)
      | Some table =>
          let st1 := with_sessions st table in
          let attendanceRecords :=
            map (absent_record new_id) (enrolled_in classId st1) in
          match insert_attendance attendanceRecords (attendance st1) with
          | Some rows => (Ok row, with_attendance st1 rows)
          | None => (Ok row, st1)
          end
      end
  end.

End LocalDay.

(** The update of [extendSession]: [{ end_time: newEndTime, extended: true }]. *)
Definition extend_to (newEndTime : Z) (s : Session) : Session :=
  mkSession (s_id s) (s_class_id s) (s_teacher_id s) (s_start_time s)
    newEndTime true (s_qr_secret s) (s_status s) (s_notifications_sent s).

(** [extendSession(sessionId)] *)
Definition extendSession (sessionId : string) (st : Store)
  : Result Session * Store :=
  match single (sessions_by_id sessionId st) with
  | None => (Err "Session cannot be extended", st)
  | Some session =>
      if s_extended session then (Err "Session cannot be extended", st)
      else
        let newEndTime := s_end_time session + 30 * 1000 in
        let st1 := update_sessions_by_id sessionId (extend_to newEndTime) st in
        match single (sessions_by_id sessionId st1) with
        | Some data => (Ok data, st1)
        | None => (Err db_error, st1)
        end
  end.

(** The update of [endSession]: [{ status: 'ended', end_time: now }]. *)
Definition finish (now : Z) (s : Session) : Session :=
  mkSession (s_id s) (s_class_id s) (s_teacher_id s) (s_start_time s)
    now (s_extended s) (s_qr_secret s) ended (s_notifications_sent s).

(** [endSession(sessionId)] *)
Definition endSession (now : Z) (sessionId : string) (st : Store)
  : Result Session * Store :=
  let st1 := update_sessions_by_id sessionId (finish now) st in
  match single (sessions_by_id sessionId st1) with
  | Some data => (Ok data, st1)
  | None => (Err db_error, st1)
  end.

(** [generateQRToken(sessionId, qrSecret)]; [now] is [Date.now()]. *)
Definition generateQRToken (now : Z) (sessionId qrSecret : string) : string :=
  let timestamp := now / 1000 in
  let slotTime := timestamp / 10 in
  Base64.btoa
    (JSON_stringify
       [("sessionId", SStr sessionId); ("slotTime", SInt slotTime);
        ("secret", SStr qrSecret)]).

(** [JSON.parse(atob(token))]; [None] when either throws. *)
Definition decode (token : string) : option JSON :=
  match Base64.atob token with
  | Some text => JSON_parse text
  | None => None
  end.

(** The text a filter [.eq(column, value)] sends for [value]: the
    template literal [`eq.${value}`] of postgrest-js converts it with
    ToString.  A text with a code unit above 255 is no id. *)
Definition text_of (v : JSON) : string :=
  match ToString v with
  | Some s => s
  | None => EmptyString
  end.

(** The rows [.eq('id', sessionId).eq('status', 'active')] selects, for the
    [sessionId] read from the token: those whose id is its text. *)
Definition active_sessions_by_id (sessionId : JSON) (st : Store)
  : list Session :=
  match ToString sessionId with
  | Some id =>
      filter (fun s => status_eqb (s_status s) active) (sessions_by_id id st)
  | None => []
  end.

Definition scan (now : Z) (a : Attendance) : Attendance :=
  mkAttendance (a_session_id a) (a_student_id a) pending (Some now)
    (a_face_score a) (a_liveness a) (a_photo_url a).

(** The second half of [acknowledgeScan]: the attendance row of the
    student for the session is created as pending, refused when it is
    already present, or set to pending. *)
Definition record_scan (now : Z) (sessionId studentId : string) (st : Store)
  : Result Attendance * Store :=
  match maybeSingle (attendance_of sessionId studentId st) with
  | ManyRows => (Err "Failed to check attendance status", st)
  | NoRow =>
      let row :=
        mkAttendance sessionId studentId pending (Some now) None JNull None in
      match insert_attendance [row] (attendance st) with
      | Some rows => (Ok row, with_attendance st rows)
      | None => (Err "Failed to create attendance record", st)
      end
  | OneRow currentAttendance =>
      if att_status_eqb (a_status currentAttendance) present
      then (Err "You have already been marked present for this session", st)
      else
        let st1 := update_attendance_of sessionId studentId (scan now) st in
        match maybeSingle (attendance_of sessionId studentId st1) with
        | OneRow data => (Ok data, st1)
        | NoRow => (Err "No attendance record found to update", st1)
        | ManyRows => (Err db_error, st1)
        end
  end.

(** The same for the [sessionId] read from the token, once a session has
    been found for its text.  The filters take that text; the row to
    insert carries the value itself, and [session_id], a uuid column,
    refuses a value that is not a string. *)
Definition record_scan_of (now : Z) (sessionId : JSON) (studentId : string)
    (st : Store) : Result Attendance * Store :=
  match sessionId with
  | JString id => record_scan now id studentId st
  | _ =>
      match maybeSingle (attendance_of (text_of sessionId) studentId st) with
      | NoRow => (Err "Failed to create attendance record", st)
      | _ => record_scan now (text_of sessionId) studentId st
      end
  end.

Definition is_null (v : JSON) : bool :=
  match v with
  | JNull => true
  | _ => false
  end.

(** [acknowledgeScan(token, studentId)], which the client of the student
    calls.  Destructuring [null] is a [TypeError].  What the student may
    read of [sessions] is [Policy.session_visible], not part of the
    function. *)
Definition acknowledgeScan (now : Z) (token studentId : string) (st : Store)
  : Result Attendance * Store :=
  match decode token with
  | None => (Err "Invalid token format", st)
  | Some tokenData =>
      if is_null tokenData then (Err "TypeError", st)
      else
        let sessionId := get_field tokenData "sessionId" in
        if negb (truthy sessionId) then (Err "Token missing session ID", st)
        else
          match maybeSingle (active_sessions_by_id sessionId st) with
          | OneRow session =>
              if negb (strict_eq_string (get_field tokenData "secret")
                         (s_qr_secret session))
              then (Err "Invalid QR token", st)
              else if Z.gtb now (s_end_time session)
              then (Err "Session has ended", st)
              else record_scan_of now sessionId studentId st
          | _ => (Err "Session not found or expired", st)
          end
  end.

End Api.

(** ** The edge functions *)

Module Edge.
Import Json Db.

(** *** submit-attendance *)

(** The request: the Authorization header together with what
    [auth.getUser] answers for it ([None]: no header; [Some None]: a header
    that names no user; [Some (Some uid)]: the authenticated user), and the
    fields of the JSON body. *)
Record SubmitRequest : Type := mkSubmitRequest {
  req_auth : option (option string);
  req_sessionId : string;
  req_token : string;
  req_photoBlob : option string;
  req_liveness : JSON
}.

Inductive Response : Type :=
| Failure (http_status : Z) (error : string)
| Success (attendance : Attendance) (status : AttendanceStatus)
    (message : string).

(** [liveness === true ? 'present' : 'pending'] *)
Definition attendanceStatus (liveness : JSON) : AttendanceStatus :=
  match liveness with
  | JBool true => present
  | _ => pending
  end.

Definition message_of (status : AttendanceStatus) : string :=
  match status with
  | present => "Attendance marked successfully!"
  | pending => "Attendance submitted for review"
  | _ => "Face verification failed"
  end.

(** The upload of the photo: [None] is no photo, and the outcome is the
    stored [photoUrl] or the failure response. *)
Inductive Upload : Type :=
| Uploaded (photoUrl : option string) (bucket : list string)
| UploadFailed (http_status : Z) (error : string).

Definition upload_photo (now : Z) (uid sessionId : string)
    (photoBlob : option string) (bucket : list string) : Upload :=
  match photoBlob with
  | None => Uploaded None bucket
  | Some blob =>
      if String.eqb blob EmptyString then Uploaded None bucket
      else
        let fileName :=
          (uid ++ "/" ++ sessionId ++ "/" ++ string_of_Z now ++ ".jpg")%string in
        match Base64.atob blob with
        | None => UploadFailed 500 "Internal server error"
        | Some _ =>
            if existsb (String.eqb fileName) bucket
            then UploadFailed 500 "Failed to upload photo"
            else Uploaded (Some ("attendance-photos/" ++ fileName)%string)
                   (bucket ++ [fileName])
        end
  end.

(** The [liveness] column after a write of [liveness]: [JSON.stringify]
    leaves a property that is [undefined] out of the body, so the column
    keeps what it had, NULL in a new row. *)
Definition written (liveness stored : JSON) : JSON :=
  match liveness with
  | JUndefined => stored
  | _ => liveness
  end.

(** The handler of [submit-attendance].  It reads [sessions] and
    [enrollments] with the service role and reads and writes [attendance]
    as the student; the trigger that guards those writes is
    [Policy.validate_attendance_update_improved], not part of the handler
    here. *)
Definition submit_attendance (now : Z) (req : SubmitRequest) (st : Store)
  : Response * Store :=
  match req_auth req with
  | None => (Failure 401 "Authorization header required", st)
  | Some auth =>
      let sessionId := req_sessionId req in
      match single (sessions_by_id sessionId st) with
      | None => (Failure 404 "Invalid session", st)
      | Some session =>
          if negb (status_eqb (s_status session) active)
          then (Failure 400 "Session is not active", st)
          else if Z.ltb now (s_start_time session)
                  || Z.gtb now (s_end_time session)
          then (Failure 400 "Session not in valid time window", st)
          else
            match Api.decode (req_token req) with
            | None => (Failure 401 "Invalid token format", st)
            | Some tokenData =>
                if negb (truthy tokenData)
                   || negb (strict_eq_string (get_field tokenData "sessionId")
                              sessionId)
                   || negb (strict_eq_string (get_field tokenData "secret")
                              (s_qr_secret session))
                then (Failure 401 "Invalid token", st)
                else
                  match auth with
                  | None => (Failure 401 "Unauthorized", st)
                  | Some uid =>
                      match
                        single
                          (filter
                             (fun e => String.eqb (e_student_id e) uid
                                       && String.eqb (e_class_id e)
                                            (s_class_id session))
                             (enrollments st))
                      with
                      | None => (Failure 403 "Not enrolled in this class", st)
                      | Some _ =>
                          match
                            upload_photo now uid sessionId (req_photoBlob req)
                              (photos st)
                          with
                          | UploadFailed http_status error =>
                              (Failure http_status error, st)
                          | Uploaded photoUrl bucket =>
                              let st1 := with_photos st bucket in
                              let liveness := req_liveness req in
                              let status := attendanceStatus liveness in
                              let row (stored : JSON) :=
                                mkAttendance sessionId uid status (Some now)
                                  None (written liveness stored) photoUrl in
                              match single (attendance_of sessionId uid st1) with
                              | Some _ =>
                                  let st2 :=
                                    update_attendance_of sessionId uid
                                      (fun a => row (a_liveness a)) st1 in
                                  match
                                    single (attendance_of sessionId uid st2)
                                  with
                                  | Some data =>
                                      (Success data status (message_of status),
                                       st2)
                                  | None =>
                                      (Failure 500 "Failed to update attendance",
                                       st2)
                                  end
                              | None =>
                                  match
                                    insert_attendance [row JNull]
                                      (attendance st1)
                                  with
                                  | Some rows =>
                                      (Success (row JNull) status
                                         (message_of status),
                                       with_attendance st1 rows)
                                  | None =>
                                      (Failure 500 "Failed to create attendance",
                                       st1)
                                  end
                              end
                          end
                      end
                  end
            end
      end
  end.

(** *** secure-qr-token *)

(** The token the function mints for a session; [now] is [Date.now()]. *)
Definition secure_qr_token (now : Z) (session : Session) : string :=
  let currentTime := now / 1000 in
  let timeSlot := currentTime / 300 in
  Base64.btoa
    (JSON_stringify
       [("sessionId", SStr (s_id session));
        ("secret", SStr (s_qr_secret session));
        ("timeSlot", SInt timeSlot); ("timestamp", SInt currentTime)]).

Inductive TokenResponse : Type :=
| TokenFailure (http_status : Z) (error : string)
| TokenIssued (token sessionId : string) (validUntil : Z).

Definition role_eqb (a b : Role) : bool :=
  match a, b with
  | admin, admin | teacher, teacher | student, student => true
  | _, _ => false
  end.

(** The handler of [secure-qr-token]; [auth] is as in [SubmitRequest]. *)
Definition secure_qr_token_handler (now : Z) (auth : option (option string))
    (sessionId : string) (st : Store) : TokenResponse :=
  match auth with
  | None => TokenFailure 401 "Authorization header required"
  | Some None => TokenFailure 401 "Unauthorized"
  | Some (Some uid) =>
      match single (filter (fun p => String.eqb (p_id p) uid) (profiles st)) with
      | None => TokenFailure 403 "Only teachers can generate QR tokens"
      | Some profile =>
          if negb (role_eqb (p_role profile) teacher)
          then TokenFailure 403 "Only teachers can generate QR tokens"
          else
            match
              single
                (filter (fun s => String.eqb (s_teacher_id s) uid)
                   (sessions_by_id sessionId st))
            with
            | None => TokenFailure 404 "Session not found or unauthorized"
            | Some session =>
                TokenIssued (secure_qr_token now session) sessionId
                  ((now / 1000 / 300 + 1) * 300 * 1000)
            end
      end
  end.

(** *** The absence notification sweeps *)

(** One call of [resend.emails.send]: the session, the enrollment row of
    the absentee and the address written to.  The text of the mail is not
    modelled. *)
Record Notice : Type := mkNotice {
  n_session_id : string;
  n_student_id : string;
  n_to : string
}.

(** [.update({ status: 'ended' })] on the rows of [sessions] that [expired]
    selects. *)
Definition mark_ended (expired : Session -> bool) (st : Store) : Store :=
  with_sessions st
    (map (fun s =>
            if expired s
            then mkSession (s_id s) (s_class_id s) (s_teacher_id s)
                   (s_start_time s) (s_end_time s) (s_extended s)
                   (s_qr_secret s) ended (s_notifications_sent s)
            else s)
       (sessions st)).

(** The student ids of the attendance rows of a session whose status is
    one of [statuses]. *)
Definition attended (statuses : list AttendanceStatus) (sessionId : string)
    (st : Store) : list string :=
  map a_student_id
    (filter (fun a => String.eqb (a_session_id a) sessionId
                      && existsb (att_status_eqb (a_status a)) statuses)
       (attendance st)).

(** [enrolledStudents.filter(e => !presentStudentIds.includes(e.student_id))] *)
Definition absentees (statuses : list AttendanceStatus) (session : Session)
    (st : Store) : list Enrollment :=
  let presentStudentIds := attended statuses (s_id session) st in
  filter (fun enrollment =>
            negb (existsb (String.eqb (e_student_id enrollment))
                    presentStudentIds))
    (enrolled_in (s_class_id session) st).

(** The embedded [profiles] row of an enrollment. *)
Definition profile_of (e : Enrollment) (st : Store) : option Profile :=
  find (fun p => String.eqb (p_id p) (e_student_id e)) (profiles st).

(** The mails of one session: one per absentee whose profile has an
    email. *)
Definition notices (statuses : list AttendanceStatus) (session : Session)
    (st : Store) : list Notice :=
  flat_map
    (fun absentee =>
       match profile_of absentee st with
       | Some profile =>
           if String.eqb (p_email profile) EmptyString then []
           else [mkNotice (s_id session) (e_student_id absentee)
                   (p_email profile)]
       | None => []
       end)
    (absentees statuses session st).

Definition mark_notified (sessionId : string) (st : Store) : Store :=
  update_sessions_by_id sessionId
    (fun s =>
       mkSession (s_id s) (s_class_id s) (s_teacher_id s) (s_start_time s)
         (s_end_time s) (s_extended s) (s_qr_secret s) (s_status s) true)
    st.

(** The handler of [send-absence-notifications]: the mails it sends and
    the next store. *)
Definition send_absence_notifications (now : Z) (st : Store)
  : list Notice * Store :=
  let thirtyMinutesAgo := now - 30 * 60 * 1000 in
  let st1 :=
    mark_ended (fun s => Z.leb (s_end_time s) now
                         && status_eqb (s_status s) active) st in
  let endedSessions :=
    filter (fun s => Z.leb (s_end_time s) now
                     && Z.leb thirtyMinutesAgo (s_end_time s)
                     && status_eqb (s_status s) ended
                     && negb (s_notifications_sent s))
      (sessions st1) in
  fold_left
    (fun (acc : list Notice * Store) session =>
       let '(sent, cur) := acc in
       ((sent ++ notices [present] session cur)%list,
        mark_notified (s_id session) cur))
    endedSessions ([], st1).

(** The handler of [send-absence-notifications-scheduled]: its own update
    at [now], then the invocation of [send-absence-notifications], whose
    clock reads [now']. *)
Definition send_absence_notifications_scheduled (now now' : Z) (st : Store)
  : list Notice * Store :=
  let st1 :=
    mark_ended (fun s => status_eqb (s_status s) active
                         && Z.ltb (s_end_time s) now) st in
  send_absence_notifications now' st1.

(** [processNotifications] of [send-all-absence-notifications], for the
    sessions [recentSessions] its query returned: the mails it sends.  It
    writes nothing. *)
Definition processNotifications (recentSessions : list Session) (st : Store)
  : list Notice :=
  flat_map (fun session => notices [present; pending] session st)
    recentSessions.

End Edge.

(** ** The attendance trigger of the migrations

    Row-level security and triggers are a layer of their own under the
    operations above, which are embedded as the TypeScript has them.  The
    trigger on [attendance] is embedded here, by itself. *)

Module Policy.
Import Db.

(** [validate_attendance_update_improved], BEFORE INSERT OR UPDATE ON
    attendance: the exception it raises, or [None] when it lets the row
    [NEW] through.  [uid] is [auth.uid()], [user_role] the role of that
    user in [profiles] and [session] the row of [sessions] that
    [NEW.session_id] names.  A comparison with NULL is not true. *)
Definition validate_attendance_update_improved (uid : string)
    (user_role : option Role) (session : option Session) (NEW : Attendance)
  : option string :=
  if String.eqb uid (a_student_id NEW) then
    if negb (att_status_eqb (a_status NEW) pending)
    then Some "Students can only mark attendance as pending"
    else
      match session with
      | Some s =>
          if negb (status_eqb (s_status s) active)
          then Some "Cannot update attendance for inactive session"
          else None
      | None => None
      end
  else if match session with
          | Some s => String.eqb uid (s_teacher_id s)
          | None => false
          end
          || match user_role with Some teacher => true | _ => false end
  then None
  else if match user_role with Some admin => true | _ => false end then None
  else Some "Unauthorized attendance update".

(** The USING clauses of the two policies a SELECT on [sessions] goes
    through: the row is a session of the user as teacher, or of a class the
    user is enrolled in. *)
Definition session_visible (uid : string) (s : Session) (st : Store) : bool :=
  String.eqb (s_teacher_id s) uid
  || existsb (fun e => String.eqb (e_class_id e) (s_class_id s)
                       && String.eqb (e_student_id e) uid)
       (enrollments st).

(** The WITH CHECK of the row-level policy that lets a student update a
    row of [attendance]: the row is the student's own, its status is
    pending and its session is active. *)
Definition student_update_check (uid : string) (NEW : Attendance) (st : Store)
  : bool :=
  String.eqb uid (a_student_id NEW)
  && att_status_eqb (a_status NEW) pending
  && existsb (fun s => String.eqb (s_id s) (a_session_id NEW)
                       && status_eqb (s_status s) active)
       (sessions st).

End Policy.

(** ** Specification vocabulary and sample data *)

Module Spec.
Import Json Db Api Edge.

(** [s'] is [s] with, at most, another [status] and another
    [notifications_sent]. *)
Definition same_session (s s' : Session) : Prop :=
  s_id s' = s_id s /\ s_class_id s' = s_class_id s /\
  s_teacher_id s' = s_teacher_id s /\ s_start_time s' = s_start_time s /\
  s_end_time s' = s_end_time s /\ s_extended s' = s_extended s /\
  s_qr_secret s' = s_qr_secret s.

(** [s'] is [s] up to [notifications_sent]. *)
Definition flagged (s s' : Session) : Prop :=
  same_session s s' /\ s_status s' = s_status s.

(** [s'] is [s] up to [notifications_sent] and a [status] that may have
    gone from active to ended. *)
Definition kept (s s' : Session) : Prop :=
  same_session s s' /\ (s_status s = ended -> s_status s' = ended).

(** What the status repair of a sweep at [now] makes of a session. *)
Definition repaired (now : Z) (s s' : Session) : Prop :=
  same_session s s' /\
  (s_end_time s < now -> s_status s' = ended) /\
  (s_status s = ended -> s_status s' = ended).

(** PRIMARY KEY of [sessions]. *)
Definition sessions_keyed (st : Store) : Prop := NoDup (map s_id (sessions st)).

(** [attendance.session_id REFERENCES sessions(id)]. *)
Definition attendance_refers (st : Store) : Prop :=
  forall a, In a (attendance st) -> In (a_session_id a) (map s_id (sessions st)).

(** UNIQUE(class_id, student_id) of [enrollments]. *)
Definition enrollments_keyed (st : Store) : Prop :=
  NoDup (map (fun e => (e_class_id e, e_student_id e)) (enrollments st)).

(** One call of [createSession] for a class and its teacher: the clock,
    the random secret and the uuid the database would give a new row. *)
Record Call : Type := mkCall {
  call_now : Z;
  call_secret : string;
  call_new_id : string
}.

(** A later call of [createSession], with what the other operations did
    since the call before.  [endSession], [extendSession], the sweeps and
    the calls for other classes rewrite rows of [sessions], and keep the
    id, the class, the teacher and the start time of a row; check-ins and
    reviews rewrite the attendance table. *)
Record Step : Type := mkStep {
  step_sessions : Session -> Session;
  step_records : list Attendance;
  step_call : Call
}.

Definition keeps_day (f : Session -> Session) : Prop :=
  forall s,
    s_id (f s) = s_id s /\ s_class_id (f s) = s_class_id s /\
    s_teacher_id (f s) = s_teacher_id s /\ s_start_time (f s) = s_start_time s.

(** The store a later call finds. *)
Definition found (step : Step) (st : Store) : Store :=
  mkStore (map (step_sessions step) (sessions st)) (step_records step)
    (enrollments st) (profiles st) (photos st).

(** Calls of [createSession] for a class and its teacher, one after the
    other, each on the store it finds: the results and the last store. *)
Fixpoint run (todayStart todayEnd : Z -> Z) (classId teacherId : string)
    (steps : list Step) (st : Store) : list (Result Session) * Store :=
  match steps with
  | [] => ([], st)
  | step :: rest =>
      let c := step_call step in
      let '(r, st1) :=
        createSession todayStart todayEnd (call_now c) (call_secret c)
          (call_new_id c) classId teacherId (found step st) in
      let '(rs, st2) := run todayStart todayEnd classId teacherId rest st1 in
      (r :: rs, st2)
  end.

End Spec.

Module Sample.
Import Json Db Api Edge Spec.

(** A class of two students, its session of the day and their records:
    [stu1] has checked in and waits for review, [stu2] has not. *)
Definition session1 : Session :=
  mkSession "s1" "c1" "t1" 1000 91000 false "k7f3a0" active false.

Definition store1 : Store :=
  mkStore [session1]
    [mkAttendance "s1" "stu1" pending (Some 5000) None JNull None;
     mkAttendance "s1" "stu2" absent None None JNull None]
    [mkEnrollment "c1" "stu1" None; mkEnrollment "c1" "stu2" None]
    [mkProfile "stu1" "Ann" "ann@example.org" student;
     mkProfile "stu2" "Bob" "bob@example.org" student;
     mkProfile "t1" "Tia" "tia@example.org" teacher]
    [].

(** The same, with [stu1] marked present. *)
Definition store_present : Store :=
  with_attendance store1
    [mkAttendance "s1" "stu1" present (Some 5000) None (JBool true) None;
     mkAttendance "s1" "stu2" absent None None JNull None].

(** The same, with the session already extended. *)
Definition store_extended : Store :=
  with_sessions store1 [extend_to 121000 session1].

(** The same, with the session ended at 50 seconds. *)
Definition store_ended : Store :=
  with_sessions store1 [finish 50000 session1].

(** The class before its first session. *)
Definition store0 : Store :=
  mkStore [] [] (enrollments store1) (profiles store1) [].

(** The calendar of a place whose local time is five and a half hours
    ahead of UTC all year: every day has 24 hours. *)
Definition tz : Z := 19800000.

Definition day_ms : Z := 86400000.

Definition midnight (now : Z) : Z := ((now + tz) / day_ms) * day_ms - tz.

Definition next_midnight (now : Z) : Z := midnight now + day_ms.

(** The token on display at 9 seconds, and one minted with an earlier
    secret of the session. *)
Definition token1 : string := generateQRToken 9000 "s1" "k7f3a0".

Definition stale_token : string := generateQRToken 9000 "s1" "old000".

(** Verification submissions of [stu1] for session [s1]. *)
Definition submission (token : string) (liveness : bool) : SubmitRequest :=
  mkSubmitRequest (Some (Some "stu1")) "s1" token None (JBool liveness).

(** Three calls of [createSession] on one day.  The second finds the
    session ended at 5.5 seconds and [stu1] checked in, the third finds
    [stu1] marked present. *)
Definition first_call : Call := mkCall 1000 "k7f3a0" "s1".

Definition later_calls : list Step :=
  [mkStep (finish 5500) (attendance store1) (mkCall 6000 "p2m9x1" "s2");
   mkStep (fun s => s) (attendance store_present) (mkCall 20000 "q8w4z7" "s3")].

(** [session1] after the scheduled sweep has dealt with it. *)
Definition session1_swept : Session :=
  mkSession "s1" "c1" "t1" 1000 91000 false "k7f3a0" ended true.

End Sample.

(** ** src/lib/api.ts: counts and registers *)

Module Reports.
Import Json Db Api.

(** [getActiveSessionsCount(teacherId)] *)
Definition getActiveSessionsCount (teacherId : string) (st : Store) : nat :=
  List.length
    (filter (fun s => String.eqb (s_teacher_id s) teacherId
                      && status_eqb (s_status s) active)
       (sessions st)).

(** The rows of [sessions] of a class, which both registers select, and
    the embedded [attendance(student_id, status)] rows of one of them. *)
Definition class_sessions (classId : string) (st : Store) : list Session :=
  filter (fun s => String.eqb (s_class_id s) classId) (sessions st).

Definition attendance_in (session : Session) (st : Store) : list Attendance :=
  filter (fun a => String.eqb (a_session_id a) (s_id session)) (attendance st).

(** An entry of [getClassRegister], without the name of the student and
    with the sessions themselves in place of their formatted dates. *)
Record ClassRegisterEntry : Type := mkClassRegisterEntry {
  cr_student_id : string;
  cr_total_present : nat;
  cr_total_sessions : nat;
  cr_present_sessions : list Session
}.

(** The callback of [enrollments.map] in [getClassRegister], for the rows
    [sessions] that the query of the sessions returned. *)
Definition register_entry (sessions : list Session) (st : Store)
    (enrollment : Enrollment) : ClassRegisterEntry :=
  let presentSessions :=
    filter (fun session =>
              existsb (fun att =>
                         String.eqb (a_student_id att) (e_student_id enrollment)
                         && att_status_eqb (a_status att) present)
                (attendance_in session st))
      sessions in
  mkClassRegisterEntry (e_student_id enrollment) (List.length presentSessions)
    (List.length sessions) presentSessions.

(** [getClassRegister(classId)], before the final sort by name. *)
Definition getClassRegister (classId : string) (st : Store)
  : list ClassRegisterEntry :=
  map (register_entry (class_sessions classId st) st) (enrolled_in classId st).

(** An entry of [getClassRegisterDetailed], without the name and the
    percentage, and a cell of it without the formatted date. *)
Record SessionCell : Type := mkSessionCell {
  cell_session_id : string;
  cell_status : AttendanceStatus
}.

Record DetailedRegisterEntry : Type := mkDetailedRegisterEntry {
  dr_student_id : string;
  dr_roll_number : string;
  dr_sessions : list SessionCell;
  dr_total_present : nat;
  dr_total_sessions : nat
}.

(** The callback of [sessions.map] in [getClassRegisterDetailed]:
    [attendance?.status || 'absent'] of the first embedded row of the
    student. *)
Definition session_cell (st : Store) (enrollment : Enrollment)
    (session : Session) : SessionCell :=
  let attendance :=
    find (fun a => String.eqb (a_student_id a) (e_student_id enrollment))
      (attendance_in session st) in
  mkSessionCell (s_id session)
    match attendance with
    | Some a => a_status a
    | None => absent
    end.

(** The callback of [enrollments.map] in [getClassRegisterDetailed], for
    the rows [sessions] that the query, ordered by [start_time], returned. *)
Definition detailed_entry (sessions : list Session) (st : Store)
    (enrollment : Enrollment) : DetailedRegisterEntry :=
  let sessionData := map (session_cell st enrollment) sessions in
  let totalPresent :=
    List.length
      (filter (fun s => att_status_eqb (cell_status s) present) sessionData) in
  let totalSessions := List.length sessionData in
  mkDetailedRegisterEntry (e_student_id enrollment)
    match e_roll_number enrollment with
    | Some r => r
    | None => EmptyString
    end
    sessionData totalPresent totalSessions.

End Reports.

(** ** secure-image-access *)

Module ImageAccess.
Import Json Db Api Edge.

(** [filePath.split('/')]: the parts between the slashes, at least one. *)
Fixpoint split (s : string) : list string :=
  match s with
  | EmptyString => [EmptyString]
  | String c rest =>
      if Ascii.eqb c "/" then EmptyString :: split rest
      else
        match split rest with
        | part :: parts => String c part :: parts
        | [] => [String c EmptyString]
        end
  end.

Inductive ImageResponse : Type :=
| ImageFailure (http_status : Z) (error : string)
| SignedUrl (filePath : string).

(** [createSignedUrl(filePath, 3600)] on the bucket: an object that is not
    there cannot be signed.  The signature itself is not modelled. *)
Definition createSignedUrl (filePath : string) (st : Store) : ImageResponse :=
  if existsb (String.eqb filePath) (photos st) then SignedUrl filePath
  else ImageFailure 500 "Failed to generate signed URL".

(** The handler of [secure-image-access]; [auth] is as in
    [SubmitRequest]. *)
Definition secure_image_access (auth : option (option string))
    (filePath : string) (st : Store) : ImageResponse :=
  match auth with
  | None => ImageFailure 401 "Authorization header required"
  | Some None => ImageFailure 401 "Unauthorized"
  | Some (Some uid) =>
      match single (filter (fun p => String.eqb (p_id p) uid) (profiles st)) with
      | None => ImageFailure 404 "Profile not found"
      | Some profile =>
          match p_role profile with
          | admin => createSignedUrl filePath st
          | teacher =>
              match split filePath with
              | studentId :: sessionId :: _ =>
                  match
                    single
                      (filter (fun s => String.eqb (s_teacher_id s) uid)
                         (sessions_by_id sessionId st))
                  with
                  | None => ImageFailure 403 "Unauthorized access to this image"
                  | Some _ => createSignedUrl filePath st
                  end
              | _ => ImageFailure 403 "Unauthorized access to this image"
              end
          | student =>
              match split filePath with
              | first :: _ =>
                  if String.eqb first uid then createSignedUrl filePath st
                  else ImageFailure 403 "Unauthorized access to this image"
              | [] => ImageFailure 403 "Unauthorized access to this image"
              end
          end
      end
  end.

End ImageAccess.

(** ** Further vocabulary *)

Module Notions.
Import Json Db Api Edge Spec.

(** The token data names the session and carries its current secret. *)
Definition names (td : JSON) (session : Session) : Prop :=
  get_field td "sessionId" = JString (s_id session) /\
  get_field td "secret" = JString (s_qr_secret session).

(** A token of either mint path for the session as it is stored, minted
    at any time. *)
Definition minted (token : string) (session : Session) : Prop :=
  (exists t, token = generateQRToken t (s_id session) (s_qr_secret session)) \/
  (exists t, token = secure_qr_token t session).

(** The stores differ in [attendance] at most. *)
Definition same_but_attendance (st st' : Store) : Prop :=
  sessions st' = sessions st /\ enrollments st' = enrollments st /\
  profiles st' = profiles st /\ photos st' = photos st.

(** UNIQUE(session_id, student_id) of [attendance]. *)
Definition attendance_keyed (st : Store) : Prop :=
  NoDup (map (fun a => (a_session_id a, a_student_id a)) (attendance st)).

(** The keys and the reference the migrations declare on the modelled
    tables. *)
Definition consistent (st : Store) : Prop :=
  sessions_keyed st /\ attendance_keyed st /\ attendance_refers st /\
  enrollments_keyed st.

(** What the sweep at [now] makes of the status of a session, the flag it
    sets, and the sessions it deals with: those whose [end_time] lies in
    the last thirty minutes and that are not yet flagged. *)
Definition expire (now : Z) (s : Session) : Session :=
  if Z.leb (s_end_time s) now && status_eqb (s_status s) active
  then mkSession (s_id s) (s_class_id s) (s_teacher_id s) (s_start_time s)
         (s_end_time s) (s_extended s) (s_qr_secret s) ended
         (s_notifications_sent s)
  else s.

Definition flag_sent (s : Session) : Session :=
  mkSession (s_id s) (s_class_id s) (s_teacher_id s) (s_start_time s)
    (s_end_time s) (s_extended s) (s_qr_secret s) (s_status s) true.

Definition due (now : Z) (s : Session) : bool :=
  Z.leb (s_end_time s) now && Z.leb (now - 30 * 60 * 1000) (s_end_time s)
  && negb (s_notifications_sent s).

(** No slash in a string, as in a uuid. *)
Definition slashless (s : string) : Prop :=
  Str.all (fun c => negb (Ascii.eqb c "/")) s = true.

End Notions.

Module Scenarios.
Import Json Db Api Edge Spec.

(** A second session of the class, later on the same day. *)
Definition session2 : Session :=
  mkSession "s2" "c1" "t1" 100000 200000 false "z9y8x7" active false.

Definition store_two : Store :=
  with_sessions Sample.store1 [Sample.session1; session2].

(** The session of the day already dealt with by a sweep, and a session
    of another class that has run out. *)
Definition session3 : Session :=
  mkSession "s3" "c2" "t2" 1000 91000 false "m5n6b7" active false.

Definition store_swept : Store :=
  mkStore [Sample.session1_swept; session3] []
    [mkEnrollment "c1" "stu1" None; mkEnrollment "c2" "stu1" None]
    (profiles Sample.store1) [].

(** [Sample.store1] with the photo of [stu1] for session [s1]. *)
Definition photo1 : string := "stu1/s1/9000.jpg".

Definition store_photo : Store := with_photos Sample.store1 [photo1].

Definition token_data1 : JSON :=
  JObject [("sessionId", JString "s1"); ("slotTime", JNumber 0 0);
           ("secret", JString "k7f3a0")].

End Scenarios.

(** * Properties

    ** Strings *)

Module StrFacts.
Import Str.
Lemma append_assoc (a b c : string) : (a ++ b) ++ c = a ++ (b ++ c).
Proof. induction a as [|x a IH]; simpl; [reflexivity | now rewrite IH]. Qed.

Lemma length_append (a b : string) :
  String.length (a ++ b) = (String.length a + String.length b)%nat.
Proof. induction a as [|x a IH]; simpl; [reflexivity | now rewrite IH]. Qed.

Lemma all_append p a b : all p (a ++ b) = all p a && all p b.
Proof.
  induction a as [|x a IH]; simpl; [reflexivity|].
  now rewrite IH, andb_assoc.
Qed.

Lemma filter_all p s : all p s = true -> filter p s = s.
Proof.
  induction s as [|x s IH]; simpl; [reflexivity|].
  intros H. apply andb_true_iff in H as [Hx Hs].
  now rewrite Hx, IH.
Qed.

Lemma span_all p a b :
  all p a = true -> starts_with_not p b -> span p (a ++ b) = (a, b).
Proof.
  intros Ha Hb. induction a as [|x a IH]; simpl in *.
  - destruct b as [|y b]; simpl in *; [reflexivity | now rewrite Hb].
  - apply andb_true_iff in Ha as [Hx Ha]. now rewrite Hx, IH.
Qed.

(** Induction over a string three characters at a time. *)
Lemma ind3 (P : string -> Prop) :
  P EmptyString ->
  (forall a, P (String a EmptyString)) ->
  (forall a b, P (String a (String b EmptyString))) ->
  (forall a b c r, P r -> P (String a (String b (String c r)))) ->
  forall s, P s.
Proof.
  intros H0 H1 H2 H3.
  assert (G : forall n s, (String.length s < n)%nat -> P s).
  { induction n as [|n IH]; intros s Hn; [lia|].
    destruct s as [|a [|b [|c r]]]; auto.
    apply H3, IH. simpl in Hn. lia. }
  intros s. apply (G (S (String.length s))). lia.
Qed.

End StrFacts.

(** ** [atob] undoes [btoa] *)

Module Base64Facts.
Import Str StrFacts Base64.

Lemma decode_encode_sextet x : decode_char (encode_sextet x) = Some x.
Proof. destruct x as [[] [] [] [] [] []]; reflexivity. Qed.

Lemma encode_sextet_plain x :
  negb (is_ascii_whitespace (encode_sextet x)) = true /\
  is_eq_sign (encode_sextet x) = false.
Proof. destruct x as [[] [] [] [] [] []]; split; reflexivity. Qed.

Lemma decode_encode_sextets l : decode_chars (encode_sextets l) = Some l.
Proof.
  induction l as [|x l IH]; simpl; [reflexivity|].
  now rewrite decode_encode_sextet, IH.
Qed.

Lemma encode_sextets_no_ws l :
  all (fun c => negb (is_ascii_whitespace c)) (encode_sextets l) = true.
Proof.
  induction l as [|x l IH]; simpl; [reflexivity|].
  now rewrite (proj1 (encode_sextet_plain x)), IH.
Qed.

Lemma length_encode_sextets l :
  String.length (encode_sextets l) = List.length l.
Proof. induction l as [|x l IH]; simpl; [reflexivity | now rewrite IH]. Qed.

Lemma bytes_of_sextets_of_bytes s : bytes_of_sextets (sextets_of_bytes s) = s.
Proof.
  induction s as [| a | a b | a b c r IH] using ind3.
  - reflexivity.
  - destruct a; reflexivity.
  - destruct a, b; reflexivity.
  - destruct a, b, c. simpl. now rewrite IH.
Qed.

(** The number of sextets and the padding add up to a multiple of four. *)
Lemma length_sextets_of_bytes s :
  exists q : nat,
    (List.length (sextets_of_bytes s)
     + String.length (padding (String.length s)) = 4 * q)%nat.
Proof.
  induction s as [| a | a b | a b c r IH] using ind3.
  - now exists 0%nat.
  - exists 1%nat. now destruct a.
  - exists 1%nat. now destruct a, b.
  - destruct IH as (q & H1). exists (S q).
    assert (Hp : padding (String.length (String a (String b (String c r))))
                 = padding (String.length r)).
    { unfold padding. f_equal. simpl String.length.
      replace (S (S (S (String.length r))))
        with (String.length r + 1 * 3)%nat by lia.
      now rewrite Nat.Div0.mod_add. }
    rewrite Hp. destruct a, b, c. simpl List.length. lia.
Qed.

Lemma strip_padding_encoded l p :
  p = EmptyString \/ p = "=" \/ p = "==" ->
  strip_padding (encode_sextets l ++ p) = encode_sextets l.
Proof.
  intros Hp. induction l as [|x l IH]; simpl.
  - destruct Hp as [-> | [-> | ->]]; reflexivity.
  - now rewrite (proj2 (encode_sextet_plain x)), IH.
Qed.

Lemma padding_cases n :
  padding n = EmptyString \/ padding n = "=" \/ padding n = "==".
Proof.
  unfold padding. destruct (Nat.modulo n 3) as [|[|[|k]]]; auto.
Qed.

Theorem atob_btoa s : atob (btoa s) = Some s.
Proof.
  unfold atob, btoa.
  set (l := sextets_of_bytes s). set (p := padding (String.length s)).
  assert (Hws : all (fun c => negb (is_ascii_whitespace c)) (encode_sextets l ++ p) = true).
  { rewrite all_append, encode_sextets_no_ws.
    destruct (padding_cases (String.length s)) as [H | [H | H]]; subst p; rewrite H; reflexivity. }
  rewrite (filter_all _ _ Hws).
  destruct (length_sextets_of_bytes s) as (q & H1). fold l p in H1.
  assert (Hlen : Nat.modulo (String.length (encode_sextets l ++ p)) 4 = 0%nat).
  { rewrite length_append, length_encode_sextets, H1.
    rewrite Nat.mul_comm. apply Nat.Div0.mod_mul. }
  rewrite Hlen, Nat.eqb_refl.
  rewrite strip_padding_encoded by apply padding_cases.
  rewrite length_encode_sextets.
  destruct (Nat.eqb (Nat.modulo (List.length l) 4) 1) eqn:E.
  - exfalso. apply Nat.eqb_eq in E.
    pose proof (Nat.Div0.div_mod (List.length l) 4) as Hd.
    destruct (padding_cases (String.length s)) as [H | [H | H]]; fold p in H;
      rewrite H in H1; simpl in H1; lia.
  - rewrite decode_encode_sextets. simpl. subst l.
    now rewrite bytes_of_sextets_of_bytes.
Qed.

End Base64Facts.

(** ** [JSON.parse] undoes [JSON.stringify] *)

Module JsonFacts.
Import Str StrFacts Json.

Lemma parse_escape_char c t :
  parse_string_chars (escape_char c ++ t) = cons_char c (parse_string_chars t).
Proof. destruct c as [[] [] [] [] [] [] [] []]; reflexivity. Qed.

Lemma parse_string_chars_escape s rest :
  parse_string_chars (escape s ++ String dq rest) = Some (s, rest).
Proof.
  induction s as [|c s IH]; [reflexivity|].
  simpl escape. rewrite append_assoc, parse_escape_char, IH. reflexivity.
Qed.

(** Decimal numerals print as digits. *)
Lemma string_of_uint_digits d : all is_digit (NilEmpty.string_of_uint d) = true.
Proof. induction d; simpl; auto. Qed.

Lemma digits_of_string_of_uint d :
  d <> Nil -> digits_of (NilEmpty.string_of_uint d) = Some d.
Proof.
  intros Hd. unfold digits_of.
  destruct (NilEmpty.string_of_uint d) eqn:E.
  - destruct d; simpl in E; congruence.
  - rewrite <- E. apply NilEmpty.usu.
Qed.

Lemma to_uint_normal p : unorm (Pos.to_uint p) = Pos.to_uint p.
Proof.
  pose proof (DecimalZ.to_of (Z.to_int (Z.pos p))) as H.
  rewrite DecimalZ.of_to in H. simpl in H. congruence.
Qed.

Lemma to_uint_nonnil p : Pos.to_uint p <> Nil.
Proof. rewrite <- to_uint_normal. apply unorm_nonnil. Qed.

Lemma parse_int_part_print d t :
  d <> Nil -> unorm d = d -> after_value t ->
  parse_int_part (NilEmpty.string_of_uint d ++ t) = Some (d, t).
Proof.
  intros Hd Hn (c & r & -> & Hc). unfold parse_int_part.
  rewrite span_all.
  - rewrite digits_of_string_of_uint by assumption.
    unfold uint_eqb. rewrite Hn. now destruct (uint_eq_dec d d).
  - apply string_of_uint_digits.
  - destruct Hc as [-> | ->]; reflexivity.
Qed.

Lemma parse_number_tail d t (neg : bool) :
  d <> Nil -> unorm d = d -> after_value t ->
  match parse_int_part (NilEmpty.string_of_uint d ++ t) with
  | None => None
  | Some (i, s2) =>
      match parse_frac_part s2 with
      | None => None
      | Some (f, s3) =>
          match parse_exp_part s3 with
          | None => None
          | Some (e, s4) =>
              let m := Z.of_uint (Decimal.app i f) in
              Some (JNumber (if neg then - m else m)
                      (e - Z.of_nat (nb_digits f)), s4)
          end
      end
  end = Some (JNumber (if neg then - Z.of_uint d else Z.of_uint d) 0, t).
Proof.
  intros Hd Hn Ht. rewrite parse_int_part_print by assumption.
  destruct Ht as (c & r & -> & [-> | ->]); simpl;
    rewrite DecimalFacts.app_nil_r; reflexivity.
Qed.

Lemma parse_number_print z t :
  after_value t ->
  parse_number (string_of_Z z ++ t) = Some (JNumber z 0, t).
Proof.
  intros Ht. unfold string_of_Z, parse_number.
  destruct z as [|p|p]; simpl Z.to_int.
  - destruct Ht as (c & r & -> & [-> | ->]); reflexivity.
  - unfold NilZero.string_of_int, NilZero.string_of_uint.
    pose proof (to_uint_nonnil p) as Hd. pose proof (to_uint_normal p) as Hn.
    pose proof (DecimalZ.of_to (Z.pos p)) as Hv. simpl in Hv.
    assert (E : exists c r, NilEmpty.string_of_uint (Pos.to_uint p) = String c r
                            /\ Ascii.eqb c "-" = false).
    { destruct (Pos.to_uint p); simpl; try congruence; eauto. }
    destruct E as (c & r & E & Hc).
    replace (match Pos.to_uint p with Nil => "0" | _ => NilEmpty.string_of_uint (Pos.to_uint p) end)
      with (NilEmpty.string_of_uint (Pos.to_uint p)) by (destruct (Pos.to_uint p); congruence).
    rewrite E. cbn [append]. rewrite Hc.
    change (String c (r ++ t)) with (String c r ++ t). rewrite <- E.
    rewrite (parse_number_tail _ _ false) by assumption. now rewrite Hv.
  - unfold NilZero.string_of_int, NilZero.string_of_uint.
    pose proof (to_uint_nonnil p) as Hd. pose proof (to_uint_normal p) as Hn.
    pose proof (DecimalZ.of_to (Z.neg p)) as Hv. simpl in Hv.
    replace (match Pos.to_uint p with Nil => "0" | _ => NilEmpty.string_of_uint (Pos.to_uint p) end)
      with (NilEmpty.string_of_uint (Pos.to_uint p)) by (destruct (Pos.to_uint p); congruence).
    cbn [append]. change (Ascii.eqb "-" "-") with true. cbv iota.
    rewrite (parse_number_tail _ _ true) by assumption. now rewrite Hv.
Qed.


Lemma string_of_Z_head z :
  exists c r, string_of_Z z = String c r /\
              (Ascii.eqb c "-" || is_digit c) = true /\ is_ws c = false /\
              Ascii.eqb c "{" = false /\ Ascii.eqb c "[" = false /\
              Ascii.eqb c dq = false.
Proof.
  unfold string_of_Z. destruct z as [|p|p]; simpl.
  - do 2 eexists. split; [reflexivity|]. repeat split.
  - pose proof (to_uint_nonnil p) as Hd. unfold NilZero.string_of_uint.
    destruct (Pos.to_uint p); try congruence;
      (do 2 eexists; split; [reflexivity|]; repeat split).
  - do 2 eexists. split; [reflexivity|]. repeat split.
Qed.

Lemma parse_value_scalar fuel v t :
  after_value t ->
  parse_value (S fuel) (stringify_scalar v ++ t) = Some (value_of_scalar v, t).
Proof.
  intros Ht. destruct v as [s | z].
  - cbn [stringify_scalar quote append parse_value]. cbn [skip_ws].
    change (is_ws dq) with false. cbv iota.
    change (Ascii.eqb dq "{") with false.
    change (Ascii.eqb dq "[") with false.
    change (Ascii.eqb dq dq) with true. cbv iota.
    rewrite append_assoc. cbn [append].
    unfold parse_string. now rewrite parse_string_chars_escape.
  - cbn [stringify_scalar value_of_scalar].
    destruct (string_of_Z_head z) as (c & r & E & H1 & H2 & H3 & H4 & H5).
    cbn [parse_value]. rewrite E. cbn [append skip_ws].
    rewrite H2, H3, H4, H5, H1.
    change (String c (r ++ t)) with (String c r ++ t). rewrite <- E.
    now apply parse_number_print.
Qed.

Lemma stringify_members_cons k v o :
  o <> [] ->
  stringify_members ((k, v) :: o)
  = quote k ++ ":" ++ stringify_scalar v ++ "," ++ stringify_members o.
Proof. destruct o; [congruence | reflexivity]. Qed.

Lemma parse_quoted_key fuel k t acc :
  parse_members (S fuel) (quote k ++ t) acc
  = match skip_ws t with
    | String ":" r2 =>
        match parse_value fuel r2 with
        | Some (v, r3) =>
            match skip_ws r3 with
            | String "," r4 => parse_members fuel r4 (acc ++ [(k, v)])
            | String "}" r4 => Some (JObject (acc ++ [(k, v)]), r4)
            | _ => None
            end
        | None => None
        end
    | _ => None
    end.
Proof.
  cbn [quote append parse_members skip_ws].
  change (is_ws dq) with false. cbv iota.
  change (Ascii.eqb dq dq) with true. cbv iota.
  rewrite append_assoc. cbn [append].
  unfold parse_name. now rewrite parse_string_chars_escape.
Qed.

Lemma parse_members_stringify o :
  o <> [] ->
  forall fuel acc rest,
    (List.length o < fuel)%nat ->
    parse_members fuel (stringify_members o ++ String "}" rest) acc
    = Some (JObject (acc ++ map (fun kv => (fst kv, value_of_scalar (snd kv))) o),
            rest).
Proof.
  induction o as [|[k v] o IH]; [congruence|]. intros _ fuel acc rest Hf.
  destruct fuel as [|[|fuel]]; [simpl in Hf; lia | simpl in Hf; lia |].
  destruct o as [|kv o].
  - cbn [stringify_members]. rewrite append_assoc, parse_quoted_key.
    cbn [append skip_ws]. change (is_ws ":") with false. cbv iota.
    rewrite parse_value_scalar by (do 2 eexists; split; [reflexivity | auto]).
    reflexivity.
  - rewrite stringify_members_cons by congruence.
    rewrite append_assoc, parse_quoted_key.
    cbn [append skip_ws]. change (is_ws ":") with false. cbv iota.
    rewrite ?append_assoc.
    rewrite parse_value_scalar by (do 2 eexists; split; [reflexivity | auto]).
    cbn [append skip_ws]. change (is_ws ",") with false. cbv iota.
    rewrite IH; [| congruence | simpl in *; lia].
    cbn [map fst snd]. now rewrite <- app_assoc.
Qed.

Lemma length_stringify_members o :
  (List.length o <= String.length (stringify_members o))%nat.
Proof.
  induction o as [|[k v] o IH]; [simpl; lia|].
  destruct o as [|kv o].
  - cbn [stringify_members quote append List.length String.length]. lia.
  - rewrite stringify_members_cons by congruence.
    cbn [quote append List.length String.length] in *.
    repeat (rewrite ?length_append; cbn [String.length]). lia.
Qed.

(** [JSON.parse] undoes [JSON.stringify]. *)
Theorem JSON_parse_stringify o : JSON_parse (JSON_stringify o) = Some (object_of o).
Proof.
  unfold JSON_parse, JSON_stringify, object_of.
  destruct o as [|[k v] o].
  - reflexivity.
  - set (ms := stringify_members ((k, v) :: o)).
    assert (Hq : exists r, ms = String dq r).
    { subst ms. destruct o; cbn [stringify_members quote append]; eauto. }
    cbn [append String.length parse_value skip_ws].
    change (is_ws "{") with false. cbv iota.
    change (Ascii.eqb "{" "{") with true. cbv iota.
    destruct Hq as (r & Hq).
    assert (Hs : skip_ws (ms ++ "}") = String dq (r ++ "}")) by now rewrite Hq.
    rewrite Hs.
    change (match String dq (r ++ "}") with
            | String "}" r1 => Some (JObject [], r1)
            | _ => parse_members (String.length (ms ++ "}")) (ms ++ "}") []
            end)
      with (parse_members (String.length (ms ++ "}")) (ms ++ "}") []).
    subst ms. rewrite parse_members_stringify; [reflexivity | congruence |].
    rewrite length_append. cbn [String.length].
    pose proof (length_stringify_members ((k, v) :: o)). lia.
Qed.

End JsonFacts.

(** ** The codec on known values *)

Module Checks.
Import Json Db Api Edge.

Example btoa_Man : Base64.btoa "Man" = "TWFu".
Proof. reflexivity. Qed.

Example btoa_padded : Base64.btoa "light work." = "bGlnaHQgd29yay4=".
Proof. reflexivity. Qed.

Example atob_forgiving : Base64.atob " TWE " = Some "Ma".
Proof. reflexivity. Qed.

Example atob_refuses : Base64.atob "TWFuT" = None /\ Base64.atob "TQ=" = None.
Proof. split; reflexivity. Qed.

Example parse_array :
  JSON_parse " [1, 2.50e-3, true, null, {}, -0] "
  = Some (JArray [JNumber 1 0; JNumber 250 (-5); JBool true; JNull;
                  JObject []; JNumber 0 0]).
Proof. reflexivity. Qed.

Example parse_refuses :
  JSON_parse "[1,]" = None /\ JSON_parse "01" = None /\ JSON_parse "1." = None.
Proof. repeat split. Qed.

Example parse_wide_string :
  JSON_parse
    (String Str.dq
       (String Str.backslash ("u0100" ++ String Str.dq EmptyString)))
  = Some (JWide [256%N]).
Proof. reflexivity. Qed.

Example truthy_numbers :
  truthy (JNumber 1 (-400)) = false /\ truthy (JNumber 5 (-324)) = true /\
  truthy (JNumber 0 7) = false /\ truthy (JNumber 1 0) = true.
Proof. repeat split. Qed.

Example Number_toString_forms :
  Number_toString 15 (-1) = "1.5" /\ Number_toString 1 21 = "1e+21" /\
  Number_toString 123 (-9) = "1.23e-7" /\
  Number_toString (-250) (-2) = "-2.5" /\
  Number_toString 9007199254740993 0 = "9007199254740992" /\
  Number_toString 1 400 = "Infinity".
Proof. repeat split; vm_compute; reflexivity. Qed.

Example ToString_array :
  ToString (JArray [JString "s1"]) = Some "s1" /\
  ToString (JArray [JArray [JNumber 1 0; JNull]; JBool true; JObject []])
  = Some "1,,true,[object Object]".
Proof. split; vm_compute; reflexivity. Qed.

Example token_on_display :
  generateQRToken 9000 "s1" "k7f3a0"
  = "eyJzZXNzaW9uSWQiOiJzMSIsInNsb3RUaW1lIjowLCJzZWNyZXQiOiJrN2YzYTAifQ==".
Proof. reflexivity. Qed.

Example token_of_edge_function :
  secure_qr_token 10000 Sample.session1
  = "eyJzZXNzaW9uSWQiOiJzMSIsInNlY3JldCI6Ims3ZjNhMCIsInRpbWVTbG90IjowLCJ0aW1lc3RhbXAiOjEwfQ==".
Proof. reflexivity. Qed.

End Checks.

(** ** Tables *)

Module DbFacts.
Import Db.

(** Rewriting the rows a filter selects, by a function that keeps them
    selected, rewrites the selection. *)
Lemma filter_map_selected {A : Type} (p : A -> bool) (f : A -> A) (l : list A) :
  (forall x, p x = true -> p (f x) = true) ->
  filter p (map (fun x => if p x then f x else x) l) = map f (filter p l).
Proof.
  intros H. induction l as [|x l IH]; simpl; [reflexivity|].
  destruct (p x) eqn:E; simpl.
  - now rewrite (H x E), IH.
  - now rewrite E, IH.
Qed.

Lemma sessions_by_id_update id f st :
  (forall s, s_id (f s) = s_id s) ->
  sessions_by_id id (update_sessions_by_id id f st)
  = map f (sessions_by_id id st).
Proof.
  intros Hf. unfold sessions_by_id, update_sessions_by_id. simpl.
  apply filter_map_selected. intros s E. now rewrite Hf.
Qed.

Lemma update_sessions_twice id f g st :
  (forall s, s_id (f s) = s_id s) ->
  update_sessions_by_id id g (update_sessions_by_id id f st)
  = update_sessions_by_id id (fun s => g (f s)) st.
Proof.
  intros Hf. unfold update_sessions_by_id, with_sessions. simpl. f_equal.
  rewrite map_map. apply map_ext. intros s.
  destruct (String.eqb (s_id s) id) eqn:E; [now rewrite Hf, E | now rewrite E].
Qed.

Lemma attendance_of_update sid uid f st :
  (forall a, is_attendance_of sid uid a = true ->
             is_attendance_of sid uid (f a) = true) ->
  attendance_of sid uid (update_attendance_of sid uid f st)
  = map f (attendance_of sid uid st).
Proof.
  intros Hf. unfold attendance_of, update_attendance_of. simpl.
  now apply filter_map_selected.
Qed.

Lemma single_inv {A : Type} (l : list A) (x : A) : single l = Some x -> l = [x].
Proof. destruct l as [|y [|z l]]; simpl; congruence. Qed.

Lemma maybeSingle_inv {A : Type} (l : list A) (x : A) :
  maybeSingle l = OneRow x -> l = [x].
Proof. destruct l as [|y [|z l]]; simpl; congruence. Qed.

End DbFacts.

(** ** Session lifecycle: extension and end *)

Module LifecycleFacts.
Import Db Api DbFacts.

(** C4. Extension is one-shot.  On a stored session that is not yet
    extended, [extendSession] succeeds: it adds exactly 30 seconds to
    [end_time], sets [extended] and changes nothing else.  A second call
    fails with the error of a session that cannot be extended and leaves
    the store, hence [end_time], as the first call left it. *)
Theorem extendSession_one_shot (sessionId : string) (st : Store) (s : Session) :
  sessions_by_id sessionId st = [s] ->
  s_extended s = false ->
  exists s1 st1,
    extendSession sessionId st = (Ok s1, st1) /\
    s_end_time s1 = s_end_time s + 30000 /\
    s_extended s1 = true /\
    (s_id s1, s_class_id s1, s_teacher_id s1, s_start_time s1, s_qr_secret s1,
     s_status s1, s_notifications_sent s1)
    = (s_id s, s_class_id s, s_teacher_id s, s_start_time s, s_qr_secret s,
       s_status s, s_notifications_sent s) /\
    sessions_by_id sessionId st1 = [s1] /\
    extendSession sessionId st1 = (Err "Session cannot be extended", st1).
Proof.
  intros Hrow Hext.
  set (s1 := extend_to (s_end_time s + 30 * 1000) s).
  set (st1 := update_sessions_by_id sessionId
                (extend_to (s_end_time s + 30 * 1000)) st).
  assert (Hrow1 : sessions_by_id sessionId st1 = [s1]).
  { unfold st1. rewrite sessions_by_id_update by reflexivity. now rewrite Hrow. }
  exists s1, st1. repeat split.
  - unfold extendSession. rewrite Hrow. cbn [single]. rewrite Hext.
    cbv zeta. fold st1. now rewrite Hrow1.
  - exact Hrow1.
  - unfold extendSession. now rewrite Hrow1.
Qed.

(** C6 as amended.  [extendSession] on an id that no stored session has
    fails and leaves the store as it is; the error is the same error that
    a double extension raises. *)
Theorem extendSession_missing (missing : string) (st : Store) :
  sessions_by_id missing st = [] ->
  extendSession missing st = (Err "Session cannot be extended", st) /\
  forall sessionId s,
    sessions_by_id sessionId st = [s] -> s_extended s = true ->
    extendSession sessionId st = (Err "Session cannot be extended", st).
Proof.
  intros Hnone. split.
  - unfold extendSession. now rewrite Hnone.
  - intros sessionId s Hrow Hext. unfold extendSession.
    rewrite Hrow. simpl. now rewrite Hext.
Qed.

(** C7 as amended.  [endSession] on a stored session sets [status] to
    ended and [end_time] to the clock, whatever the stored [end_time] was,
    and changes nothing else.  Ending again succeeds again and sets
    [end_time] to the clock of that call: the two calls leave what the
    second call alone would leave. *)
Theorem endSession_overwrites (now now' : Z) (sessionId : string) (st : Store)
    (s : Session) :
  sessions_by_id sessionId st = [s] ->
  exists st1,
    endSession now sessionId st = (Ok (finish now s), st1) /\
    s_status (finish now s) = ended /\
    s_end_time (finish now s) = now /\
    sessions_by_id sessionId st1 = [finish now s] /\
    endSession now' sessionId st1 = endSession now' sessionId st /\
    endSession now' sessionId st
    = (Ok (finish now' s), update_sessions_by_id sessionId (finish now') st).
Proof.
  intros Hrow.
  assert (H1 : forall t, endSession t sessionId st
                = (Ok (finish t s), update_sessions_by_id sessionId (finish t) st)).
  { intros t. unfold endSession.
    rewrite sessions_by_id_update by reflexivity. now rewrite Hrow. }
  eexists. split; [apply H1|]. repeat split.
  - rewrite sessions_by_id_update by reflexivity. now rewrite Hrow.
  - unfold endSession at 1.
    rewrite update_sessions_twice by reflexivity.
    rewrite H1.
    assert (E : update_sessions_by_id sessionId (fun s0 => finish now' (finish now s0)) st
                = update_sessions_by_id sessionId (finish now') st).
    { reflexivity. }
    rewrite E. rewrite sessions_by_id_update by reflexivity. now rewrite Hrow.
  - apply H1.
Qed.

End LifecycleFacts.

(** ** The token codec *)

Module CodecFacts.
Import Json Db Api Edge Base64Facts JsonFacts.

Lemma decode_btoa_stringify o :
  decode (Base64.btoa (JSON_stringify o)) = Some (object_of o).
Proof. unfold decode. rewrite atob_btoa. apply JSON_parse_stringify. Qed.

(** C9, the claim as stated fails: the token of [secure-qr-token] minted
    at 10 seconds carries no ten-second slot, neither as [slotTime] nor as
    [timeSlot]. *)
Lemma secure_qr_token_slot_is_not_ten_seconds :
  ~ (forall now session,
        exists td,
          decode (secure_qr_token now session) = Some td /\
          (get_field td "slotTime" = JNumber (now / 10000) 0 \/
           get_field td "timeSlot" = JNumber (now / 10000) 0)).
Proof.
  intros H. destruct (H 10000 Sample.session1) as (td & Hd & Hs).
  vm_compute in Hd. injection Hd as <-.
  vm_compute in Hs. destruct Hs; discriminate.
Qed.

(** C9 as amended.  Decoding undoes both mint paths.  A token of
    [generateQRToken] decodes to the session id, the secret and the slot
    [floor(t / 10 s)]; a token of [secure-qr-token] decodes to the session
    id, the secret, the slot [floor(t / 300 s)] under the name [timeSlot]
    and the time in seconds. *)
Theorem decode_mint (now : Z) (sessionId qrSecret : string) (session : Session) :
  decode (generateQRToken now sessionId qrSecret)
  = Some (JObject [("sessionId", JString sessionId);
                   ("slotTime", JNumber (now / 10000) 0);
                   ("secret", JString qrSecret)]) /\
  decode (secure_qr_token now session)
  = Some (JObject [("sessionId", JString (s_id session));
                   ("secret", JString (s_qr_secret session));
                   ("timeSlot", JNumber (now / 300000) 0);
                   ("timestamp", JNumber (now / 1000) 0)]).
Proof.
  unfold generateQRToken, secure_qr_token. rewrite !decode_btoa_stringify.
  cbv zeta. rewrite !Z.div_div by lia. split; reflexivity.
Qed.

End CodecFacts.

(** ** The verification decision *)

Module DecisionFacts.
Import Json Db Api Edge DbFacts.

(** C5. Liveness gates present.  The decision is [present] for the
    boolean [true] and [pending] for every other value, so these are its
    only two values; and a submission that succeeds reports and stores
    the decision for its liveness value. *)
Theorem attendanceStatus_gate (liveness : JSON) :
  (liveness = JBool true -> attendanceStatus liveness = present) /\
  (liveness <> JBool true -> attendanceStatus liveness = pending) /\
  (attendanceStatus liveness = present \/ attendanceStatus liveness = pending) /\
  (forall now req st row status message st',
      req_liveness req = liveness ->
      submit_attendance now req st = (Success row status message, st') ->
      status = attendanceStatus liveness /\
      a_status row = attendanceStatus liveness).
Proof.
  split; [intros ->; reflexivity|].
  split; [destruct liveness as [| |[]| | | | |]; simpl; congruence|].
  split; [destruct liveness as [| |[]| | | | |]; simpl; auto|].
  intros now req st row status message st' <- H.
  unfold submit_attendance in H.
  repeat match type of H with
         | (match ?x with _ => _ end) = _ => destruct x eqn:?; try discriminate
         | (if ?x then _ else _) = _ => destruct x eqn:?; try discriminate
         end.
  all: try (injection H as <- <- _ _; split; reflexivity).
  match goal with
  | E : single (attendance_of _ _ (update_attendance_of _ _ _ _)) = Some _ |- _ =>
      rewrite attendance_of_update in E
        by (intros; unfold is_attendance_of; simpl;
            now rewrite !String.eqb_refl);
      rename E into Hs
  end.
  injection H as <- <- _ _.
  apply single_inv in Hs.
  match type of Hs with
  | map _ ?l = _ => destruct l as [|x [|y l']]; simpl in Hs; try discriminate
  end.
  injection Hs as <-. split; reflexivity.
Qed.

End DecisionFacts.

(** ** The absence notification sweeps *)

Module SweepFacts.
Import Json Db Api Edge Spec DbFacts.

Lemma same_session_refl s : same_session s s.
Proof. repeat split. Qed.

Lemma same_session_trans s1 s2 s3 :
  same_session s1 s2 -> same_session s2 s3 -> same_session s1 s3.
Proof.
  unfold same_session. intros H1 H2.
  repeat match goal with H : _ /\ _ |- _ => destruct H end.
  repeat split; congruence.
Qed.

Lemma Forall2_map_right {A : Type} (R : A -> A -> Prop) (g : A -> A) l :
  (forall x, R x (g x)) -> Forall2 R l (map g l).
Proof. intros H. induction l; simpl; constructor; auto. Qed.

Lemma Forall2_compose {A : Type} (R S T : A -> A -> Prop) l1 l2 l3 :
  (forall x y z, R x y -> S y z -> T x z) ->
  Forall2 R l1 l2 -> Forall2 S l2 l3 -> Forall2 T l1 l3.
Proof.
  intros H H1. revert l3. induction H1; intros l3 H2; inversion H2; subst;
    constructor; eauto.
Qed.

Lemma Forall2_in_right {A : Type} (R : A -> A -> Prop) l l' y :
  Forall2 R l l' -> In y l' -> exists x, In x l /\ R x y.
Proof.
  induction 1 as [|a b l l' Hab _ IH]; simpl; [tauto|].
  intros [<- | Hy]; [eauto|]. destruct (IH Hy) as (x & ? & ?); eauto.
Qed.

Lemma mark_notified_flagged id st :
  Forall2 flagged (sessions st) (sessions (mark_notified id st)).
Proof.
  unfold mark_notified, update_sessions_by_id. simpl.
  apply Forall2_map_right. intros s.
  destruct (String.eqb (s_id s) id); repeat split.
Qed.

Lemma notify_loop_flagged (l : list Session) (sent : list Notice) (st : Store) :
  Forall2 flagged (sessions st)
    (sessions
       (snd (fold_left
               (fun (acc : list Notice * Store) session =>
                  let '(sent, cur) := acc in
                  ((sent ++ notices [present] session cur)%list,
                   mark_notified (s_id session) cur))
               l (sent, st)))).
Proof.
  revert sent st. induction l as [|x l IH]; intros sent st; simpl.
  - rewrite <- (map_id (sessions st)) at 2. apply Forall2_map_right.
    intros s. split; [apply same_session_refl | reflexivity].
  - eapply Forall2_compose; [| apply (mark_notified_flagged (s_id x)) | apply IH].
    intros a b c [H1 H2] [H3 H4]. split; [eapply same_session_trans; eauto | congruence].
Qed.

Lemma mark_ended_repaired (expired : Session -> bool) (now : Z) st :
  (forall s, s_end_time s < now -> s_status s = active -> expired s = true) ->
  Forall2 (repaired now) (sessions st) (sessions (mark_ended expired st)).
Proof.
  intros H. unfold mark_ended. simpl. apply Forall2_map_right. intros s.
  specialize (H s). unfold repaired.
  destruct (expired s) eqn:E; simpl;
    (split; [repeat split|]); repeat split; intros;
    destruct (s_status s) eqn:Es; auto; try discriminate.
  specialize (H ltac:(assumption) eq_refl). discriminate.
Qed.

(** What [send-absence-notifications] leaves of the sessions: each as it
    was up to [notifications_sent] and a [status] gone to ended, and ended
    when its [end_time] is not later than the clock. *)
Lemma send_absence_notifications_sessions (now : Z) (st : Store) :
  Forall2 (fun s s' => kept s s' /\ (s_end_time s <= now -> s_status s' = ended))
    (sessions st) (sessions (snd (send_absence_notifications now st))).
Proof.
  unfold send_absence_notifications. set (st1 := mark_ended _ st).
  assert (H1 : Forall2 (fun s s' => kept s s' /\
                                    (s_end_time s <= now -> s_status s' = ended))
                 (sessions st) (sessions st1)).
  { unfold st1, mark_ended. simpl. apply Forall2_map_right. intros s.
    destruct (Z.leb (s_end_time s) now) eqn:E; simpl.
    - destruct (s_status s) eqn:Es; simpl; repeat split; auto.
    - apply Z.leb_gt in E. repeat split; auto. lia. }
  pose proof (notify_loop_flagged
                (filter (fun s => Z.leb (s_end_time s) now
                                  && Z.leb (now - 30 * 60 * 1000) (s_end_time s)
                                  && status_eqb (s_status s) ended
                                  && negb (s_notifications_sent s))
                   (sessions st1)) [] st1) as H2.
  eapply Forall2_compose; [| exact H1 | exact H2].
  intros x y z ((Hs1 & Ha) & Hb) (Hs2 & Hf).
  split; [split|]; [eauto using same_session_trans | |]; rewrite Hf; auto.
Qed.

(** C10. Status repair of the scheduled sweep.  After the sweep that
    started at [now], be it [send-absence-notifications] itself, which the
    cron job calls, or [send-absence-notifications-scheduled], which
    repairs and then invokes it, every stored session is the session it
    was, up to [status] and [notifications_sent]; none whose [end_time] is
    earlier than [now] is still active, whatever its teacher or class and
    whether or not it is notified. *)
Theorem scheduled_sweep_repairs (now now' : Z) (st : Store) :
  Forall2 (repaired now) (sessions st)
    (sessions (snd (send_absence_notifications now st))) /\
  Forall2 (repaired now) (sessions st)
    (sessions (snd (send_absence_notifications_scheduled now now' st))) /\
  (forall s',
      In s' (sessions (snd (send_absence_notifications now st))) \/
      In s' (sessions (snd (send_absence_notifications_scheduled now now' st))) ->
      s_end_time s' < now -> s_status s' = ended).
Proof.
  assert (G1 : Forall2 (repaired now) (sessions st)
                 (sessions (snd (send_absence_notifications now st)))).
  { eapply Forall2_impl; [|apply send_absence_notifications_sessions].
    intros s s' ((Hs & Hk) & He). unfold repaired.
    split; [exact Hs|]. split; [intros Hlt; apply He; lia | exact Hk]. }
  assert (G2 : Forall2 (repaired now) (sessions st)
                 (sessions (snd (send_absence_notifications_scheduled now now' st)))).
  { unfold send_absence_notifications_scheduled.
    set (st1 := mark_ended _ st).
    assert (H1 : Forall2 (repaired now) (sessions st) (sessions st1)).
    { apply mark_ended_repaired. intros s Hlt Hs. rewrite Hs. simpl.
      now apply Z.ltb_lt. }
    eapply Forall2_compose;
      [| exact H1 | apply (send_absence_notifications_sessions now' st1)].
    intros x y z (Hs1 & Ha & Hb) ((Hs2 & Hd) & _).
    unfold repaired. split; [eauto using same_session_trans|].
    split; auto. }
  split; [exact G1|]. split; [exact G2|].
  intros s' [Hin | Hin] Hlt.
  - destruct (Forall2_in_right _ _ _ _ G1 Hin) as (s & _ & (Hsame & Hend & _)).
    apply Hend. destruct Hsame as (_ & _ & _ & _ & He & _). lia.
  - destruct (Forall2_in_right _ _ _ _ G2 Hin) as (s & _ & (Hsame & Hend & _)).
    apply Hend. destruct Hsame as (_ & _ & _ & _ & He & _). lia.
Qed.

(** Who is an absentee: the enrolled students of the class without an
    attendance row of the session in one of the given statuses. *)
Lemma absentees_spec statuses session st e :
  In e (absentees statuses session st) <->
  In e (enrolled_in (s_class_id session) st) /\
  ~ (exists a, In a (attendance st) /\ a_session_id a = s_id session /\
               a_student_id a = e_student_id e /\ In (a_status a) statuses).
Proof.
  unfold absentees, attended. rewrite filter_In, negb_true_iff.
  split; intros [He Hn]; split; auto.
  - intros (a & Ha & Hs & Hu & Hst).
    apply not_true_iff_false in Hn. apply Hn.
    apply existsb_exists. exists (a_student_id a). split.
    + apply in_map, filter_In. split; [exact Ha|].
      apply andb_true_iff. split; [now apply String.eqb_eq|].
      apply existsb_exists. exists (a_status a). split; [exact Hst|].
      destruct (a_status a); reflexivity.
    + now apply String.eqb_eq.
  - apply not_true_iff_false. intros Hex. apply Hn.
    apply existsb_exists in Hex as (u & Hu & Heq).
    apply in_map_iff in Hu as (a & <- & Ha).
    apply filter_In in Ha as (Ha & Hc).
    apply andb_true_iff in Hc as (Hs & Hst).
    exists a. repeat split; auto.
    + now apply String.eqb_eq.
    + symmetry. now apply String.eqb_eq.
    + apply existsb_exists in Hst as (x & Hx & Hxe).
      destruct (a_status a), x; simpl in Hxe; try discriminate; exact Hx.
Qed.

(** C8, the failing input.  In [Sample.store1] the record of [stu1] for
    session [s1] is pending.  The scheduled sweep, run after the session
    has ended, writes to [stu1]; the teacher-triggered sweep of the same
    store does not. *)
Theorem scheduled_sweep_notifies_pending :
  map a_status (attendance_of "s1" "stu1" Sample.store1) = [pending] /\
  In "stu1"
    (map n_student_id
       (fst (send_absence_notifications_scheduled 100000 100000 Sample.store1))) /\
  ~ In "stu1"
      (map n_student_id (processNotifications [Sample.session1] Sample.store1)).
Proof.
  split; [reflexivity|]. split.
  - vm_compute. auto.
  - vm_compute. intros [H | []]. discriminate.
Qed.

End SweepFacts.

(** ** Check-in: scan acknowledgment and verification submission *)

Module CheckinFacts.
Import Json Db Api Edge DbFacts.

Lemma strict_eq_string_true v s : strict_eq_string v s = true <-> v = JString s.
Proof.
  destruct v; simpl; split; try congruence.
  - intros H. apply String.eqb_eq in H. now subst.
  - intros [= ->]. apply String.eqb_refl.
Qed.

Lemma strict_eq_string_false v s : v <> JString s -> strict_eq_string v s = false.
Proof.
  intros H. destruct (strict_eq_string v s) eqn:E; [|reflexivity].
  now apply strict_eq_string_true in E.
Qed.

Lemma sessions_by_id_in id st s :
  In s (sessions_by_id id st) -> In s (sessions st) /\ s_id s = id.
Proof.
  unfold sessions_by_id. rewrite filter_In. intros [H E].
  split; [exact H | now apply String.eqb_eq].
Qed.

(** The session a scan is checked against is a stored, active session
    whose id is the text of the [sessionId] the token carries. *)
Lemma active_session_found v st session :
  maybeSingle (active_sessions_by_id v st) = OneRow session ->
  ToString v = Some (s_id session) /\ In session (sessions st) /\
  s_status session = active.
Proof.
  intros H. apply maybeSingle_inv in H. unfold active_sessions_by_id in H.
  destruct (ToString v) as [id|]; [|discriminate].
  assert (Hin : In session (filter (fun s0 => status_eqb (s_status s0) active)
                              (sessions_by_id id st)))
    by (rewrite H; now left).
  apply filter_In in Hin as [Hin Hst].
  apply sessions_by_id_in in Hin as [Hin <-].
  repeat split; auto. now destruct (s_status session).
Qed.

Lemma text_of_ToString v id : ToString v = Some id -> text_of v = id.
Proof. unfold text_of. now intros ->. Qed.

(** The scan for the [sessionId] of a token is the scan for its text,
    unless it is refused for want of a row to update. *)
Lemma record_scan_of_cases now v uid st :
  record_scan_of now v uid st = record_scan now (text_of v) uid st \/
  record_scan_of now v uid st = (Err "Failed to create attendance record", st).
Proof.
  unfold record_scan_of.
  destruct v; auto; destruct (maybeSingle _); auto.
Qed.

Lemma record_scan_of_ok now v uid st row st' :
  record_scan_of now v uid st = (Ok row, st') ->
  record_scan now (text_of v) uid st = (Ok row, st').
Proof.
  unfold record_scan_of. intros H.
  destruct v; try exact H;
    destruct (maybeSingle _); try exact H; discriminate.
Qed.

(** The row of a scan is a row of the session asked for. *)
Lemma record_scan_session now sid uid st row st' :
  record_scan now sid uid st = (Ok row, st') -> a_session_id row = sid.
Proof.
  unfold record_scan. intros H.
  destruct (maybeSingle (attendance_of sid uid st)) as [|cur|]; [| |discriminate].
  - cbv zeta in H. destruct (insert_attendance _ _); [|discriminate].
    now injection H as <- _.
  - destruct (att_status_eqb (a_status cur) present); [discriminate|].
    cbv zeta in H.
    destruct (maybeSingle (attendance_of sid uid _)) as [|data|] eqn:E;
      try discriminate.
    injection H as <- _. apply maybeSingle_inv in E.
    assert (Hin : In data (attendance_of sid uid
                             (update_attendance_of sid uid (scan now) st)))
      by (rewrite E; now left).
    apply filter_In in Hin as [_ Hk]. unfold is_attendance_of in Hk.
    apply andb_true_iff in Hk as [Hk _]. now apply String.eqb_eq.
Qed.

(** C2. Token validity is secret-bound.  No input has a token accepted
    against another secret than the current one: whenever a scan
    acknowledgment or a verification submission succeeds, the secret of
    the token is the current [qr_secret] of a stored, active session, the
    one the returned record is a record of.  And a token whose secret
    differs from the [qr_secret] of the session it names fails with the
    invalid-token error of either operation, leaving the store as it is,
    also when that session is stored, active and within its time window;
    for the scan, which reads [sessions] as the student, the student is
    one who sees the session. *)
Theorem wrong_secret_rejected (now : Z) (token studentId : string)
    (req : SubmitRequest) (st : Store) (td : JSON) :
  decode token = Some td ->
  req_token req = token ->
  (forall row st',
      acknowledgeScan now token studentId st = (Ok row, st') ->
      exists session,
        In session (sessions st) /\ s_status session = active /\
        a_session_id row = s_id session /\
        get_field td "secret" = JString (s_qr_secret session)) /\
  (forall row status message st',
      submit_attendance now req st = (Success row status message, st') ->
      exists session,
        In session (sessions st) /\ s_status session = active /\
        a_session_id row = s_id session /\
        get_field td "secret" = JString (s_qr_secret session)) /\
  (forall session,
      sessions_by_id (s_id session) st = [session] ->
      s_status session = active ->
      s_start_time session <= now <= s_end_time session ->
      get_field td "secret" <> JString (s_qr_secret session) ->
      (truthy (get_field td "sessionId") = true ->
       ToString (get_field td "sessionId") = Some (s_id session) ->
       Policy.session_visible studentId session st = true ->
       acknowledgeScan now token studentId st = (Err "Invalid QR token", st)) /\
      (req_sessionId req = s_id session ->
       req_auth req <> None ->
       submit_attendance now req st = (Failure 401 "Invalid token", st))).
Proof.
  intros Hdec Hreq. split; [|split].
  - intros row st'. unfold acknowledgeScan. rewrite Hdec.
    destruct (is_null td); [discriminate|]. cbv zeta.
    destruct (negb (truthy (get_field td "sessionId"))); [discriminate|].
    destruct (maybeSingle _) as [|session|] eqn:E; try discriminate.
    apply active_session_found in E as (Hid & Hin & Hact).
    destruct (strict_eq_string _ _) eqn:Es; [|discriminate]. cbn [negb].
    destruct (Z.gtb now (s_end_time session)); [discriminate|].
    intros H. apply record_scan_of_ok, record_scan_session in H.
    rewrite (text_of_ToString _ _ Hid) in H.
    exists session. repeat split; auto. now apply strict_eq_string_true.
  - intros row status message st'. unfold submit_attendance.
    destruct (req_auth req) as [auth|]; [|discriminate]. cbv zeta.
    destruct (single (sessions_by_id (req_sessionId req) st)) as [session|] eqn:E;
      [|discriminate].
    apply single_inv in E.
    assert (Hin : In session (sessions_by_id (req_sessionId req) st))
      by (rewrite E; now left).
    apply sessions_by_id_in in Hin as [Hin Hid].
    destruct (negb (status_eqb (s_status session) active)) eqn:Eact;
      [discriminate|].
    destruct (_ || _); [discriminate|].
    rewrite Hreq, Hdec.
    destruct (negb (truthy td) || _ || _) eqn:Et; [discriminate|].
    apply orb_false_iff in Et as [_ Ek].
    apply negb_false_iff, strict_eq_string_true in Ek.
    intros H. exists session. repeat split; auto.
    + now destruct (s_status session).
    + rewrite Hid.
      repeat match type of H with
             | (match ?x with _ => _ end) = _ => destruct x eqn:?; try discriminate
             end.
      * injection H as <- _ _ _.
        match goal with
        | Hs : single (attendance_of _ _ _) = Some ?a |- a_session_id ?a = _ =>
            apply single_inv in Hs;
            assert (Ha : In a (attendance_of (req_sessionId req) s
                                 (update_attendance_of (req_sessionId req) s
                                    (fun a0 =>
                                       mkAttendance (req_sessionId req) s
                                         (attendanceStatus (req_liveness req))
                                         (Some now) None
                                         (written (req_liveness req)
                                            (a_liveness a0)) photoUrl)
                                    (with_photos st bucket))))
              by (rewrite Hs; now left)
        end.
        apply filter_In in Ha as [_ Hk]. unfold is_attendance_of in Hk.
        apply andb_true_iff in Hk as [Hk _]. now apply String.eqb_eq.
      * now injection H as <- _ _ _.
  - intros session Hrow Hact Hwin Hwrong.
    pose proof (strict_eq_string_false _ _ Hwrong) as Hs.
    split.
    + intros Ht Hid _. unfold acknowledgeScan. rewrite Hdec.
      assert (Hnn : is_null td = false).
      { destruct td; try reflexivity. simpl in Ht. discriminate. }
      rewrite Hnn. cbv zeta. rewrite Ht. cbn [negb].
      unfold active_sessions_by_id. rewrite Hid, Hrow. simpl. rewrite Hact.
      simpl. now rewrite Hs.
    + intros Hsid Hauth. unfold submit_attendance.
      destruct (req_auth req) as [auth|]; [|congruence].
      cbv zeta. rewrite Hsid, Hrow. simpl single. cbv iota. rewrite Hact.
      simpl negb. cbv iota.
      assert (H1 : Z.ltb now (s_start_time session) = false)
        by (apply Z.ltb_ge; lia).
      assert (H2 : Z.gtb now (s_end_time session) = false)
        by (rewrite Z.gtb_ltb; apply Z.ltb_ge; lia).
      rewrite H1, H2. cbn [orb].
      rewrite Hreq, Hdec, Hs. simpl. now rewrite orb_true_r.
Qed.

(** A scan never touches a record that is present: whatever the token,
    every present row of the store is still there afterwards. *)
Lemma record_scan_keeps_present now sid uid st r st' a :
  record_scan now sid uid st = (r, st') ->
  In a (attendance st) -> a_status a = present -> In a (attendance st').
Proof.
  unfold record_scan. intros H Ha Hp.
  destruct (maybeSingle (attendance_of sid uid st)) as [|cur|] eqn:E.
  - simpl in H. destruct (existsb _ _); injection H as _ <-; auto.
    simpl. apply in_or_app. now left.
  - destruct (att_status_eqb (a_status cur) present) eqn:Ec;
      [injection H as _ <-; exact Ha|].
    assert (Hst : attendance st'
                  = map (fun x => if is_attendance_of sid uid x
                                  then scan now x else x) (attendance st)).
    { cbv zeta in H. destruct (maybeSingle _) in H; injection H as _ <-; reflexivity. }
    rewrite Hst. apply in_map_iff. exists a. split; [|exact Ha].
    destruct (is_attendance_of sid uid a) eqn:Em; [|reflexivity].
    exfalso. apply maybeSingle_inv in E.
    assert (Hin : In a (attendance_of sid uid st))
      by (apply filter_In; split; assumption).
    rewrite E in Hin. destruct Hin as [<- | []].
    rewrite Hp in Ec. discriminate.
  - injection H as _ <-. exact Ha.
Qed.

Lemma acknowledgeScan_keeps_present now token uid st r st' a :
  acknowledgeScan now token uid st = (r, st') ->
  In a (attendance st) -> a_status a = present -> In a (attendance st').
Proof.
  unfold acknowledgeScan. intros H Ha Hp.
  repeat match type of H with
         | (match ?x with _ => _ end) = _ => destruct x eqn:?
         | (if ?x then _ else _) = _ => destruct x eqn:?
         end;
    try (injection H as _ <-; exact Ha).
  destruct (record_scan_of_cases now (get_field j "sessionId") uid st) as [E | E];
    rewrite E in H.
  - eapply record_scan_keeps_present; eauto.
  - injection H as _ <-. exact Ha.
Qed.

(** A scan acknowledgment that passes the checks of token, session and
    time fails with the already-present error when the record of the
    student for the session is present. *)
Lemma record_scan_already_present now sid uid st a :
  attendance_of sid uid st = [a] -> a_status a = present ->
  record_scan now sid uid st
  = (Err "You have already been marked present for this session", st).
Proof.
  intros Hrow Hp. unfold record_scan. rewrite Hrow. simpl. now rewrite Hp.
Qed.

(** C1, the failing input.  In [Sample.store_present] the record of
    [stu1] for session [s1] is present.  A verification submission of
    [stu1] with a valid token and liveness [false] succeeds with status
    pending, and the record is pending afterwards. *)
Theorem submit_attendance_overwrites_present :
  map a_status (attendance_of "s1" "stu1" Sample.store_present) = [present] /\
  exists row st',
    submit_attendance 9000 (Sample.submission Sample.token1 false)
      Sample.store_present
    = (Success row pending "Attendance submitted for review", st') /\
    map a_status (attendance_of "s1" "stu1" st') = [pending].
Proof.
  split; [reflexivity|]. do 2 eexists. split; vm_compute; reflexivity.
Qed.

(** The policy layer of the migrations lets that write through: pending
    is the one status a student may write, and the session is active. *)
Lemma policies_admit_the_overwrite :
  let NEW :=
    mkAttendance "s1" "stu1" pending (Some 9000) None (JBool false) None in
  Policy.validate_attendance_update_improved "stu1" (Some student)
    (Some Sample.session1) NEW = None /\
  Policy.student_update_check "stu1" NEW Sample.store_present = true.
Proof. split; reflexivity. Qed.

End CheckinFacts.

(** ** One session a day *)

Module DailySessionFacts.
Import Json Db Api Edge Spec DbFacts.
Local Open Scope list_scope.

Lemma filter_map_stable {A : Type} (p : A -> bool) (g : A -> A) (l : list A) :
  (forall x, p (g x) = p x) -> filter p (map g l) = map g (filter p l).
Proof.
  intros H. induction l as [|x l IH]; simpl; [reflexivity|].
  rewrite H. destruct (p x); simpl; now rewrite IH.
Qed.

(** Under the primary key, the rows with the id of a stored row are that
    row. *)
Lemma keyed_by_id st s :
  sessions_keyed st -> In s (sessions st) -> sessions_by_id (s_id s) st = [s].
Proof.
  unfold sessions_keyed, sessions_by_id.
  induction (sessions st) as [|x l IH]; simpl; [tauto|].
  intros Hnd [-> | Hin]; inversion Hnd as [|? ? Hx Hl]; subst.
  - rewrite String.eqb_refl. f_equal.
    destruct (filter _ l) as [|y l'] eqn:E; [reflexivity|].
    exfalso. apply Hx.
    assert (Hy : In y (filter (fun s0 => String.eqb (s_id s0) (s_id s)) l))
      by (rewrite E; now left).
    apply filter_In in Hy as [Hy He]. apply String.eqb_eq in He.
    rewrite <- He. now apply in_map.
  - destruct (String.eqb (s_id x) (s_id s)) eqn:E; [|auto].
    exfalso. apply String.eqb_eq in E. apply Hx. rewrite E. now apply in_map.
Qed.

Lemma update_keeps_ids id f st :
  (forall s, s_id (f s) = s_id s) ->
  map s_id (sessions (update_sessions_by_id id f st)) = map s_id (sessions st).
Proof.
  intros Hf. simpl. rewrite map_map. apply map_ext. intros s.
  destruct (String.eqb (s_id s) id); auto.
Qed.

(** New rows for a session that has none, one per distinct student, all go
    in. *)
Lemma insert_attendance_fresh sid (es : list Enrollment) table :
  (forall a, In a table -> a_session_id a <> sid) ->
  NoDup (map e_student_id es) ->
  insert_attendance (map (absent_record sid) es) table
  = Some (table ++ map (absent_record sid) es).
Proof.
  assert (G : forall es table,
             (forall a, In a table ->
                        a_session_id a <> sid \/
                        (a_session_id a = sid /\ ~ In (a_student_id a) (map e_student_id es))) ->
             NoDup (map e_student_id es) ->
             insert_attendance (map (absent_record sid) es) table
             = Some (table ++ map (absent_record sid) es)).
  { clear. induction es as [|e es IH]; intros table Ht Hnd; simpl.
    - now rewrite List.app_nil_r.
    - inversion Hnd as [|? ? He Hes]; subst.
      destruct (existsb _ table) eqn:E.
      + exfalso. apply existsb_exists in E as (a & Ha & Hm).
        unfold is_attendance_of in Hm. simpl in Hm.
        apply andb_true_iff in Hm as [H1 H2].
        apply String.eqb_eq in H1, H2.
        destruct (Ht a Ha) as [Hn | [_ Hn]]; [congruence|].
        apply Hn. simpl. now left.
      + rewrite IH; [now rewrite <- app_assoc | | exact Hes].
        intros a Ha. apply in_app_or in Ha as [Ha | [<- | []]].
        * destruct (Ht a Ha) as [Hn | [Hs Hn]]; [now left|].
          right. split; [exact Hs|]. intros Hin. apply Hn. simpl. now right.
        * right. split; [reflexivity | exact He]. }
  intros Ht Hnd. apply G; [|exact Hnd]. intros a Ha. left. now apply Ht.
Qed.

Lemma enrolled_students_distinct classId st :
  enrollments_keyed st -> NoDup (map e_student_id (enrolled_in classId st)).
Proof.
  unfold enrollments_keyed, enrolled_in.
  induction (enrollments st) as [|e l IH]; simpl; [constructor|].
  intros Hnd. inversion Hnd as [|? ? He Hl]; subst.
  destruct (String.eqb (e_class_id e) classId) eqn:E; [|auto].
  simpl. constructor; [|auto].
  intros Hin. apply He. apply in_map_iff in Hin as (e' & Hs & He').
  apply filter_In in He' as [He' Hc].
  apply String.eqb_eq in E, Hc. apply in_map_iff. exists e'.
  split; [|exact He']. congruence.
Qed.

(** The last element of a list that has one. *)
Lemma last_default {A : Type} (a : A) (l : list A) (d d' : A) :
  last (a :: l) d = last (a :: l) d'.
Proof.
  revert a. induction l as [|b l IH]; intros a; [reflexivity|].
  change (last (b :: l) d = last (b :: l) d'). apply IH.
Qed.

Lemma last_cons {A : Type} (a : A) (l : list A) (d : A) :
  last (a :: l) d = last l a.
Proof.
  destruct l as [|b l]; [reflexivity|].
  change (last (b :: l) d = last (b :: l) a). apply last_default.
Qed.

Lemma reactivate_twice now secret now' secret' s :
  reactivate now' secret' (reactivate now secret s) = reactivate now' secret' s.
Proof. reflexivity. Qed.

(** The update of a row whose id no other row has. *)
Lemma update_last_session pre s f st :
  sessions st = pre ++ [s] -> ~ In (s_id s) (map s_id pre) ->
  sessions (update_sessions_by_id (s_id s) f st) = pre ++ [f s].
Proof.
  intros Hs Hn. simpl. rewrite Hs, map_app. simpl. rewrite String.eqb_refl.
  f_equal. rewrite <- (map_id pre) at 2. apply map_ext_in. intros x Hx.
  destruct (String.eqb (s_id x) (s_id s)) eqn:E; [|reflexivity].
  exfalso. apply String.eqb_eq in E. apply Hn. rewrite <- E. now apply in_map.
Qed.

Section LocalDay.

Variables todayStart todayEnd : Z -> Z.

Lemma sessions_today_same_day classId teacherId now now' st :
  todayStart now' = todayStart now -> todayEnd now' = todayEnd now ->
  sessions_today todayStart todayEnd classId teacherId now' st
  = sessions_today todayStart todayEnd classId teacherId now st.
Proof. intros H1 H2. unfold sessions_today. now rewrite H1, H2. Qed.

(** A call that finds the session of the day reactivates it. *)
Lemma createSession_reactivates now secret new_id classId teacherId st s :
  sessions_keyed st ->
  sessions_today todayStart todayEnd classId teacherId now st = [s] ->
  let st1 := update_sessions_by_id (s_id s) (reactivate now secret) st in
  createSession todayStart todayEnd now secret new_id classId teacherId st
  = (Ok (reactivate now secret s), st1) /\
  sessions_keyed st1 /\
  sessions_today todayStart todayEnd classId teacherId now st1
  = [reactivate now secret s] /\
  attendance st1 = attendance st /\
  List.length (sessions st1) = List.length (sessions st).
Proof.
  intros Hkey Htoday st1.
  assert (Hin : In s (sessions st)).
  { assert (H : In s (sessions_today todayStart todayEnd classId teacherId now st))
      by (rewrite Htoday; now left).
    now apply filter_In in H as [H _]. }
  assert (Hrow : sessions_by_id (s_id s) st1 = [reactivate now secret s]).
  { unfold st1. rewrite sessions_by_id_update by reflexivity.
    now rewrite keyed_by_id. }
  repeat split.
  - unfold createSession. rewrite Htoday. cbn [maybeSingle]. cbv zeta.
    fold st1. now rewrite Hrow.
  - unfold sessions_keyed, st1. now rewrite update_keeps_ids.
  - unfold sessions_today, st1. simpl. rewrite filter_map_stable.
    + fold (sessions_today todayStart todayEnd classId teacherId now st).
      rewrite Htoday. simpl. now rewrite String.eqb_refl.
    + intros x. destruct (String.eqb (s_id x) (s_id s)); reflexivity.
  - unfold st1. simpl. apply length_map.
Qed.

(** A call that finds no session of the day inserts one, and an absent
    record for every student enrolled in the class. *)
Lemma createSession_creates now secret new_id classId teacherId st :
  sessions_keyed st -> attendance_refers st -> enrollments_keyed st ->
  sessions_today todayStart todayEnd classId teacherId now st = [] ->
  ~ In new_id (map s_id (sessions st)) ->
  let row := mkSession new_id classId teacherId now (now + 90 * 1000) false
               secret active false in
  let st1 := mkStore (sessions st ++ [row])
               (attendance st ++ map (absent_record new_id) (enrolled_in classId st))
               (enrollments st) (profiles st) (photos st) in
  createSession todayStart todayEnd now secret new_id classId teacherId st
  = (Ok row, st1) /\
  sessions_keyed st1 /\
  (todayStart now <= now < todayEnd now ->
   sessions_today todayStart todayEnd classId teacherId now st1 = [row]).
Proof.
  intros Hkey Hfk Henr Htoday Hfresh row st1.
  assert (Hins : insert_session row (sessions st) = Some (sessions st ++ [row])).
  { unfold insert_session. destruct (existsb _ _) eqn:E; [|reflexivity].
    exfalso. apply existsb_exists in E as (x & Hx & He).
    apply String.eqb_eq in He. apply Hfresh. simpl in He. rewrite <- He.
    now apply in_map. }
  repeat split.
  - unfold createSession. rewrite Htoday. cbn [maybeSingle]. cbv zeta.
    fold row. rewrite Hins.
    change (enrolled_in classId (with_sessions st (sessions st ++ [row])))
      with (enrolled_in classId st).
    change (attendance (with_sessions st (sessions st ++ [row])))
      with (attendance st).
    rewrite insert_attendance_fresh; [reflexivity | | now apply enrolled_students_distinct].
    intros a Ha Hs. apply Hfresh. rewrite <- Hs. now apply Hfk.
  - unfold sessions_keyed, st1. simpl. rewrite map_app. simpl.
    apply NoDup_app; [exact Hkey | repeat constructor; simpl; tauto |].
    intros a Ha [<- | []]. now apply Hfresh.
  - intros [H1 H2]. unfold sessions_today, st1. simpl. rewrite filter_app.
    fold (sessions_today todayStart todayEnd classId teacherId now st).
    rewrite Htoday. simpl. rewrite !String.eqb_refl. simpl.
    apply Z.leb_le in H1. apply Z.ltb_lt in H2. now rewrite H1, H2.
Qed.

(** What the other operations did between two calls leaves the day its
    session. *)
Lemma found_today classId teacherId day step st s :
  keeps_day (step_sessions step) ->
  sessions_today todayStart todayEnd classId teacherId day st = [s] ->
  sessions_today todayStart todayEnd classId teacherId day (found step st)
  = [step_sessions step s].
Proof.
  intros Hk H. unfold sessions_today, found. cbn [sessions].
  rewrite filter_map_stable.
  - fold (sessions_today todayStart todayEnd classId teacherId day st).
    now rewrite H.
  - intros x. destruct (Hk x) as (_ & -> & -> & ->). reflexivity.
Qed.

Lemma found_ids step st :
  keeps_day (step_sessions step) ->
  map s_id (sessions (found step st)) = map s_id (sessions st).
Proof.
  intros Hk. unfold found. cbn [sessions]. rewrite map_map.
  apply map_ext. intros x. now destruct (Hk x) as (-> & _).
Qed.

(** Calls on a day that has its session all reactivate it, and leave the
    records as they find them. *)
Lemma run_reactivates classId teacherId day id start later :
  forall st s,
    sessions_keyed st ->
    sessions_today todayStart todayEnd classId teacherId day st = [s] ->
    s_id s = id -> s_start_time s = start ->
    Forall (fun step =>
              keeps_day (step_sessions step) /\
              todayStart (call_now (step_call step)) = todayStart day /\
              todayEnd (call_now (step_call step)) = todayEnd day) later ->
    Forall2 (fun step r =>
               exists row,
                 r = Ok row /\
                 s_id row = id /\ s_class_id row = classId /\
                 s_teacher_id row = teacherId /\ s_start_time row = start /\
                 s_status row = active /\
                 s_qr_secret row = call_secret (step_call step) /\
                 s_end_time row = call_now (step_call step) + 90000)
      later (fst (run todayStart todayEnd classId teacherId later st)) /\
    map s_id (sessions (snd (run todayStart todayEnd classId teacherId later st)))
    = map s_id (sessions st) /\
    (exists current,
        last (fst (run todayStart todayEnd classId teacherId later st)) (Ok s)
        = Ok current /\
        sessions_today todayStart todayEnd classId teacherId day
          (snd (run todayStart todayEnd classId teacherId later st))
        = [current]) /\
    attendance (snd (run todayStart todayEnd classId teacherId later st))
    = last (map step_records later) (attendance st).
Proof.
  induction later as [|step later IH]; intros st s Hkey Htoday Hid Hstart Hday.
  - simpl. repeat split; auto. now exists s.
  - inversion Hday as [|? ? (Hk & Hc1 & Hc2) Hlater]; subst.
    set (c := step_call step) in *.
    set (s0 := step_sessions step s).
    assert (Hin : In s (sessions st)).
    { assert (H : In s (sessions_today todayStart todayEnd classId teacherId
                          day st)) by (rewrite Htoday; now left).
      now apply filter_In in H as [H _]. }
    assert (Hcls : s_class_id s = classId /\ s_teacher_id s = teacherId).
    { assert (H : In s (sessions_today todayStart todayEnd classId teacherId
                          day st)) by (rewrite Htoday; now left).
      apply filter_In in H as [_ H].
      apply andb_true_iff in H as [H _]. apply andb_true_iff in H as [H _].
      apply andb_true_iff in H as [H1 H2].
      now apply String.eqb_eq in H1, H2. }
    destruct (Hk s) as (Hk1 & Hk2 & Hk3 & Hk4). fold s0 in Hk1, Hk2, Hk3, Hk4.
    assert (Hkey0 : sessions_keyed (found step st))
      by (unfold sessions_keyed; now rewrite found_ids).
    assert (Htoday0 : sessions_today todayStart todayEnd classId teacherId
                        (call_now c) (found step st) = [s0]).
    { rewrite (sessions_today_same_day _ _ _ _ _ Hc1 Hc2).
      now apply found_today. }
    destruct (createSession_reactivates (call_now c) (call_secret c)
                (call_new_id c) classId teacherId (found step st) s0 Hkey0
                Htoday0)
      as (Hcall & Hkey1 & Htoday1 & Hatt1 & _).
    rewrite (sessions_today_same_day _ _ _ _ _ Hc1 Hc2) in Htoday1.
    set (s1 := reactivate (call_now c) (call_secret c) s0) in *.
    set (st1 := update_sessions_by_id (s_id s0)
                  (reactivate (call_now c) (call_secret c)) (found step st))
      in *.
    assert (Hids : map s_id (sessions st1) = map s_id (sessions st)).
    { unfold st1. rewrite update_keeps_ids by reflexivity.
      now apply found_ids. }
    destruct (IH st1 s1 Hkey1 Htoday1) as (Hres & Hrows & Hcur & Hatt).
    { simpl. congruence. }
    { simpl. congruence. }
    { exact Hlater. }
    cbn [run]. fold c. rewrite Hcall.
    destruct (run todayStart todayEnd classId teacherId later st1)
      as [rs stn] eqn:Erun.
    cbn [fst snd] in *. repeat split.
    + constructor; [|exact Hres].
      exists s1. destruct Hcls as [Hc Ht].
      repeat split; simpl; congruence.
    + congruence.
    + destruct Hcur as (current & Hlast & Hrow). exists current.
      split; [|exact Hrow]. now rewrite last_cons.
    + rewrite Hatt, Hatt1. cbn [map]. now rewrite last_cons.
Qed.

(** C3. One session a day.  Take a store that respects its keys, a class
    and its teacher with no session today, the teacher not being enrolled
    in the class (the trigger lets a user write no absent record of their
    own), and calls of [createSession] for them that all fall on this day
    of the local calendar.  Between the calls the other operations go on:
    sessions are ended, extended and swept, students check in and are
    reviewed, so that each later call finds rows of [sessions] rewritten
    (id, class, teacher and start time apart) and the attendance table
    rewritten.  The first call inserts
    the session, and one absent record for every enrollment in the class.
    Every later call returns that same session reactivated (status
    active, the secret of the call, [end_time] 90 seconds after the call)
    and inserts nothing: [sessions] holds the rows it held before and this
    one row, which is the one session of the day and is as the last call
    returned it, and the attendance table is left as the call found it,
    whatever the records are. *)
Theorem createSession_single_daily_session (classId teacherId : string)
    (first : Call) (later : list Step) (st : Store) :
  sessions_keyed st -> attendance_refers st -> enrollments_keyed st ->
  sessions_today todayStart todayEnd classId teacherId (call_now first) st
  = [] ->
  ~ In teacherId
      (map e_student_id
         (filter (fun e => String.eqb (e_class_id e) classId)
            (enrollments st))) ->
  ~ In (call_new_id first) (map s_id (sessions st)) ->
  todayStart (call_now first) <= call_now first < todayEnd (call_now first) ->
  Forall (fun step =>
            keeps_day (step_sessions step) /\
            todayStart (call_now (step_call step))
            = todayStart (call_now first) /\
            todayEnd (call_now (step_call step)) = todayEnd (call_now first))
    later ->
  let created :=
    mkSession (call_new_id first) classId teacherId (call_now first)
      (call_now first + 90000) false (call_secret first) active false in
  let started :=
    createSession todayStart todayEnd (call_now first) (call_secret first)
      (call_new_id first) classId teacherId st in
  let finished :=
    run todayStart todayEnd classId teacherId later (snd started) in
  fst started = Ok created /\
  sessions (snd started) = sessions st ++ [created] /\
  attendance (snd started)
  = attendance st
    ++ map (fun e =>
              mkAttendance (call_new_id first) (e_student_id e) absent None None
                JNull None)
         (filter (fun e => String.eqb (e_class_id e) classId)
            (enrollments st)) /\
  Forall2 (fun step r =>
             exists row,
               r = Ok row /\
               s_id row = call_new_id first /\ s_class_id row = classId /\
               s_teacher_id row = teacherId /\
               s_start_time row = call_now first /\
               s_status row = active /\
               s_qr_secret row = call_secret (step_call step) /\
               s_end_time row = call_now (step_call step) + 90000)
    later (fst finished) /\
  map s_id (sessions (snd finished))
  = map s_id (sessions st) ++ [call_new_id first] /\
  (exists current,
      last (fst finished) (fst started) = Ok current /\
      sessions_today todayStart todayEnd classId teacherId (call_now first)
        (snd finished)
      = [current]) /\
  attendance (snd finished)
  = last (map step_records later) (attendance (snd started)).
Proof.
  intros Hkey Hfk Henr Htoday _ Hfresh Hnow Hday created started finished.
  destruct (createSession_creates (call_now first) (call_secret first)
              (call_new_id first) classId teacherId st Hkey Hfk Henr Htoday
              Hfresh) as (Hcall & Hkey1 & Htoday1).
  specialize (Htoday1 Hnow).
  change (call_now first + 90 * 1000) with (call_now first + 90000) in *.
  fold created in Hcall, Hkey1, Htoday1.
  assert (Hst : fst started = Ok created)
    by (unfold started; now rewrite Hcall).
  assert (Hsnd : snd started
                 = mkStore (sessions st ++ [created])
                     (attendance st
                      ++ map (absent_record (call_new_id first))
                           (enrolled_in classId st))
                     (enrollments st) (profiles st) (photos st))
    by (unfold started; now rewrite Hcall).
  rewrite <- Hsnd in Hkey1, Htoday1.
  destruct (run_reactivates classId teacherId (call_now first)
              (call_new_id first) (call_now first) later
              (snd started) created Hkey1 Htoday1 eq_refl eq_refl Hday)
    as (Hres & Hrows & Hcur & Hatt).
  fold finished in Hres, Hrows, Hcur, Hatt.
  rewrite Hst. repeat split; auto.
  - now rewrite Hsnd.
  - now rewrite Hsnd.
  - rewrite Hrows, Hsnd. cbn [sessions]. rewrite map_app. reflexivity.
Qed.

End LocalDay.

End DailySessionFacts.

(** ** The claims at sample inputs *)

Module Instances.
Import Json Db Api Edge Spec.

(** C6, the claim as stated fails: in [Sample.store_extended] no session
    has the id [s9] and session [s1] is already extended, and extending
    either raises one and the same error. *)
Lemma extendSession_errors_coincide :
  sessions_by_id "s9" Sample.store_extended = [] /\
  map s_extended (sessions_by_id "s1" Sample.store_extended) = [true] /\
  fst (extendSession "s9" Sample.store_extended)
  = fst (extendSession "s1" Sample.store_extended).
Proof. repeat split. Qed.

(** C7, the claim as stated fails: ending session [s1] of [Sample.store1],
    whose [end_time] is 91 seconds, at 200 seconds moves [end_time] later;
    and ending the already ended session of [Sample.store_ended] at 60
    seconds changes its [end_time] from 50 to 60 seconds. *)
Lemma endSession_moves_end_time :
  (map s_end_time (sessions_by_id "s1" Sample.store1) = [91000] /\
   map s_end_time
     (sessions_by_id "s1" (snd (endSession 200000 "s1" Sample.store1)))
   = [200000]) /\
  (map (fun s => (s_status s, s_end_time s))
     (sessions_by_id "s1" Sample.store_ended) = [(ended, 50000)] /\
   map (fun s => (s_status s, s_end_time s))
     (sessions_by_id "s1" (snd (endSession 60000 "s1" Sample.store_ended)))
   = [(ended, 60000)]).
Proof. repeat split. Qed.

Lemma extendSession_one_shot_witness :
  sessions_by_id "s1" Sample.store1 = [Sample.session1] /\
  s_extended Sample.session1 = false /\
  exists s1 st1,
    extendSession "s1" Sample.store1 = (Ok s1, st1) /\
    s_end_time s1 = 121000 /\
    extendSession "s1" st1 = (Err "Session cannot be extended", st1).
Proof.
  split; [reflexivity|]. split; [reflexivity|].
  destruct (LifecycleFacts.extendSession_one_shot "s1" Sample.store1
              Sample.session1 eq_refl eq_refl)
    as (s1 & st1 & H1 & H2 & _ & _ & _ & H3).
  exists s1, st1. repeat split; assumption.
Defined.

Lemma extendSession_missing_witness :
  sessions_by_id "s9" Sample.store1 = [] /\
  extendSession "s9" Sample.store1
  = (Err "Session cannot be extended", Sample.store1).
Proof.
  split; [reflexivity|].
  exact (proj1 (LifecycleFacts.extendSession_missing "s9" Sample.store1 eq_refl)).
Defined.

Lemma endSession_overwrites_witness :
  sessions_by_id "s1" Sample.store1 = [Sample.session1] /\
  fst (endSession 200000 "s1" Sample.store1)
  = Ok (finish 200000 Sample.session1).
Proof.
  split; [reflexivity|].
  destruct (LifecycleFacts.endSession_overwrites 200000 300000 "s1"
              Sample.store1 Sample.session1 eq_refl) as (st1 & H & _).
  now rewrite H.
Defined.

Lemma attendanceStatus_gate_witness :
  exists row st',
    submit_attendance 9000 (Sample.submission Sample.token1 false) Sample.store1
    = (Success row pending "Attendance submitted for review", st') /\
    a_status row = pending.
Proof.
  assert (E : exists row st',
             submit_attendance 9000 (Sample.submission Sample.token1 false)
               Sample.store1
             = (Success row pending "Attendance submitted for review", st'))
    by (do 2 eexists; vm_compute; reflexivity).
  destruct E as (row & st' & E). exists row, st'. split; [exact E|].
  exact (proj2 (proj2 (proj2 (proj2
           (DecisionFacts.attendanceStatus_gate (JBool false)))) 9000
           (Sample.submission Sample.token1 false) Sample.store1 row pending _
           st' eq_refl E)).
Defined.

Lemma scheduled_sweep_repairs_witness :
  In Sample.session1_swept
    (sessions (snd (send_absence_notifications_scheduled 100000 100000
                      Sample.store1))) /\
  s_end_time Sample.session1_swept < 100000 /\
  s_status Sample.session1_swept = ended.
Proof.
  assert (Hin : In Sample.session1_swept
                  (sessions (snd (send_absence_notifications_scheduled
                                    100000 100000 Sample.store1))))
    by (vm_compute; auto).
  assert (Hlt : s_end_time Sample.session1_swept < 100000) by (simpl; lia).
  split; [exact Hin|]. split; [exact Hlt|].
  exact (proj2 (proj2 (SweepFacts.scheduled_sweep_repairs 100000 100000
                         Sample.store1))
           Sample.session1_swept (or_intror Hin) Hlt).
Defined.

Lemma wrong_secret_rejected_witness :
  decode Sample.stale_token
  = Some (JObject [("sessionId", JString "s1"); ("slotTime", JNumber 0 0);
                   ("secret", JString "old000")]) /\
  s_qr_secret Sample.session1 = "k7f3a0" /\
  acknowledgeScan 9000 Sample.stale_token "stu1" Sample.store1
  = (Err "Invalid QR token", Sample.store1) /\
  submit_attendance 9000 (Sample.submission Sample.stale_token true)
    Sample.store1
  = (Failure 401 "Invalid token", Sample.store1).
Proof.
  assert (Hdec : decode Sample.stale_token
                 = Some (JObject [("sessionId", JString "s1");
                                  ("slotTime", JNumber 0 0);
                                  ("secret", JString "old000")]))
    by (vm_compute; reflexivity).
  split; [exact Hdec|]. split; [reflexivity|].
  assert (Hwin : s_start_time Sample.session1 <= 9000
                 <= s_end_time Sample.session1) by (simpl; lia).
  assert (Hwrong : get_field
                     (JObject [("sessionId", JString "s1");
                               ("slotTime", JNumber 0 0);
                               ("secret", JString "old000")]) "secret"
                   <> JString (s_qr_secret Sample.session1))
    by discriminate.
  destruct (proj2 (proj2
              (CheckinFacts.wrong_secret_rejected 9000 Sample.stale_token "stu1"
                 (Sample.submission Sample.stale_token true) Sample.store1 _
                 Hdec eq_refl))
              Sample.session1 eq_refl eq_refl Hwin Hwrong) as [H1 H2].
  split; [apply H1; reflexivity | apply H2; [reflexivity | discriminate]].
Defined.

Lemma createSession_single_daily_session_witness :
  sessions_today Sample.midnight Sample.next_midnight "c1" "t1" 1000
    Sample.store0 = [] /\
  let started :=
    createSession Sample.midnight Sample.next_midnight 1000 "k7f3a0" "s1" "c1"
      "t1" Sample.store0 in
  let finished :=
    run Sample.midnight Sample.next_midnight "c1" "t1" Sample.later_calls
      (snd started) in
  map a_status (attendance (snd started)) = [absent; absent] /\
  map s_id (sessions (snd finished)) = ["s1"] /\
  map a_status (attendance (snd finished)) = [present; absent].
Proof.
  split; [reflexivity|].
  assert (Hkey : sessions_keyed Sample.store0) by constructor.
  assert (Hfk : attendance_refers Sample.store0) by (intros a []).
  assert (Henr : enrollments_keyed Sample.store0).
  { repeat constructor; simpl; intuition discriminate. }
  assert (Hown : ~ In "t1" (map e_student_id (enrolled_in "c1" Sample.store0)))
    by (simpl; intuition discriminate).
  assert (Hnow : Sample.midnight (call_now Sample.first_call)
                 <= call_now Sample.first_call
                 < Sample.next_midnight (call_now Sample.first_call))
    by (vm_compute; split; [discriminate | reflexivity]).
  assert (Hday : Forall (fun step =>
                           keeps_day (step_sessions step) /\
                           Sample.midnight (call_now (step_call step))
                           = Sample.midnight (call_now Sample.first_call) /\
                           Sample.next_midnight (call_now (step_call step))
                           = Sample.next_midnight (call_now Sample.first_call))
                   Sample.later_calls).
  { repeat constructor; intros s; repeat split. }
  destruct (DailySessionFacts.createSession_single_daily_session
              Sample.midnight Sample.next_midnight "c1" "t1" Sample.first_call
              Sample.later_calls Sample.store0
              Hkey Hfk Henr eq_refl Hown (fun H : In "s1" [] => H) Hnow Hday)
    as (_ & _ & Hfirst & _ & Hrows & _ & Hatt).
  cbv zeta. split; [|split].
  - exact (f_equal (map a_status) Hfirst).
  - exact Hrows.
  - exact (f_equal (map a_status) Hatt).
Defined.

End Instances.

(** * Further properties

    ** Tokens: rotation and acceptance *)

Module TokenFacts.
Import Json Db Api Edge Notions DbFacts CodecFacts CheckinFacts.

(** X1. The token on display changes exactly with the ten-second slot:
    two mints of [generateQRToken] give the same token if and only if
    they are for the same session id, the same secret and the same slot
    [floor(t / 10 s)]. *)
Theorem generateQRToken_rotation (now now' : Z) (sessionId sessionId' : string)
    (qrSecret qrSecret' : string) :
  generateQRToken now sessionId qrSecret
  = generateQRToken now' sessionId' qrSecret' <->
  sessionId = sessionId' /\ qrSecret = qrSecret' /\ now / 10000 = now' / 10000.
Proof.
  split.
  - intros H. apply (f_equal decode) in H. unfold generateQRToken in H.
    rewrite !decode_btoa_stringify in H. cbv zeta in H.
    rewrite !Z.div_div in H by lia. simpl in H.
    injection H as -> H ->. repeat split. exact H.
  - intros (-> & -> & H). unfold generateQRToken. cbv zeta.
    rewrite !Z.div_div by lia. simpl. now rewrite H.
Qed.

Lemma minted_decodes token session :
  minted token session -> exists td, decode token = Some td /\ names td session.
Proof.
  intros [[t ->] | [t ->]]; eexists; (split; [apply decode_btoa_stringify|]);
    split; reflexivity.
Qed.

End TokenFacts.

(** ** Scan acknowledgment *)

Module ScanFacts.
Import Json Db Api Edge Notions DbFacts CodecFacts CheckinFacts TokenFacts.
Local Open Scope list_scope.

Lemma filter_nil_existsb {A : Type} (p : A -> bool) (l : list A) :
  filter p l = [] -> existsb p l = false.
Proof.
  induction l as [|x l IH]; simpl; [reflexivity|].
  destruct (p x); [discriminate | exact IH].
Qed.

(** The checks of [acknowledgeScan] on a token that names a stored, active
    session with its current secret: what is left is the clock. *)
Lemma acknowledgeScan_checked now token uid st td session :
  decode token = Some td -> names td session ->
  sessions_by_id (s_id session) st = [session] ->
  s_id session <> EmptyString -> s_status session = active ->
  acknowledgeScan now token uid st
  = if Z.gtb now (s_end_time session) then (Err "Session has ended", st)
    else record_scan now (s_id session) uid st.
Proof.
  intros Hdec [Hid Hsec] Hrow Hne Hact. unfold acknowledgeScan. rewrite Hdec.
  assert (Hnn : is_null td = false)
    by (destruct td; try reflexivity; simpl in Hid; discriminate).
  rewrite Hnn. cbv zeta. rewrite Hid, Hsec.
  assert (Ht : negb (truthy (JString (s_id session))) = false).
  { simpl. apply negb_false_iff, negb_true_iff. now apply String.eqb_neq. }
  rewrite Ht. unfold active_sessions_by_id. cbn [ToString]. rewrite Hrow.
  simpl filter. rewrite Hact. simpl. now rewrite String.eqb_refl.
Qed.

Lemma record_scan_creates now sid uid st :
  attendance_of sid uid st = [] ->
  record_scan now sid uid st
  = (Ok (mkAttendance sid uid pending (Some now) None JNull None),
     with_attendance st
       (attendance st
        ++ [mkAttendance sid uid pending (Some now) None JNull None])).
Proof.
  intros H. unfold record_scan. rewrite H. simpl.
  now rewrite (filter_nil_existsb _ _ H).
Qed.

Lemma record_scan_updates now sid uid st a :
  attendance_of sid uid st = [a] -> a_status a <> present ->
  record_scan now sid uid st
  = (Ok (scan now a), update_attendance_of sid uid (scan now) st).
Proof.
  intros H Hp. unfold record_scan. rewrite H. simpl.
  destruct (att_status_eqb (a_status a) present) eqn:E.
  - destruct (a_status a); simpl in E; congruence.
  - rewrite attendance_of_update by (intros x Hx; exact Hx). now rewrite H.
Qed.

Lemma attendance_of_appended sid uid st row :
  attendance_of sid uid st = [] ->
  a_session_id row = sid -> a_student_id row = uid ->
  attendance_of sid uid (with_attendance st (attendance st ++ [row])) = [row].
Proof.
  intros H <- <-. unfold attendance_of in *. simpl. rewrite filter_app, H.
  simpl. unfold is_attendance_of. now rewrite !String.eqb_refl.
Qed.

(** A scan of a student without a record, or with one that is not
    present, goes through. *)
Lemma record_scan_ok now sid uid st :
  (attendance_of sid uid st = [] \/
   exists a, attendance_of sid uid st = [a] /\ a_status a <> present) ->
  exists row st',
    record_scan now sid uid st = (Ok row, st') /\
    a_session_id row = sid /\ a_student_id row = uid /\
    a_status row = pending /\ a_checkin_time row = Some now /\
    attendance_of sid uid st' = [row] /\
    same_but_attendance st st'.
Proof.
  intros [Hnone | (a & Hone & Hp)].
  - rewrite record_scan_creates by assumption. do 2 eexists.
    split; [reflexivity|]. repeat split.
    now apply attendance_of_appended.
  - rewrite (record_scan_updates _ _ _ _ a) by assumption.
    assert (Hin : In a (attendance_of sid uid st))
      by (rewrite Hone; now left).
    apply filter_In in Hin as [_ Hk]. unfold is_attendance_of in Hk.
    apply andb_true_iff in Hk as [Hs Hu]. apply String.eqb_eq in Hs, Hu.
    do 2 eexists. split; [reflexivity|]. simpl. repeat split; auto.
    rewrite attendance_of_update by (intros x Hx; exact Hx). now rewrite Hone.
Qed.

(** X2. A token of either mint path, minted at any time with the current
    secret, is accepted from a student who sees the session under the
    policies on [sessions], while the session is active and the clock has
    not passed [end_time]: the record of the student, created if there was
    none and otherwise not yet present, comes back pending with the clock
    as check-in time, it is the one record of the student for the session,
    and nothing else of the store changes.  The slot of the token plays no
    part. *)
Theorem acknowledgeScan_accepts (now : Z) (token uid : string) (st : Store)
    (session : Session) :
  minted token session ->
  sessions_by_id (s_id session) st = [session] ->
  s_id session <> EmptyString ->
  s_status session = active ->
  Policy.session_visible uid session st = true ->
  now <= s_end_time session ->
  (attendance_of (s_id session) uid st = [] \/
   exists a, attendance_of (s_id session) uid st = [a] /\ a_status a <> present) ->
  exists row st',
    acknowledgeScan now token uid st = (Ok row, st') /\
    a_session_id row = s_id session /\ a_student_id row = uid /\
    a_status row = pending /\ a_checkin_time row = Some now /\
    attendance_of (s_id session) uid st' = [row] /\
    same_but_attendance st st'.
Proof.
  intros Hmint Hrow Hne Hact _ Hnow Hrec.
  destruct (minted_decodes _ _ Hmint) as (td & Hdec & Hnames).
  rewrite (acknowledgeScan_checked now token uid st td session) by assumption.
  assert (Hgt : Z.gtb now (s_end_time session) = false)
    by (rewrite Z.gtb_ltb; apply Z.ltb_ge; lia).
  rewrite Hgt. now apply record_scan_ok.
Qed.


(** What a scan may do to the store, in any case. *)
Lemma record_scan_cases now sid uid st r st' :
  record_scan now sid uid st = (r, st') ->
  (st' = st /\ exists msg, r = Err msg) \/
  (exists row, r = Ok row /\ attendance_of sid uid st = [] /\
               st' = with_attendance st (attendance st ++ [row]) /\
               a_session_id row = sid /\ a_student_id row = uid) \/
  (exists a, r = Ok (scan now a) /\ attendance_of sid uid st = [a] /\
             a_status a <> present /\
             st' = update_attendance_of sid uid (scan now) st).
Proof.
  unfold record_scan. intros H.
  destruct (maybeSingle (attendance_of sid uid st)) as [|cur|] eqn:E.
  - assert (E' : attendance_of sid uid st = [])
      by (destruct (attendance_of sid uid st) as [|? [|? ?]]; simpl in E; congruence).
    simpl in H. rewrite (filter_nil_existsb _ _ E') in H.
    injection H as <- <-. right. left. eexists. repeat split; auto.
  - apply maybeSingle_inv in E.
    destruct (att_status_eqb (a_status cur) present) eqn:Ec.
    + injection H as <- <-. left. eauto.
    + cbv zeta in H.
      rewrite attendance_of_update in H by (intros x Hx; exact Hx).
      rewrite E in H. simpl in H. injection H as <- <-.
      right. right. exists cur. repeat split; auto.
      intros Hp. rewrite Hp in Ec. discriminate.
  - injection H as <- <-. left. eauto.
Qed.

(** A scan either fails on a check and changes nothing, or it has found
    the stored, active session whose id is the text of the [sessionId] of
    the token, with its secret and within its time, and goes on to the
    record of the student. *)
Lemma acknowledgeScan_cases now token uid st r st' :
  acknowledgeScan now token uid st = (r, st') ->
  (st' = st /\ exists msg, r = Err msg) \/
  exists td session,
    decode token = Some td /\
    truthy (get_field td "sessionId") = true /\
    ToString (get_field td "sessionId") = Some (s_id session) /\
    get_field td "secret" = JString (s_qr_secret session) /\
    In session (sessions st) /\ s_status session = active /\
    now <= s_end_time session /\
    record_scan now (s_id session) uid st = (r, st').
Proof.
  unfold acknowledgeScan. intros H.
  destruct (decode token) as [td|] eqn:Ed;
    [|injection H as <- <-; left; eauto].
  destruct (is_null td); [injection H as <- <-; left; eauto|].
  cbv zeta in H.
  destruct (negb (truthy _)) eqn:Ety; [injection H as <- <-; left; eauto|].
  apply negb_false_iff in Ety.
  destruct (maybeSingle _) as [|session|] eqn:Es;
    try (injection H as <- <-; left; eauto).
  apply active_session_found in Es as (Hid & Hin & Hact).
  destruct (negb (strict_eq_string _ _)) eqn:Ek;
    [injection H as <- <-; left; eauto|].
  apply negb_false_iff, strict_eq_string_true in Ek.
  destruct (Z.gtb now (s_end_time session)) eqn:Et;
    [injection H as <- <-; left; eauto|].
  rewrite Z.gtb_ltb in Et. apply Z.ltb_ge in Et.
  destruct (record_scan_of_cases now (get_field td "sessionId") uid st)
    as [E | E]; rewrite E in H.
  - right. exists td, session. rewrite (text_of_ToString _ _ Hid) in H.
    repeat split; auto.
  - injection H as <- <-. left. eauto.
Qed.

(** X4. A scan that fails changes nothing, and a scan that succeeds
    changes one record at most: whatever the token, the sessions, the
    enrollments, the profiles and the bucket stay as they are, the records
    of every other student stay as they are, and no record is removed. *)
Theorem acknowledgeScan_frame (now : Z) (token uid : string) (st st' : Store)
    (r : Result Attendance) :
  acknowledgeScan now token uid st = (r, st') ->
  same_but_attendance st st' /\
  ((exists msg, r = Err msg) -> st' = st) /\
  (forall a, a_student_id a <> uid ->
             (In a (attendance st') <-> In a (attendance st))) /\
  (List.length (attendance st) <= List.length (attendance st')
   <= S (List.length (attendance st)))%nat.
Proof.
  intros H.
  apply acknowledgeScan_cases in H as [[-> [msg ->]] | (td & session & H)].
  { repeat split; auto; lia. }
  destruct H as (_ & _ & _ & _ & _ & _ & _ & H).
  remember (s_id session) as sid eqn:Hsid. clear Hsid.
  apply record_scan_cases in H
    as [[-> [msg ->]] | [(row & -> & Hnone & -> & Hs & Hu) | (a & -> & Hone & Hp & ->)]].
  - repeat split; auto; lia.
  - split; [repeat split|]. split; [intros [msg Hm]; discriminate|].
    split.
    + intros a Ha. simpl. split.
      * intros Hin. apply in_app_or in Hin as [Hin | [<- | []]];
          [exact Hin | congruence].
      * intros Hin. apply in_or_app. now left.
    + simpl. rewrite length_app. simpl. lia.
  - split; [repeat split|]. split; [intros [msg Hm]; discriminate|].
    split.
    + intros x Hx. simpl. split.
      * intros Hin. apply in_map_iff in Hin as (y & Hy & Hin).
        destruct (is_attendance_of sid uid y) eqn:E; [|now subst].
        subst x. simpl in Hx. unfold is_attendance_of in E.
        apply andb_true_iff in E as [_ E]. apply String.eqb_eq in E.
        congruence.
      * intros Hin. apply in_map_iff. exists x. split; [|exact Hin].
        destruct (is_attendance_of sid uid x) eqn:E; [|reflexivity].
        unfold is_attendance_of in E. apply andb_true_iff in E as [_ E].
        apply String.eqb_eq in E. congruence.
    + simpl. rewrite length_map. lia.
Qed.

End ScanFacts.

(** ** Closing, reopening and extending a session *)

Module ReopenFacts.
Import Json Db Api Edge Spec Notions Reports.
Import DbFacts CodecFacts CheckinFacts DailySessionFacts TokenFacts ScanFacts.
Local Open Scope list_scope.

Lemma names_not_null td sid :
  get_field td "sessionId" = JString sid -> is_null td = false.
Proof. destruct td; try reflexivity. simpl. discriminate. Qed.

Lemma truthy_id sid : sid <> EmptyString -> negb (truthy (JString sid)) = false.
Proof.
  intros H. simpl. apply negb_false_iff, negb_true_iff. now apply String.eqb_neq.
Qed.

(** A scan with a token that names a session stored as ended. *)
Lemma acknowledgeScan_not_active now token uid st td sid session :
  decode token = Some td -> get_field td "sessionId" = JString sid ->
  sid <> EmptyString ->
  sessions_by_id sid st = [session] -> s_status session = ended ->
  acknowledgeScan now token uid st = (Err "Session not found or expired", st).
Proof.
  intros Hdec Hid Hne Hrow Hst. unfold acknowledgeScan.
  rewrite Hdec, (names_not_null _ _ Hid). cbv zeta.
  rewrite Hid, (truthy_id _ Hne). unfold active_sessions_by_id. cbn [ToString].
  rewrite Hrow. simpl. now rewrite Hst.
Qed.


Lemma endSession_row now sid st session :
  sessions_by_id sid st = [session] ->
  endSession now sid st
  = (Ok (finish now session), update_sessions_by_id sid (finish now) st) /\
  sessions_by_id sid (update_sessions_by_id sid (finish now) st)
  = [finish now session].
Proof.
  intros Hrow.
  assert (H : sessions_by_id sid (update_sessions_by_id sid (finish now) st)
              = [finish now session])
    by (rewrite sessions_by_id_update by reflexivity; now rewrite Hrow).
  split; [|exact H]. unfold endSession. cbv zeta. now rewrite H.
Qed.

(** X5. Ending a session closes check-in at once and for every token:
    after [endSession], a scan with any token that names the session fails
    with the not-found-or-expired error and a verification submission for
    it fails with 400, whatever the clock and the secret, and neither
    changes the store. *)
Theorem endSession_closes_checkin (now now' : Z) (sid token uid : string)
    (td : JSON) (req : SubmitRequest) (st : Store) (session : Session) :
  sessions_by_id sid st = [session] ->
  sid <> EmptyString ->
  decode token = Some td ->
  get_field td "sessionId" = JString sid ->
  req_sessionId req = sid ->
  req_auth req <> None ->
  exists st1,
    endSession now sid st = (Ok (finish now session), st1) /\
    acknowledgeScan now' token uid st1
    = (Err "Session not found or expired", st1) /\
    submit_attendance now' req st1 = (Failure 400 "Session is not active", st1).
Proof.
  intros Hrow Hne Hdec Hid Hreq Hauth.
  destruct (endSession_row now sid st session Hrow) as [Hend Hrow1].
  eexists. split; [exact Hend|]. split.
  - eapply acknowledgeScan_not_active; eauto.
  - unfold submit_attendance. destruct (req_auth req); [|congruence].
    cbv zeta. rewrite Hreq, Hrow1. reflexivity.
Qed.

Section LocalDay.

Variables todayStart todayEnd : Z -> Z.


(** X7. The one extension is per stored session, not per activation:
    starting the session of the day again keeps its [extended] flag, so a
    session that was extended before cannot be extended after it is
    reopened, and one that was not is extended to 120 seconds after the
    call. *)
Theorem createSession_keeps_extended (now : Z)
    (secret new_id classId teacherId : string) (st : Store) (s : Session) :
  sessions_keyed st ->
  sessions_today todayStart todayEnd classId teacherId now st = [s] ->
  exists st1,
    createSession todayStart todayEnd now secret new_id classId teacherId st
    = (Ok (reactivate now secret s), st1) /\
    (s_extended s = true ->
     extendSession (s_id s) st1 = (Err "Session cannot be extended", st1)) /\
    (s_extended s = false ->
     exists st2,
       extendSession (s_id s) st1
       = (Ok (extend_to (now + 120000) (reactivate now secret s)), st2)).
Proof.
  intros Hkey Htoday.
  destruct (createSession_reactivates todayStart todayEnd now secret new_id classId teacherId
              st s Hkey Htoday) as (Hcall & _).
  cbv zeta in *.
  set (st1 := update_sessions_by_id (s_id s) (reactivate now secret) st) in *.
  assert (Hin : In s (sessions st)).
  { assert (H : In s (sessions_today todayStart todayEnd classId teacherId now st))
      by (rewrite Htoday; now left).
    now apply filter_In in H as [H _]. }
  assert (Hrow : sessions_by_id (s_id s) st1 = [reactivate now secret s]).
  { unfold st1. rewrite sessions_by_id_update by reflexivity.
    now rewrite keyed_by_id. }
  exists st1. split; [exact Hcall|]. split; intros Hext.
  - unfold extendSession. rewrite Hrow. simpl. now rewrite Hext.
  - unfold extendSession. rewrite Hrow. cbn [single]. simpl s_extended.
    rewrite Hext. cbv zeta. rewrite sessions_by_id_update by reflexivity.
    rewrite Hrow. cbn [map single]. eexists. f_equal. f_equal.
    simpl s_end_time. f_equal. lia.
Qed.

End LocalDay.


Lemma count_after_finish (now : Z) (p : Session -> bool) (session : Session)
    (l : list Session) :
  (forall s, p (finish now s) = false) ->
  NoDup (map s_id l) -> In session l ->
  (List.length
     (filter p
        (map (fun s => if String.eqb (s_id s) (s_id session)
                       then finish now s else s) l))
   + (if p session then 1 else 0))%nat
  = List.length (filter p l).
Proof.
  intros Hp. induction l as [|x l IH]; simpl; [tauto|].
  intros Hnd Hin. inversion Hnd as [|? ? Hx Hl]; subst.
  destruct Hin as [-> | Hin].
  - rewrite String.eqb_refl, Hp.
    assert (Hg : map (fun s => if String.eqb (s_id s) (s_id session)
                               then finish now s else s) l = l).
    { rewrite <- (map_id l) at 2. apply map_ext_in. intros y Hy.
      destruct (String.eqb (s_id y) (s_id session)) eqn:E; [|reflexivity].
      exfalso. apply String.eqb_eq in E. apply Hx. rewrite <- E.
      now apply in_map. }
    rewrite Hg. destruct (p session); simpl; lia.
  - assert (Hne : String.eqb (s_id x) (s_id session) = false).
    { apply String.eqb_neq. intros E. apply Hx. rewrite E. now apply in_map. }
    rewrite Hne. specialize (IH Hl Hin). destruct (p x); simpl; lia.
Qed.

(** X9. [getActiveSessionsCount] follows the stored status: ending a
    stored active session takes exactly one off the count of its teacher,
    ending one that is already ended changes no count, and the count of
    every other teacher stays as it is. *)
Theorem getActiveSessionsCount_endSession (now : Z) (teacherId : string)
    (st : Store) (session : Session) :
  sessions_keyed st ->
  In session (sessions st) ->
  (s_teacher_id session = teacherId -> s_status session = active ->
   S (getActiveSessionsCount teacherId (snd (endSession now (s_id session) st)))
   = getActiveSessionsCount teacherId st) /\
  (s_teacher_id session <> teacherId \/ s_status session = ended ->
   getActiveSessionsCount teacherId (snd (endSession now (s_id session) st))
   = getActiveSessionsCount teacherId st).
Proof.
  intros Hkey Hin.
  pose proof (keyed_by_id st session Hkey Hin) as Hrow.
  destruct (endSession_row now (s_id session) st session Hrow) as [Hend _].
  rewrite Hend. cbn [snd]. unfold getActiveSessionsCount.
  pose proof (count_after_finish now
                (fun s => String.eqb (s_teacher_id s) teacherId
                          && status_eqb (s_status s) active)
                session (sessions st)) as H.
  cbv beta in H. specialize (H ltac:(intros; simpl; apply andb_false_r) Hkey Hin).
  cbn [update_sessions_by_id with_sessions sessions].
  split.
  - intros Ht Ha. rewrite Ht, Ha, String.eqb_refl in H. simpl in H. lia.
  - intros [Ht | Ha].
    + apply String.eqb_neq in Ht. rewrite Ht in H. simpl in H. lia.
    + rewrite Ha, andb_false_r in H. lia.
Qed.

End ReopenFacts.

(** ** The scheduled sweep: who is written to, and how often *)

Module NoticeFacts.
Import Json Db Api Edge Spec Notions Reports.
Import DbFacts SweepFacts CheckinFacts DailySessionFacts.
Local Open Scope list_scope.

Lemma filter_map_pred {A : Type} (p q : A -> bool) (g : A -> A) (l : list A) :
  (forall x, p (g x) = q x) -> filter p (map g l) = map g (filter q l).
Proof.
  intros H. induction l as [|x l IH]; simpl; [reflexivity|].
  rewrite H. destruct (q x); simpl; now rewrite IH.
Qed.

Lemma filter_map_pred_any {A B : Type} (p : B -> bool) (q : A -> bool)
    (g : A -> B) (l : list A) :
  (forall x, p (g x) = q x) -> filter p (map g l) = map g (filter q l).
Proof.
  intros H. induction l as [|x l IH]; simpl; [reflexivity|].
  rewrite H. destruct (q x); simpl; now rewrite IH.
Qed.

(** The loop of the sweep: the mails are those of the selected sessions
    on the store as it was, and the sessions with a selected id are
    flagged. *)
Lemma notify_loop (l : list Session) :
  forall (sent : list Notice) (st : Store),
    fold_left
      (fun (acc : list Notice * Store) session =>
         let '(sent, cur) := acc in
         ((sent ++ notices [present] session cur)%list,
          mark_notified (s_id session) cur))
      l (sent, st)
    = (sent ++ flat_map (fun session => notices [present] session st) l,
       with_sessions st
         (map (fun s => if existsb (String.eqb (s_id s)) (map s_id l)
                        then flag_sent s else s)
            (sessions st))).
Proof.
  induction l as [|x l IH]; intros sent st; simpl.
  - rewrite List.app_nil_r. unfold with_sessions. rewrite map_id.
    now destruct st.
  - rewrite IH. rewrite <- app_assoc. f_equal.
    unfold with_sessions. simpl. f_equal. rewrite map_map.
    apply map_ext. intros s.
    destruct (String.eqb (s_id s) (s_id x)) eqn:E; simpl; [|reflexivity].
    now destruct (existsb _ _).
Qed.

Lemma selected_are_due now (s : Session) :
  (let s' := expire now s in
   Z.leb (s_end_time s') now && Z.leb (now - 30 * 60 * 1000) (s_end_time s')
   && status_eqb (s_status s') ended && negb (s_notifications_sent s'))
  = due now s.
Proof.
  unfold expire, due. cbv zeta.
  destruct (Z.leb (s_end_time s) now) eqn:E1, (s_status s) eqn:E2; simpl;
    rewrite ?E1, ?E2; simpl; rewrite ?andb_true_r, ?andb_false_r; reflexivity.
Qed.

Lemma notices_expire statuses now s st :
  notices statuses (expire now s) st = notices statuses s st.
Proof. unfold expire. now destruct (_ && _). Qed.

(** [send-absence-notifications] in closed form. *)
Lemma send_absence_notifications_closed (now : Z) (st : Store) :
  send_absence_notifications now st
  = (flat_map (fun session => notices [present] session st)
       (filter (due now) (sessions st)),
     with_sessions st
       (map (fun s => if existsb (String.eqb (s_id s))
                           (map s_id (filter (due now) (sessions st)))
                      then flag_sent (expire now s) else expire now s)
          (sessions st))).
Proof.
  unfold send_absence_notifications. cbv zeta.
  change (mark_ended _ st) with (with_sessions st (map (expire now) (sessions st))).
  cbn [sessions with_sessions].
  rewrite (filter_map_pred _ (due now) (expire now))
    by (intros x; apply (selected_are_due now x)).
  rewrite notify_loop. cbn [app]. f_equal.
  - rewrite flat_map_concat_map, map_map, <- flat_map_concat_map.
    apply flat_map_ext. intros s.
    rewrite <- (notices_expire [present] now s st). reflexivity.
  - unfold with_sessions. cbn [sessions attendance enrollments profiles photos].
    f_equal. rewrite !map_map. apply map_ext. intros s.
    assert (Hid : s_id (expire now s) = s_id s)
      by (unfold expire; now destruct (_ && _)).
    rewrite Hid.
    replace (map (fun x => s_id (expire now x)) (filter (due now) (sessions st)))
      with (map s_id (filter (due now) (sessions st))); [reflexivity|].
    apply map_ext. intros x. unfold expire. now destruct (_ && _).
Qed.

Lemma in_notices statuses session st n :
  In n (notices statuses session st) <->
  exists e p,
    In e (absentees statuses session st) /\ profile_of e st = Some p /\
    p_email p <> EmptyString /\
    n = mkNotice (s_id session) (e_student_id e) (p_email p).
Proof.
  unfold notices. rewrite in_flat_map. split.
  - intros (e & He & Hn). destruct (profile_of e st) as [p|] eqn:Ep; [|destruct Hn].
    destruct (String.eqb (p_email p) EmptyString) eqn:Ee; [destruct Hn|].
    destruct Hn as [<- | []]. exists e, p. repeat split; auto.
    now apply String.eqb_neq.
  - intros (e & p & He & Hp & Hm & ->). exists e. split; [exact He|].
    rewrite Hp. apply String.eqb_neq in Hm. rewrite Hm. now left.
Qed.

Lemma due_spec now s :
  due now s = true <->
  now - 1800000 <= s_end_time s <= now /\ s_notifications_sent s = false.
Proof.
  unfold due. rewrite !andb_true_iff, !Z.leb_le, negb_true_iff.
  intuition lia.
Qed.

(** X10. Who the scheduled sweep writes to.  A mail goes out exactly for
    a stored session whose [end_time] lies in the thirty minutes up to the
    clock and that is not yet flagged as notified, whatever its status,
    to a student enrolled in its class who has no present record for it
    and whose profile has an email address.  The repair that
    [send-absence-notifications-scheduled] does first changes none of
    it. *)
Theorem send_absence_notifications_recipients (now : Z) (st : Store)
    (n : Notice) :
  (In n (fst (send_absence_notifications now st)) <->
   exists session e p,
     In session (sessions st) /\
     now - 1800000 <= s_end_time session <= now /\
     s_notifications_sent session = false /\
     In e (enrolled_in (s_class_id session) st) /\
     ~ (exists a, In a (attendance st) /\ a_session_id a = s_id session /\
                  a_student_id a = e_student_id e /\ a_status a = present) /\
     profile_of e st = Some p /\ p_email p <> EmptyString /\
     n = mkNotice (s_id session) (e_student_id e) (p_email p)) /\
  (forall now0,
      fst (send_absence_notifications_scheduled now0 now st)
      = fst (send_absence_notifications now st)).
Proof.
  split.
  - rewrite send_absence_notifications_closed. cbn [fst].
    rewrite in_flat_map. split.
    + intros (session & Hs & Hn). apply filter_In in Hs as [Hs Hd].
      apply due_spec in Hd as [Hw Hf].
      apply in_notices in Hn as (e & p & He & Hp & Hm & ->).
      apply absentees_spec in He as [He Hno].
      exists session, e, p. repeat split; auto; try lia.
      intros (a & Ha & H1 & H2 & H3). apply Hno. exists a.
      repeat split; auto. rewrite H3. now left.
    + intros (session & e & p & Hs & Hw & Hf & He & Hno & Hp & Hm & ->).
      exists session. split.
      * apply filter_In. split; [exact Hs|]. apply due_spec. now split.
      * apply in_notices. exists e, p. repeat split; auto.
        apply absentees_spec. split; [exact He|].
        intros (a & Ha & H1 & H2 & [H3 | []]). apply Hno. exists a.
        repeat split; auto.
  - intros now0. unfold send_absence_notifications_scheduled. cbv zeta.
    rewrite !send_absence_notifications_closed. cbn [fst].
    set (e0 := fun s : Session =>
                 if status_eqb (s_status s) active && Z.ltb (s_end_time s) now0
                 then mkSession (s_id s) (s_class_id s) (s_teacher_id s)
                        (s_start_time s) (s_end_time s) (s_extended s)
                        (s_qr_secret s) ended (s_notifications_sent s)
                 else s).
    change (sessions (mark_ended _ st)) with (map e0 (sessions st)).
    rewrite (filter_map_pred _ (due now) e0)
      by (intros x; unfold e0; now destruct (_ && _)).
    rewrite flat_map_concat_map, map_map, <- flat_map_concat_map.
    apply flat_map_ext. intros s. unfold e0. now destruct (_ && _).
Qed.

(** The rows a sweep leaves unflagged were unflagged and not dealt
    with. *)
Lemma unflagged_after_sweep now st s' :
  In s' (sessions (snd (send_absence_notifications now st))) ->
  s_notifications_sent s' = false ->
  forall x, In x (sessions st) -> due now x = true -> s_id x <> s_id s'.
Proof.
  rewrite send_absence_notifications_closed. cbn [snd sessions with_sessions].
  intros Hin Hf x Hx Hd Heq. apply in_map_iff in Hin as (s & <- & Hs).
  assert (Hid : s_id (expire now s) = s_id s)
    by (unfold expire; now destruct (_ && _)).
  destruct (existsb _ _) eqn:E; [discriminate|].
  apply not_true_iff_false in E. apply E. apply existsb_exists.
  exists (s_id x). split.
  - apply in_map, filter_In. now split.
  - apply String.eqb_eq. now rewrite Heq, Hid.
Qed.

Lemma notice_session now st n :
  In n (fst (send_absence_notifications now st)) ->
  exists x, In x (sessions st) /\ due now x = true /\ s_id x = n_session_id n.
Proof.
  rewrite send_absence_notifications_closed. cbn [fst]. rewrite in_flat_map.
  intros (x & Hx & Hn). apply filter_In in Hx as [Hx Hd].
  apply in_notices in Hn as (e & p & _ & _ & _ & ->). eauto.
Qed.

(** X11. A session is written about in one sweep at most: of two sweeps
    one after the other, at any clocks, the second sends no mail for a
    session the first one sent a mail for. *)
Theorem send_absence_notifications_once (now now' : Z) (st : Store)
    (n n' : Notice) :
  In n (fst (send_absence_notifications now st)) ->
  In n' (fst (send_absence_notifications now'
                (snd (send_absence_notifications now st)))) ->
  n_session_id n' <> n_session_id n.
Proof.
  intros H1 H2 Heq.
  destruct (notice_session _ _ _ H1) as (x & Hx & Hd & Hid).
  destruct (notice_session _ _ _ H2) as (x' & Hx' & Hd' & Hid').
  apply due_spec in Hd' as [_ Hf].
  apply (unflagged_after_sweep now st x' Hx' Hf x Hx Hd). congruence.
Qed.

Section LocalDay.

Variables todayStart todayEnd : Z -> Z.

(** X12. Starting the session of the day again does not reset the flag
    of the sweep: once the session of the day has been dealt with, no
    later sweep sends a mail for it, although it was reopened and its
    [end_time] moved. *)
Theorem reopened_session_not_notified_again (now now' : Z)
    (secret new_id classId teacherId : string) (st : Store) (s : Session)
    (n : Notice) :
  sessions_keyed st ->
  sessions_today todayStart todayEnd classId teacherId now st = [s] ->
  s_notifications_sent s = true ->
  In n (fst (send_absence_notifications now'
               (snd (createSession todayStart todayEnd now secret new_id
                       classId teacherId st)))) ->
  n_session_id n <> s_id s.
Proof.
  intros Hkey Htoday Hflag Hn Heq.
  destruct (createSession_reactivates todayStart todayEnd now secret new_id classId teacherId
              st s Hkey Htoday) as (Hcall & _).
  cbv zeta in Hcall. rewrite Hcall in Hn. cbn [snd] in Hn.
  destruct (notice_session _ _ _ Hn) as (x & Hx & Hd & Hid).
  apply due_spec in Hd as [_ Hf].
  assert (Hin : In s (sessions st)).
  { assert (H : In s (sessions_today todayStart todayEnd classId teacherId now st))
      by (rewrite Htoday; now left).
    now apply filter_In in H as [H _]. }
  assert (Hrow : In x (sessions_by_id (s_id s)
                         (update_sessions_by_id (s_id s) (reactivate now secret) st))).
  { apply filter_In. split; [exact Hx|]. apply String.eqb_eq. congruence. }
  rewrite sessions_by_id_update in Hrow by reflexivity.
  rewrite (keyed_by_id st s Hkey Hin) in Hrow.
  destruct Hrow as [<- | []]. simpl in Hf. congruence.
Qed.

End LocalDay.

(** X13. After the sweep the count of active sessions of a teacher is the
    number of the sessions that were active and whose [end_time] is still
    ahead of the clock: a session that has run out counts as active until
    a sweep or [endSession] says otherwise, and no longer after. *)
Theorem getActiveSessionsCount_after_sweep (now : Z) (teacherId : string)
    (st : Store) :
  getActiveSessionsCount teacherId (snd (send_absence_notifications now st))
  = List.length
      (filter (fun s => String.eqb (s_teacher_id s) teacherId
                        && status_eqb (s_status s) active
                        && Z.ltb now (s_end_time s))
         (sessions st)).
Proof.
  rewrite send_absence_notifications_closed. cbn [snd].
  unfold getActiveSessionsCount. cbn [sessions with_sessions].
  erewrite filter_map_pred; [apply length_map|].
  intros s. cbv beta.
  assert (H : forall b : bool,
             (let s' := if b then flag_sent (expire now s) else expire now s in
              String.eqb (s_teacher_id s') teacherId
              && status_eqb (s_status s') active)
             = String.eqb (s_teacher_id s) teacherId
               && status_eqb (s_status s) active && Z.ltb now (s_end_time s)).
  { intros b. cbv zeta. unfold expire.
    rewrite (Z.ltb_antisym (s_end_time s) now).
    destruct b, (Z.leb (s_end_time s) now) eqn:E1, (s_status s) eqn:E2; simpl;
      rewrite ?E2; simpl; rewrite ?andb_true_r, ?andb_false_r; reflexivity. }
  apply H.
Qed.

(** X26. The teacher-triggered sweep against the scheduled one.  For
    every session, [processNotifications] writes to exactly those students
    the scheduled sweep would write to for that session who have no
    pending record for it: it never writes to a student the scheduled
    one would spare. *)
Theorem processNotifications_recipients (recentSessions : list Session)
    (st : Store) (n : Notice) :
  In n (processNotifications recentSessions st) <->
  exists session,
    In session recentSessions /\
    In n (notices [present] session st) /\
    ~ (exists a, In a (attendance st) /\ a_session_id a = s_id session /\
                 a_student_id a = n_student_id n /\ a_status a = pending).
Proof.
  unfold processNotifications. rewrite in_flat_map.
  split; intros (session & Hs & H); exists session; (split; [exact Hs|]).
  - apply in_notices in H as (e & p & He & Hp & Hm & ->).
    apply absentees_spec in He as [He Hno]. split.
    + apply in_notices. exists e, p. repeat split; auto.
      apply absentees_spec. split; [exact He|].
      intros (a & Ha & H1 & H2 & [H3 | []]). apply Hno. exists a.
      repeat split; auto. rewrite <- H3. now left.
    + intros (a & Ha & H1 & H2 & H3). apply Hno. exists a.
      repeat split; auto. rewrite H3. right. now left.
  - destruct H as [H Hpend].
    apply in_notices in H as (e & p & He & Hp & Hm & ->).
    apply absentees_spec in He as [He Hno].
    apply in_notices. exists e, p. repeat split; auto.
    apply absentees_spec. split; [exact He|].
    intros (a & Ha & H1 & H2 & [H3 | [H3 | []]]).
    + apply Hno. exists a. repeat split; auto. rewrite <- H3. now left.
    + apply Hpend. exists a. repeat split; auto.
Qed.

End NoticeFacts.

(** ** Verification submission, and the checks under both check-in steps *)

Module SubmitFacts.
Import Json Db Api Edge Spec Notions Policy.
Import DbFacts CodecFacts CheckinFacts DailySessionFacts TokenFacts ScanFacts.
Local Open Scope list_scope.

Lemma names_truthy td sid :
  get_field td "sessionId" = JString sid -> truthy td = true.
Proof. destruct td; simpl; try discriminate. reflexivity. Qed.

(** Under a key, a selection by the key has one row at most. *)
Lemma keyed_filter {A K : Type} (k : A -> K) (p : A -> bool) (l : list A) :
  NoDup (map k l) ->
  (forall x y, p x = true -> p y = true -> k x = k y) ->
  filter p l = [] \/ exists a, filter p l = [a].
Proof.
  intros Hnd Hp. induction l as [|x l IH]; simpl; [now left|].
  inversion Hnd as [|? ? Hx Hl]; subst.
  destruct (p x) eqn:E; [|auto]. right. exists x. f_equal.
  destruct (filter p l) as [|y l'] eqn:Ef; [reflexivity|].
  exfalso. apply Hx.
  assert (Hy : In y (filter p l)) by (rewrite Ef; now left).
  apply filter_In in Hy as [Hy Hpy]. rewrite (Hp x y E Hpy). now apply in_map.
Qed.

Lemma keyed_attendance_of sid uid st :
  attendance_keyed st ->
  attendance_of sid uid st = [] \/ exists a, attendance_of sid uid st = [a].
Proof.
  intros Hk. apply (keyed_filter _ _ _ Hk). intros x y Hx Hy.
  unfold is_attendance_of in *.
  apply andb_true_iff in Hx as [H1 H2], Hy as [H3 H4].
  apply String.eqb_eq in H1, H2, H3, H4. congruence.
Qed.

Lemma keyed_enrollment uid classId st e :
  enrollments_keyed st -> In e (enrollments st) ->
  e_student_id e = uid -> e_class_id e = classId ->
  filter (fun e => String.eqb (e_student_id e) uid
                   && String.eqb (e_class_id e) classId) (enrollments st)
  = [e].
Proof.
  intros Hk Hin Hu Hc.
  assert (He : In e (filter (fun e => String.eqb (e_student_id e) uid
                                      && String.eqb (e_class_id e) classId)
                       (enrollments st))).
  { apply filter_In. split; [exact Hin|]. subst. now rewrite !String.eqb_refl. }
  destruct (keyed_filter (fun e => (e_class_id e, e_student_id e))
              (fun e => String.eqb (e_student_id e) uid
                        && String.eqb (e_class_id e) classId)
              (enrollments st) Hk) as [H | [a H]].
  - intros x y Hx Hy.
    apply andb_true_iff in Hx as [H1 H2], Hy as [H3 H4].
    apply String.eqb_eq in H1, H2, H3, H4. congruence.
  - rewrite H in He. destruct He.
  - rewrite H in He. destruct He as [-> | []]. exact H.
Qed.

(** The row a scan returns. *)
Lemma record_scan_row now sid uid st row st' :
  record_scan now sid uid st = (Ok row, st') ->
  a_session_id row = sid /\ a_student_id row = uid /\
  a_status row = pending /\ a_checkin_time row = Some now /\
  In row (attendance st').
Proof.
  intros H.
  destruct (record_scan_cases _ _ _ _ _ _ H)
    as [[_ [msg Hm]] | [(r & _ & Hnone & _) | (a & _ & Hone & Hp & _)]];
    [discriminate | |].
  - rewrite (record_scan_creates now sid uid st Hnone) in H.
    injection H as <- <-. repeat split.
    simpl. apply in_or_app. right. now left.
  - rewrite (record_scan_updates now sid uid st a Hone Hp) in H.
    injection H as <- <-.
    assert (Ha : In a (attendance_of sid uid st)) by (rewrite Hone; now left).
    apply filter_In in Ha as [Ha Hk]. pose proof Hk as Hk'.
    unfold is_attendance_of in Hk'. apply andb_true_iff in Hk' as [Hk1 Hk2].
    apply String.eqb_eq in Hk1, Hk2. repeat split; auto.
    simpl. apply in_map_iff. exists a. now rewrite Hk.
Qed.

(** X14. A scan is acknowledged only on the strength of its token and
    the clock: when [acknowledgeScan] succeeds, the token decodes, the
    text of its [sessionId] is the id of a stored session that is active,
    its secret is the current secret of that session, and the clock has
    not passed its [end_time]; the row returned is the pending record of
    that student for that session. *)
Theorem acknowledgeScan_sound (now : Z) (token uid : string) (st st' : Store)
    (row : Attendance) :
  acknowledgeScan now token uid st = (Ok row, st') ->
  exists td session,
    decode token = Some td /\
    truthy (get_field td "sessionId") = true /\
    ToString (get_field td "sessionId") = Some (s_id session) /\
    get_field td "secret" = JString (s_qr_secret session) /\
    In session (sessions st) /\ s_status session = active /\
    now <= s_end_time session /\
    a_session_id row = s_id session /\ a_student_id row = uid /\
    a_status row = pending /\ a_checkin_time row = Some now /\
    In row (attendance st').
Proof.
  intros H.
  apply acknowledgeScan_cases in H
    as [[_ [msg Hm]]
       | (td & session & Hd & Hty & Hid & Hsec & Hin & Hact & Hnow & H)];
    [discriminate|].
  apply record_scan_row in H as (H1 & H2 & H3 & H4 & H5).
  exists td, session. repeat split; auto.
Qed.

(** X15. What a scan writes is what the database lets a student write:
    the row an acknowledged scan returns passes the trigger
    [validate_attendance_update_improved], run for the student and the
    session of the row, and the check of the row-level policy for updates
    by students. *)
Theorem acknowledgeScan_write_admitted (now : Z) (token uid : string)
    (st st' : Store) (row : Attendance) (user_role : option Role) :
  acknowledgeScan now token uid st = (Ok row, st') ->
  exists session,
    In session (sessions st) /\ s_id session = a_session_id row /\
    validate_attendance_update_improved uid user_role (Some session) row = None /\
    student_update_check uid row st = true.
Proof.
  intros H.
  apply acknowledgeScan_cases in H
    as [[_ [msg Hm]]
       | (td & session & Hd & Hty & Hid & Hsec & Hin & Hact & Hnow & H)];
    [discriminate|].
  apply record_scan_row in H as (H1 & H2 & H3 & H4 & H5).
  exists session. repeat split; auto.
  - unfold validate_attendance_update_improved.
    rewrite H2, String.eqb_refl, H3, Hact. reflexivity.
  - unfold student_update_check. rewrite H2, String.eqb_refl, H3. simpl.
    apply existsb_exists. exists session. split; [exact Hin|].
    now rewrite H1, String.eqb_refl, Hact.
Qed.

(** What a successful submission has gone through. *)
Lemma submit_attendance_success now req st row status message st' :
  submit_attendance now req st = (Success row status message, st') ->
  exists uid session td enrollment photoUrl bucket,
    req_auth req = Some (Some uid) /\
    sessions_by_id (req_sessionId req) st = [session] /\
    s_status session = active /\
    s_start_time session <= now <= s_end_time session /\
    decode (req_token req) = Some td /\
    get_field td "sessionId" = JString (req_sessionId req) /\
    get_field td "secret" = JString (s_qr_secret session) /\
    In enrollment (enrollments st) /\ e_student_id enrollment = uid /\
    e_class_id enrollment = s_class_id session /\
    upload_photo now uid (req_sessionId req) (req_photoBlob req) (photos st)
    = Uploaded photoUrl bucket /\
    row = mkAttendance (req_sessionId req) uid (attendanceStatus (req_liveness req))
            (Some now) None
            (written (req_liveness req)
               match attendance_of (req_sessionId req) uid st with
               | [a] => a_liveness a
               | _ => JNull
               end) photoUrl /\
    attendance_of (req_sessionId req) uid st' = [row].
Proof.
  unfold submit_attendance. intros H.
  destruct (req_auth req) as [auth|] eqn:Ea; [|discriminate].
  cbv zeta in H.
  destruct (single (sessions_by_id _ st)) as [session|] eqn:Es; [|discriminate].
  apply single_inv in Es.
  destruct (negb (status_eqb (s_status session) active)) eqn:Eact; [discriminate|].
  destruct (Z.ltb now (s_start_time session) || Z.gtb now (s_end_time session))
    eqn:Ew; [discriminate|].
  destruct (decode (req_token req)) as [td|] eqn:Ed; [|discriminate].
  destruct (negb (truthy td) || _ || _) eqn:Et; [discriminate|].
  destruct auth as [uid|]; [|discriminate].
  destruct (single (filter _ (enrollments st))) as [enr|] eqn:Ee; [|discriminate].
  apply single_inv in Ee.
  destruct (upload_photo _ _ _ _ _) as [photoUrl bucket|] eqn:Eu; [|discriminate].
  apply orb_false_iff in Et as [Et Ek]. apply orb_false_iff in Et as [_ Ei].
  apply negb_false_iff, strict_eq_string_true in Ek, Ei.
  apply orb_false_iff in Ew as [Ew1 Ew2].
  apply Z.ltb_ge in Ew1. rewrite Z.gtb_ltb in Ew2. apply Z.ltb_ge in Ew2.
  assert (Hact : s_status session = active)
    by (destruct (s_status session); [reflexivity | discriminate]).
  assert (Hin : In enr (filter (fun e => String.eqb (e_student_id e) uid
                                         && String.eqb (e_class_id e)
                                              (s_class_id session))
                          (enrollments st))) by (rewrite Ee; now left).
  apply filter_In in Hin as [Hin Hk]. apply andb_true_iff in Hk as [Hk1 Hk2].
  apply String.eqb_eq in Hk1, Hk2.
  set (row0 := fun stored =>
                 mkAttendance (req_sessionId req) uid
                   (attendanceStatus (req_liveness req)) (Some now) None
                   (written (req_liveness req) stored) photoUrl) in *.
  assert (Hkey : forall stored,
             is_attendance_of (req_sessionId req) uid (row0 stored) = true)
    by (intros; unfold is_attendance_of; simpl; now rewrite !String.eqb_refl).
  exists uid, session, td, enr, photoUrl, bucket.
  change (attendance_of (req_sessionId req) uid (with_photos st bucket))
    with (attendance_of (req_sessionId req) uid st) in H.
  destruct (single (attendance_of _ _ st)) as [old|] eqn:E1.
  - apply single_inv in E1.
    rewrite attendance_of_update in H by (intros; apply Hkey).
    change (attendance_of (req_sessionId req) uid (with_photos st bucket))
      with (attendance_of (req_sessionId req) uid st) in H.
    rewrite E1 in H. cbn [map single] in H. injection H as <- <- <- <-.
    rewrite E1. repeat split; auto.
    rewrite attendance_of_update by (intros; apply Hkey).
    change (attendance_of (req_sessionId req) uid (with_photos st bucket))
      with (attendance_of (req_sessionId req) uid st).
    now rewrite E1.
  - destruct (insert_attendance _ _) as [rows|] eqn:E2; [|discriminate].
    injection H as <- <- <- <-. simpl in E2.
    destruct (existsb _ _) eqn:Ex; [discriminate|]. injection E2 as <-.
    assert (Hnone : attendance_of (req_sessionId req) uid st = []).
    { clear - Ex. unfold attendance_of. cbn [attendance with_photos] in *.
      induction (attendance st) as [|x l IH]; [reflexivity|].
      simpl in *. apply orb_false_iff in Ex as [Ex1 Ex2]. rewrite Ex1. auto. }
    rewrite Hnone. repeat split; auto.
    unfold attendance_of. cbn [attendance with_attendance with_photos].
    rewrite filter_app. fold (attendance_of (req_sessionId req) uid st).
    rewrite Hnone. cbn [filter app]. fold (row0 JNull). now rewrite Hkey.
Qed.

(** X16. A submission is accepted only for an authenticated student
    enrolled in the class of a stored session that is active and within
    its time window, with a token that names the session and carries its
    current secret; the record of the student for the session is then the
    one row returned, stamped with the clock. *)
Theorem submit_attendance_sound (now : Z) (req : SubmitRequest) (st st' : Store)
    (row : Attendance) (status : AttendanceStatus) (message : string) :
  submit_attendance now req st = (Success row status message, st') ->
  exists uid session td enrollment,
    req_auth req = Some (Some uid) /\
    In session (sessions st) /\ s_id session = req_sessionId req /\
    s_status session = active /\
    s_start_time session <= now <= s_end_time session /\
    decode (req_token req) = Some td /\
    get_field td "sessionId" = JString (s_id session) /\
    get_field td "secret" = JString (s_qr_secret session) /\
    In enrollment (enrollments st) /\ e_student_id enrollment = uid /\
    e_class_id enrollment = s_class_id session /\
    a_session_id row = s_id session /\ a_student_id row = uid /\
    a_checkin_time row = Some now /\
    attendance_of (s_id session) uid st' = [row].
Proof.
  intros H.
  apply submit_attendance_success in H
    as (uid & session & td & e & photoUrl & bucket & Ha & Hs & Hact & Hw & Hd
        & Hi & Hk & He & Hu & Hc & _ & -> & Hrow).
  assert (Hin : In session (sessions_by_id (req_sessionId req) st))
    by (rewrite Hs; now left).
  apply sessions_by_id_in in Hin as [Hin Hid].
  exists uid, session, td, e. rewrite Hid. repeat split; auto; lia.
Qed.

(** X17. The trigger of the migrations against the handler.  The handler
    writes the record with the token of the student, so the trigger
    [validate_attendance_update_improved] runs for the student: the row
    of an accepted submission passes it when the liveness is not [true],
    and when it is [true], the one case in which the handler decides
    present, the trigger raises the students-may-only-write-pending
    exception. *)
Theorem trigger_on_submission (now : Z) (req : SubmitRequest) (st st' : Store)
    (row : Attendance) (status : AttendanceStatus) (message : string)
    (user_role : option Role) :
  submit_attendance now req st = (Success row status message, st') ->
  exists uid session,
    req_auth req = Some (Some uid) /\
    sessions_by_id (a_session_id row) st = [session] /\
    (req_liveness req = JBool true ->
     validate_attendance_update_improved uid user_role (Some session) row
     = Some "Students can only mark attendance as pending") /\
    (req_liveness req <> JBool true ->
     validate_attendance_update_improved uid user_role (Some session) row = None).
Proof.
  intros H.
  apply submit_attendance_success in H
    as (uid & session & td & e & photoUrl & bucket & Ha & Hs & Hact & Hw & Hd
        & Hi & Hk & He & Hu & Hc & _ & -> & Hrow).
  exists uid, session. split; [exact Ha|]. split; [exact Hs|].
  unfold validate_attendance_update_improved. simpl.
  rewrite String.eqb_refl, Hact. split.
  - intros ->. reflexivity.
  - intros Hl. destruct (req_liveness req) as [| |[|]| | | | |]; try reflexivity.
    congruence.
Qed.

(** X18. What a submission may change.  Whatever the request and its
    outcome, the sessions, the enrollments and the profiles stay as they
    are; the records of every other student and session stay as they are,
    no record is removed and one at most is added; the bucket gains one
    object at most; and a request refused with a status other than 500
    changes nothing at all. *)
Theorem submit_attendance_frame (now : Z) (req : SubmitRequest) (st st' : Store)
    (r : Response) :
  submit_attendance now req st = (r, st') ->
  sessions st' = sessions st /\ enrollments st' = enrollments st /\
  profiles st' = profiles st /\
  (forall a,
      ~ (a_session_id a = req_sessionId req /\
         req_auth req = Some (Some (a_student_id a))) ->
      (In a (attendance st') <-> In a (attendance st))) /\
  (List.length (attendance st) <= List.length (attendance st')
   <= S (List.length (attendance st)))%nat /\
  (exists extra, photos st' = photos st ++ extra /\
                 (List.length extra <= 1)%nat) /\
  (forall http_status error,
      r = Failure http_status error -> http_status <> 500 -> st' = st).
Proof.
  unfold submit_attendance. intros H.
  assert (Same : forall x : Response,
             (x, st) = (r, st') ->
             sessions st' = sessions st /\ enrollments st' = enrollments st /\
             profiles st' = profiles st /\
             (forall a,
                 ~ (a_session_id a = req_sessionId req /\
                    req_auth req = Some (Some (a_student_id a))) ->
                 (In a (attendance st') <-> In a (attendance st))) /\
             (List.length (attendance st) <= List.length (attendance st')
              <= S (List.length (attendance st)))%nat /\
             (exists extra, photos st' = photos st ++ extra /\
                            (List.length extra <= 1)%nat) /\
             (forall http_status error,
                 r = Failure http_status error -> http_status <> 500 -> st' = st)).
  { intros x Hx. injection Hx as _ <-. repeat split; auto; try lia.
    exists []. rewrite List.app_nil_r. split; [reflexivity | simpl; lia]. }
  destruct (req_auth req) as [auth|] eqn:Ea; [|now apply Same in H].
  cbv zeta in H.
  destruct (single (sessions_by_id _ st)) as [session|] eqn:Es;
    [|now apply Same in H].
  destruct (negb (status_eqb (s_status session) active));
    [now apply Same in H|].
  destruct (Z.ltb now (s_start_time session) || Z.gtb now (s_end_time session));
    [now apply Same in H|].
  destruct (decode (req_token req)) as [td|]; [|now apply Same in H].
  destruct (negb (truthy td) || _ || _); [now apply Same in H|].
  destruct auth as [uid|]; [|now apply Same in H].
  destruct (single (filter _ (enrollments st))) as [enr|];
    [|now apply Same in H].
  destruct (upload_photo _ _ _ _ _) as [photoUrl bucket|] eqn:Eu;
    [|now apply Same in H].
  assert (Hb : exists extra, bucket = photos st ++ extra /\
                             (List.length extra <= 1)%nat).
  { unfold upload_photo in Eu.
    destruct (req_photoBlob req) as [blob|].
    - destruct (String.eqb blob EmptyString).
      + injection Eu as _ <-. exists []. rewrite List.app_nil_r.
        split; [reflexivity | simpl; lia].
      + cbv zeta in Eu. destruct (Base64.atob blob); [|discriminate].
        destruct (existsb _ _); [discriminate|]. injection Eu as _ <-.
        eexists. split; [reflexivity | simpl; lia].
    - injection Eu as _ <-. exists []. rewrite List.app_nil_r.
      split; [reflexivity | simpl; lia]. }
  set (row0 := fun stored =>
                 mkAttendance (req_sessionId req) uid
                   (attendanceStatus (req_liveness req)) (Some now) None
                   (written (req_liveness req) stored) photoUrl) in *.
  destruct (single (attendance_of _ _ (with_photos st bucket))) as [old|] eqn:E1.
  - assert (Hst : st' = update_attendance_of (req_sessionId req) uid
                          (fun a => row0 (a_liveness a)) (with_photos st bucket))
      by (destruct (single _) in H; now injection H as _ <-).
    assert (Hr : forall h e, r = Failure h e -> h = 500)
      by (intros h e ->; destruct (single _) in H; [discriminate|];
          now injection H as <- _).
    rewrite Hst. cbn. repeat split; auto.
    + intros Hin. apply in_map_iff in Hin as (y & Hy & Hin).
      destruct (is_attendance_of (req_sessionId req) uid y); [|now subst].
      subst a. exfalso. apply H0. simpl. now split.
    + intros Hin. apply in_map_iff. exists a. split; [|exact Hin].
      destruct (is_attendance_of (req_sessionId req) uid a) eqn:E; [|reflexivity].
      exfalso. apply H0. unfold is_attendance_of in E.
      apply andb_true_iff in E as [E2 E3]. apply String.eqb_eq in E2, E3.
      split; congruence.
    + rewrite length_map. lia.
    + rewrite length_map. lia.
    + intros h e Hf Hn. exfalso. apply Hn. eapply Hr. exact Hf.
  - destruct (insert_attendance _ _) as [rows|] eqn:E2.
    + injection H as <- <-. simpl in E2.
      destruct (existsb _ _); [discriminate|]. injection E2 as <-.
      cbn. repeat split; auto.
      * intros Hin. apply in_app_or in Hin as [Hin | [<- | []]]; [exact Hin|].
        exfalso. apply H. simpl. now split.
      * intros Hin. apply in_or_app. now left.
      * rewrite length_app. simpl. lia.
      * rewrite length_app. simpl. lia.
      * intros h e Hf. discriminate.
    + injection H as <- <-. cbn. repeat split; auto; try lia.
      intros h e [= <- _] Hn. now contradiction Hn.
Qed.

(** A submission that meets the conditions goes through. *)
Lemma submit_attendance_passes (now : Z) (req : SubmitRequest) (st : Store)
    (uid : string) (session : Session) (enrollment : Enrollment)
    (photoUrl : option string) (bucket : list string) :
  attendance_keyed st -> enrollments_keyed st ->
  req_auth req = Some (Some uid) ->
  sessions_by_id (req_sessionId req) st = [session] ->
  s_status session = active ->
  s_start_time session <= now <= s_end_time session ->
  minted (req_token req) session ->
  In enrollment (enrollments st) ->
  e_student_id enrollment = uid ->
  e_class_id enrollment = s_class_id session ->
  upload_photo now uid (req_sessionId req) (req_photoBlob req) (photos st)
  = Uploaded photoUrl bucket ->
  let status := attendanceStatus (req_liveness req) in
  let row := mkAttendance (req_sessionId req) uid status (Some now) None
               (written (req_liveness req)
                  match attendance_of (req_sessionId req) uid st with
                  | [a] => a_liveness a
                  | _ => JNull
                  end) photoUrl in
  exists st',
    submit_attendance now req st = (Success row status (message_of status), st') /\
    attendance_of (req_sessionId req) uid st' = [row] /\
    photos st' = bucket /\
    sessions st' = sessions st /\ enrollments st' = enrollments st /\
    List.length (attendance st')
    = match attendance_of (req_sessionId req) uid st with
      | [] => S (List.length (attendance st))
      | _ => List.length (attendance st)
      end.
Proof.
  intros Hak Hek Ha Hs Hact Hw Hmint He Hu Hc Hup status row.
  assert (Hid : s_id session = req_sessionId req).
  { assert (Hin : In session (sessions_by_id (req_sessionId req) st))
      by (rewrite Hs; now left).
    now apply sessions_by_id_in in Hin. }
  destruct (minted_decodes _ _ Hmint) as (td & Hd & Hi & Hk).
  rewrite Hid in Hi.
  set (row0 := fun stored =>
                 mkAttendance (req_sessionId req) uid status (Some now) None
                   (written (req_liveness req) stored) photoUrl).
  assert (Hkey : forall stored,
             is_attendance_of (req_sessionId req) uid (row0 stored) = true)
    by (intros; unfold is_attendance_of; simpl; now rewrite !String.eqb_refl).
  unfold submit_attendance. rewrite Ha. cbv zeta. rewrite Hs. cbn [single].
  rewrite Hact. cbn [status_eqb negb].
  assert (Hw1 : Z.ltb now (s_start_time session) = false) by (apply Z.ltb_ge; lia).
  assert (Hw2 : Z.gtb now (s_end_time session) = false)
    by (rewrite Z.gtb_ltb; apply Z.ltb_ge; lia).
  rewrite Hw1, Hw2. cbn [orb]. rewrite Hd, (names_truthy _ _ Hi), Hi, Hk.
  cbn [negb orb strict_eq_string]. rewrite !String.eqb_refl. cbn [negb].
  rewrite (keyed_enrollment uid (s_class_id session) st enrollment Hek He Hu Hc).
  cbn [single]. rewrite Hup. fold status.
  change (attendance_of (req_sessionId req) uid (with_photos st bucket))
    with (attendance_of (req_sessionId req) uid st).
  subst row.
  destruct (keyed_attendance_of (req_sessionId req) uid st Hak) as [E | [a E]].
  - rewrite E. cbn [single insert_attendance].
    change (attendance (with_photos st bucket)) with (attendance st).
    fold (row0 JNull).
    change (a_session_id (row0 JNull)) with (req_sessionId req).
    change (a_student_id (row0 JNull)) with uid.
    rewrite (filter_nil_existsb _ _ E).
    eexists. split; [reflexivity|]. split; [|repeat split].
    + unfold attendance_of. cbn [attendance with_attendance].
      rewrite filter_app. fold (attendance_of (req_sessionId req) uid st).
      rewrite E. cbn [filter app]. now rewrite Hkey.
    + cbn. rewrite length_app. simpl. lia.
  - rewrite E. cbn [single].
    fold (row0 (a_liveness a)).
    change (fun a0 : Attendance =>
              mkAttendance (req_sessionId req) uid status (Some now) None
                (written (req_liveness req) (a_liveness a0)) photoUrl)
      with (fun a0 : Attendance => row0 (a_liveness a0)).
    rewrite attendance_of_update by (intros; apply Hkey).
    change (attendance_of (req_sessionId req) uid (with_photos st bucket))
      with (attendance_of (req_sessionId req) uid st).
    rewrite E. cbn [map single].
    eexists. split; [reflexivity|]. split; [|repeat split].
    + rewrite attendance_of_update by (intros; apply Hkey).
      change (attendance_of (req_sessionId req) uid (with_photos st bucket))
        with (attendance_of (req_sessionId req) uid st).
      now rewrite E.
    + cbn. now rewrite length_map.
Qed.

(** X19. A submission that meets the conditions and whose liveness is
    not confirmed is accepted, whatever the record of the student was
    before and whichever mint path the token comes from.  The decision is
    pending; it leaves exactly one record of the student for the session,
    pending, with the clock, the uploaded photo and the liveness sent,
    where a body without liveness keeps the stored value (none in a new
    record); a record is added only when the student had none.  The write
    is one the trigger and the update policy let the student make. *)
Theorem submit_attendance_accepts (now : Z) (req : SubmitRequest) (st : Store)
    (uid : string) (session : Session) (enrollment : Enrollment)
    (photoUrl : option string) (bucket : list string)
    (user_role : option Role) :
  attendance_keyed st -> enrollments_keyed st ->
  req_auth req = Some (Some uid) ->
  sessions_by_id (req_sessionId req) st = [session] ->
  s_status session = active ->
  s_start_time session <= now <= s_end_time session ->
  minted (req_token req) session ->
  In enrollment (enrollments st) ->
  e_student_id enrollment = uid ->
  e_class_id enrollment = s_class_id session ->
  upload_photo now uid (req_sessionId req) (req_photoBlob req) (photos st)
  = Uploaded photoUrl bucket ->
  req_liveness req = JBool false \/ req_liveness req = JNull \/
  req_liveness req = JUndefined ->
  exists row st',
    submit_attendance now req st
    = (Success row pending "Attendance submitted for review", st') /\
    row = mkAttendance (req_sessionId req) uid pending (Some now) None
            match req_liveness req, attendance_of (req_sessionId req) uid st with
            | JUndefined, [a] => a_liveness a
            | JUndefined, _ => JNull
            | liveness, _ => liveness
            end photoUrl /\
    attendance_of (req_sessionId req) uid st' = [row] /\
    photos st' = bucket /\
    List.length (attendance st')
    = match attendance_of (req_sessionId req) uid st with
      | [] => S (List.length (attendance st))
      | _ => List.length (attendance st)
      end /\
    validate_attendance_update_improved uid user_role (Some session) row = None /\
    student_update_check uid row st = true.
Proof.
  intros Hak Hek Ha Hs Hact Hw Hmint He Hu Hc Hup Hl.
  destruct (submit_attendance_passes now req st uid session enrollment photoUrl
              bucket Hak Hek Ha Hs Hact Hw Hmint He Hu Hc Hup)
    as (st' & H1 & H2 & H3 & _ & _ & H4).
  assert (Hp : attendanceStatus (req_liveness req) = pending)
    by (destruct Hl as [-> | [-> | ->]]; reflexivity).
  rewrite Hp in H1, H2. cbn [message_of] in H1.
  assert (Hrow : mkAttendance (req_sessionId req) uid pending (Some now) None
                   (written (req_liveness req)
                      match attendance_of (req_sessionId req) uid st with
                      | [a] => a_liveness a
                      | _ => JNull
                      end) photoUrl
                 = mkAttendance (req_sessionId req) uid pending (Some now) None
                     match req_liveness req,
                           attendance_of (req_sessionId req) uid st with
                     | JUndefined, [a] => a_liveness a
                     | JUndefined, _ => JNull
                     | liveness, _ => liveness
                     end photoUrl).
  { f_equal. destruct Hl as [-> | [-> | ->]]; reflexivity. }
  rewrite Hrow in H1, H2.
  assert (Hin : In session (sessions_by_id (req_sessionId req) st))
    by (rewrite Hs; now left).
  apply sessions_by_id_in in Hin as [Hin Hid].
  eexists. exists st'. split; [exact H1|]. repeat split; auto.
  - unfold validate_attendance_update_improved. simpl.
    now rewrite String.eqb_refl, Hact.
  - unfold student_update_check. simpl. rewrite String.eqb_refl. simpl.
    apply existsb_exists. exists session. split; [exact Hin|].
    now rewrite Hid, String.eqb_refl, Hact.
Qed.

Lemma same_session_filter (p : Session -> bool) (l l' : list Session) :
  (forall s s', same_session s s' -> p s' = p s) ->
  Forall2 same_session l l' ->
  Forall2 same_session (filter p l) (filter p l').
Proof.
  intros Hp H. induction H as [|s s' l l' Hs Hl IH]; simpl; [constructor|].
  rewrite (Hp s s' Hs). destruct (p s); [constructor|]; assumption.
Qed.

(** X20. Who gets a token from [secure-qr-token], and what it is worth.
    A token is issued only to an authenticated user whose profile is that
    of a teacher and who is the teacher of the stored session asked for;
    it decodes to the id and the current secret of that session, and the
    instant announced as its expiry is the end of the running five-minute
    slot.  Such a user is issued the token whatever the status of the
    session is: the answer of the handler does not depend on the status
    of any session. *)
Theorem secure_qr_token_handler_issues (now : Z) (auth : option (option string))
    (sessionId : string) (st : Store) :
  (forall token sid validUntil,
      secure_qr_token_handler now auth sessionId st
      = TokenIssued token sid validUntil ->
      exists uid profile session,
        auth = Some (Some uid) /\
        In profile (profiles st) /\ p_id profile = uid /\
        p_role profile = teacher /\
        In session (sessions st) /\ s_id session = sessionId /\
        s_teacher_id session = uid /\
        sid = sessionId /\ minted token session /\
        (exists td, decode token = Some td /\ names td session) /\
        now < validUntil <= now + 300000 /\ validUntil mod 300000 = 0) /\
  (forall uid profile session,
      auth = Some (Some uid) ->
      filter (fun p => String.eqb (p_id p) uid) (profiles st) = [profile] ->
      p_role profile = teacher ->
      filter (fun s => String.eqb (s_teacher_id s) uid)
        (sessions_by_id sessionId st) = [session] ->
      secure_qr_token_handler now auth sessionId st
      = TokenIssued (secure_qr_token now session) sessionId
          ((now / 300000 + 1) * 300000)) /\
  (forall st',
      profiles st' = profiles st ->
      Forall2 same_session (sessions st) (sessions st') ->
      secure_qr_token_handler now auth sessionId st'
      = secure_qr_token_handler now auth sessionId st).
Proof.
  split; [|split].
  - unfold secure_qr_token_handler. intros token sid validUntil H.
    destruct auth as [[uid|]|]; try discriminate.
    destruct (single (filter _ (profiles st))) as [profile|] eqn:Ep;
      [|discriminate].
    apply single_inv in Ep.
    destruct (negb (role_eqb (p_role profile) teacher)) eqn:Er; [discriminate|].
    destruct (single (filter _ (sessions_by_id sessionId st)))
      as [session|] eqn:Es; [|discriminate].
    apply single_inv in Es. injection H as <- <- <-.
    assert (Hp : In profile (filter (fun p => String.eqb (p_id p) uid)
                               (profiles st)))
      by (rewrite Ep; now left).
    apply filter_In in Hp as [Hp Hpid]. apply String.eqb_eq in Hpid.
    assert (Hs : In session (filter (fun s => String.eqb (s_teacher_id s) uid)
                               (sessions_by_id sessionId st)))
      by (rewrite Es; now left).
    apply filter_In in Hs as [Hs Ht]. apply String.eqb_eq in Ht.
    apply sessions_by_id_in in Hs as [Hs Hid].
    assert (Hm : minted (secure_qr_token now session) session)
      by (right; now exists now).
    exists uid, profile, session. repeat split; auto.
    + destruct (p_role profile); simpl in Er; congruence.
    + now apply minted_decodes.
    + rewrite Z.div_div by lia. change (1000 * 300) with 300000.
      pose proof (Z.div_mod now 300000 ltac:(lia)).
      pose proof (Z.mod_pos_bound now 300000 ltac:(lia)). lia.
    + rewrite Z.div_div by lia. change (1000 * 300) with 300000.
      pose proof (Z.div_mod now 300000 ltac:(lia)).
      pose proof (Z.mod_pos_bound now 300000 ltac:(lia)). lia.
    + rewrite <- Z.mul_assoc. change (300 * 1000) with 300000.
      apply Z.mod_mul. lia.
  - intros uid profile session -> Hp Hr Hs. unfold secure_qr_token_handler.
    rewrite Hp. cbn [single]. rewrite Hr. cbn [role_eqb negb].
    rewrite Hs. cbn [single]. f_equal.
    rewrite Z.div_div by lia. change (1000 * 300) with 300000. lia.
  - intros st' Hp Hs. unfold secure_qr_token_handler.
    destruct auth as [[uid|]|]; try reflexivity. rewrite Hp.
    destruct (single (filter _ (profiles st))) as [profile|]; [|reflexivity].
    destruct (negb (role_eqb (p_role profile) teacher)); [reflexivity|].
    assert (H : Forall2 same_session
                  (filter (fun s => String.eqb (s_teacher_id s) uid)
                     (sessions_by_id sessionId st))
                  (filter (fun s => String.eqb (s_teacher_id s) uid)
                     (sessions_by_id sessionId st'))).
    { apply same_session_filter.
      - intros s s' (_ & _ & -> & _). reflexivity.
      - apply same_session_filter; [|exact Hs].
        intros s s' (-> & _). reflexivity. }
    inversion H as [|s s' l l' Hss Hl E1 E2]; [reflexivity|].
    inversion Hl; subst; [|reflexivity].
    cbn [single]. destruct Hss as (Hid & _ & _ & _ & _ & _ & Hsec).
    unfold secure_qr_token. now rewrite Hid, Hsec.
Qed.

End SubmitFacts.

(** ** Access to the photos *)

Module ImageFacts.
Import Json Db Api Edge Spec Notions ImageAccess.
Import DbFacts CheckinFacts.
Local Open Scope list_scope.

Lemma split_nonempty s : split s <> [].
Proof.
  destruct s as [|c s]; simpl; [discriminate|].
  destruct (Ascii.eqb c "/"); [discriminate|].
  destruct (split s); discriminate.
Qed.

(** The first part of [a/b] is [a] when [a] has no slash. *)
Lemma split_append a b :
  slashless a -> split (a ++ "/" ++ b)%string = a :: split b.
Proof.
  unfold slashless. induction a as [|c a IH]; simpl; intros H.
  - reflexivity.
  - apply andb_true_iff in H as [Hc Ha]. apply negb_true_iff in Hc.
    rewrite Hc. simpl in IH. now rewrite (IH Ha).
Qed.

Lemma createSignedUrl_signs filePath st :
  In filePath (photos st) -> createSignedUrl filePath st = SignedUrl filePath.
Proof.
  intros H. unfold createSignedUrl.
  destruct (existsb _ _) eqn:E; [reflexivity|].
  apply not_true_iff_false in E. exfalso. apply E. apply existsb_exists.
  exists filePath. split; [exact H | apply String.eqb_refl].
Qed.

Lemma createSignedUrl_signed filePath st p :
  createSignedUrl filePath st = SignedUrl p -> p = filePath /\ In filePath (photos st).
Proof.
  unfold createSignedUrl. destruct (existsb _ _) eqn:E; [|discriminate].
  intros [= <-]. split; [reflexivity|].
  apply existsb_exists in E as (x & Hx & He). apply String.eqb_eq in He.
  now subst.
Qed.

(** X21. Who gets a signed URL.  [secure-image-access] signs a path only
    for an authenticated user with a profile and only when the object is
    in the bucket; beyond that an admin gets any object, a teacher only
    one whose second path part is the id of a stored session of theirs,
    and a student only one whose first path part is their own id. *)
Theorem secure_image_access_sound (auth : option (option string))
    (filePath url : string) (st : Store) :
  secure_image_access auth filePath st = SignedUrl url ->
  url = filePath /\ In filePath (photos st) /\
  exists uid profile,
    auth = Some (Some uid) /\ In profile (profiles st) /\ p_id profile = uid /\
    match p_role profile with
    | admin => True
    | teacher =>
        exists studentId sessionId rest session,
          split filePath = studentId :: sessionId :: rest /\
          In session (sessions st) /\ s_id session = sessionId /\
          s_teacher_id session = uid
    | student => exists rest, split filePath = uid :: rest
    end.
Proof.
  unfold secure_image_access. intros H.
  destruct auth as [[uid|]|]; try discriminate.
  destruct (single (filter _ (profiles st))) as [profile|] eqn:Ep; [|discriminate].
  apply single_inv in Ep.
  assert (Hp : In profile (filter (fun p => String.eqb (p_id p) uid) (profiles st)))
    by (rewrite Ep; now left).
  apply filter_In in Hp as [Hp Hpid]. apply String.eqb_eq in Hpid.
  destruct (p_role profile) eqn:Er.
  - apply createSignedUrl_signed in H as [-> Hin]. repeat split; auto.
    exists uid, profile. rewrite Er. auto.
  - destruct (split filePath) as [|studentId [|sessionId rest]] eqn:Es;
      try discriminate.
    destruct (single (filter _ (sessions_by_id sessionId st))) as [session|] eqn:E1;
      [|discriminate].
    apply single_inv in E1.
    assert (Hs : In session (filter (fun s => String.eqb (s_teacher_id s) uid)
                               (sessions_by_id sessionId st)))
      by (rewrite E1; now left).
    apply filter_In in Hs as [Hs Ht]. apply String.eqb_eq in Ht.
    apply sessions_by_id_in in Hs as [Hs Hid].
    apply createSignedUrl_signed in H as [-> Hin]. repeat split; auto.
    exists uid, profile. rewrite Er. repeat split; auto.
    exists studentId, sessionId, rest, session. auto.
  - destruct (split filePath) as [|first rest] eqn:Es; [discriminate|].
    destruct (String.eqb first uid) eqn:Ef; [|discriminate].
    apply String.eqb_eq in Ef. subst first.
    apply createSignedUrl_signed in H as [-> Hin]. repeat split; auto.
    exists uid, profile. rewrite Er. repeat split; auto. now exists rest.
Qed.

(** X22. The photo of a submission and who may see it.  The object that
    [submit-attendance] uploads for a student and a session, whose ids
    have no slash, is signed for that student, for the teacher of that
    session and for an admin; it is refused, with 403, to every other
    student and to every teacher who has no stored session of that id.
    The [photo_url] kept in the record is that name with the name of the
    bucket in front. *)
Theorem uploaded_photo_access (now : Z) (uid sessionId blob photoUrl : string)
    (bucket : list string) (st : Store) (user : string) (profile : Profile) :
  slashless uid -> slashless sessionId ->
  upload_photo now uid sessionId (Some blob) (photos st)
  = Uploaded (Some photoUrl) bucket ->
  filter (fun p => String.eqb (p_id p) user) (profiles st) = [profile] ->
  let fileName :=
    (uid ++ "/" ++ sessionId ++ "/" ++ string_of_Z now ++ ".jpg")%string in
  let st' := with_photos st bucket in
  photoUrl = ("attendance-photos/" ++ fileName)%string /\
  In fileName (photos st') /\
  match p_role profile with
  | admin => secure_image_access (Some (Some user)) fileName st' = SignedUrl fileName
  | student =>
      (user = uid ->
       secure_image_access (Some (Some user)) fileName st' = SignedUrl fileName) /\
      (user <> uid ->
       secure_image_access (Some (Some user)) fileName st'
       = ImageFailure 403 "Unauthorized access to this image")
  | teacher =>
      (forall session,
          filter (fun s => String.eqb (s_teacher_id s) user)
            (sessions_by_id sessionId st) = [session] ->
          secure_image_access (Some (Some user)) fileName st' = SignedUrl fileName) /\
      (filter (fun s => String.eqb (s_teacher_id s) user)
         (sessions_by_id sessionId st) = [] ->
       secure_image_access (Some (Some user)) fileName st'
       = ImageFailure 403 "Unauthorized access to this image")
  end.
Proof.
  intros Hu Hs Hup Hprof fileName st'.
  unfold upload_photo in Hup.
  destruct (String.eqb blob EmptyString); [discriminate|].
  cbv zeta in Hup. fold fileName in Hup.
  destruct (Base64.atob blob); [|discriminate].
  destruct (existsb _ _); [discriminate|].
  injection Hup as <- <-.
  assert (Hin : In fileName (photos st'))
    by (simpl; apply in_or_app; right; now left).
  split; [reflexivity|]. split; [exact Hin|].
  assert (Hsplit : exists rest, split fileName = uid :: sessionId :: rest).
  { unfold fileName. rewrite (split_append uid _ Hu).
    rewrite (split_append sessionId _ Hs). eauto. }
  destruct Hsplit as [rest Hsplit].
  unfold secure_image_access.
  change (profiles st') with (profiles st). rewrite Hprof. cbn [single].
  destruct (p_role profile).
  - now apply createSignedUrl_signs.
  - rewrite Hsplit.
    change (sessions_by_id sessionId st') with (sessions_by_id sessionId st).
    split.
    + intros session ->. cbn [single]. now apply createSignedUrl_signs.
    + intros ->. reflexivity.
  - rewrite Hsplit. split.
    + intros ->. rewrite String.eqb_refl. now apply createSignedUrl_signs.
    + intros Hne. assert (E : String.eqb uid user = false)
        by (apply String.eqb_neq; congruence).
      now rewrite E.
Qed.

End ImageFacts.

(** ** The keys of the store are kept *)

Module InvariantFacts.
Import Json Db Api Edge Spec Notions.
Import DbFacts CheckinFacts DailySessionFacts ScanFacts NoticeFacts.
Local Open Scope list_scope.

Lemma consistent_sessions st l :
  map s_id l = map s_id (sessions st) ->
  consistent st -> consistent (with_sessions st l).
Proof.
  unfold consistent, sessions_keyed, attendance_keyed, attendance_refers,
    enrollments_keyed.
  simpl. intros E (H1 & H2 & H3 & H4). rewrite E. auto.
Qed.

Lemma consistent_attendance st l :
  NoDup (map (fun a => (a_session_id a, a_student_id a)) l) ->
  (forall a, In a l -> In (a_session_id a) (map s_id (sessions st))) ->
  consistent st -> consistent (with_attendance st l).
Proof.
  unfold consistent, sessions_keyed, attendance_keyed, attendance_refers,
    enrollments_keyed.
  simpl. intros Hl Hr (H1 & H2 & H3 & H4). auto.
Qed.

Lemma consistent_photos st bucket :
  consistent st -> consistent (with_photos st bucket).
Proof. unfold consistent. now destruct st. Qed.

Lemma map_ids_if (c : Session -> bool) (f : Session -> Session) l :
  (forall s, s_id (f s) = s_id s) ->
  map s_id (map (fun s => if c s then f s else s) l) = map s_id l.
Proof.
  intros Hf. rewrite map_map. apply map_ext. intros s.
  destruct (c s); auto.
Qed.

Lemma consistent_update id f st :
  (forall s, s_id (f s) = s_id s) ->
  consistent st -> consistent (update_sessions_by_id id f st).
Proof.
  intros Hf. apply consistent_sessions.
  now apply (map_ids_if (fun s => String.eqb (s_id s) id)).
Qed.

Lemma fresh_key sid uid table :
  existsb (is_attendance_of sid uid) table = false ->
  ~ In (sid, uid) (map (fun a => (a_session_id a, a_student_id a)) table).
Proof.
  intros E Hin. apply not_true_iff_false in E. apply E.
  apply in_map_iff in Hin as (a & Hk & Ha). apply existsb_exists.
  exists a. split; [exact Ha|]. injection Hk as H1 H2.
  unfold is_attendance_of. rewrite H1, H2, !String.eqb_refl. reflexivity.
Qed.

Lemma keyed_append table row :
  NoDup (map (fun a => (a_session_id a, a_student_id a)) table) ->
  existsb (is_attendance_of (a_session_id row) (a_student_id row)) table = false ->
  NoDup (map (fun a => (a_session_id a, a_student_id a)) (table ++ [row])).
Proof.
  intros Hnd E. rewrite map_app. simpl.
  apply NoDup_app; [exact Hnd | repeat constructor; simpl; tauto |].
  intros k Hk [<- | []]. revert Hk. now apply fresh_key.
Qed.

Lemma insert_attendance_keyed rows :
  forall table table',
    insert_attendance rows table = Some table' ->
    NoDup (map (fun a => (a_session_id a, a_student_id a)) table) ->
    NoDup (map (fun a => (a_session_id a, a_student_id a)) table') /\
    (forall a, In a table' -> In a table \/ In a rows).
Proof.
  induction rows as [|r rows IH]; intros table table' H Hnd; simpl in H.
  - injection H as <-. auto.
  - destruct (existsb _ table) eqn:E; [discriminate|].
    destruct (IH _ _ H (keyed_append _ _ Hnd E)) as [H1 H2].
    split; [exact H1|]. intros a Ha.
    destruct (H2 a Ha) as [Hin | Hin]; [|right; now right].
    apply in_app_or in Hin as [Hin | [<- | []]]; [now left | right; now left].
Qed.

Lemma consistent_rewrite sid uid f st :
  (forall a, is_attendance_of sid uid a = true ->
             a_session_id (f a) = a_session_id a /\
             a_student_id (f a) = a_student_id a) ->
  consistent st -> consistent (update_attendance_of sid uid f st).
Proof.
  intros Hf Hc. pose proof Hc as (H1 & H2 & H3 & H4).
  assert (Hk : map (fun a => (a_session_id a, a_student_id a))
                 (map (fun a => if is_attendance_of sid uid a then f a else a)
                    (attendance st))
               = map (fun a => (a_session_id a, a_student_id a)) (attendance st)).
  { rewrite map_map. apply map_ext. intros a.
    destruct (is_attendance_of sid uid a) eqn:E; [|reflexivity].
    destruct (Hf a E) as [-> ->]. reflexivity. }
  apply consistent_attendance; [now rewrite Hk | | exact Hc].
  intros a Ha. apply in_map_iff in Ha as (b & <- & Hb).
  destruct (is_attendance_of sid uid b) eqn:E; [|now apply H3].
  destruct (Hf b E) as [-> _]. now apply H3.
Qed.

Lemma record_scan_consistent now sid uid st :
  In sid (map s_id (sessions st)) ->
  consistent st -> consistent (snd (record_scan now sid uid st)).
Proof.
  intros Hsid Hc. destruct (record_scan now sid uid st) as [r st'] eqn:H.
  cbn [snd].
  apply record_scan_cases in H
    as [[-> _] | [(row & _ & Hnone & -> & Hs & Hu) | (a & _ & _ & _ & ->)]].
  - exact Hc.
  - pose proof Hc as (H1 & H2 & H3 & H4).
    apply consistent_attendance; [| | exact Hc].
    + apply keyed_append; [exact H2|]. rewrite Hs, Hu.
      now apply filter_nil_existsb.
    + intros a Ha. apply in_app_or in Ha as [Ha | [<- | []]]; [now apply H3|].
      now rewrite Hs.
  - apply consistent_rewrite; [|exact Hc]. intros; split; reflexivity.
Qed.

Lemma acknowledgeScan_consistent now token uid st :
  consistent st -> consistent (snd (acknowledgeScan now token uid st)).
Proof.
  intros Hc. destruct (acknowledgeScan now token uid st) as [r st'] eqn:H.
  pose proof H as H'.
  apply acknowledgeScan_cases in H
    as [[-> _] | (td & session & _ & _ & _ & _ & Hin & _ & _ & H)]; [exact Hc|].
  cbn [snd]. replace st' with (snd (record_scan now (s_id session) uid st))
    by (now rewrite H).
  apply record_scan_consistent; [now apply in_map | exact Hc].
Qed.

Lemma submit_attendance_consistent now req st :
  consistent st -> consistent (snd (submit_attendance now req st)).
Proof.
  intros Hc. unfold submit_attendance.
  destruct (req_auth req) as [auth|]; [|exact Hc]. cbv zeta.
  destruct (single (sessions_by_id _ st)) as [session|] eqn:Es; [|exact Hc].
  apply single_inv in Es.
  assert (Hsid : In (req_sessionId req) (map s_id (sessions st))).
  { assert (Hin : In session (sessions_by_id (req_sessionId req) st))
      by (rewrite Es; now left).
    apply sessions_by_id_in in Hin as [Hin <-]. now apply in_map. }
  destruct (negb _); [exact Hc|].
  destruct (_ || _); [exact Hc|].
  destruct (decode _) as [td|]; [|exact Hc].
  destruct (_ || _); [exact Hc|].
  destruct auth as [uid|]; [|exact Hc].
  destruct (single (filter _ (enrollments st))); [|exact Hc].
  destruct (upload_photo _ _ _ _ _) as [photoUrl bucket|]; [|exact Hc].
  pose proof (consistent_photos st bucket Hc) as Hc1.
  destruct (single (attendance_of _ _ (with_photos st bucket))).
  - assert (Hc2 : consistent
                    (update_attendance_of (req_sessionId req) uid
                       (fun a => mkAttendance (req_sessionId req) uid
                                   (attendanceStatus (req_liveness req))
                                   (Some now) None
                                   (written (req_liveness req) (a_liveness a))
                                   photoUrl)
                       (with_photos st bucket))).
    { apply consistent_rewrite; [|exact Hc1]. intros x E. simpl.
      unfold is_attendance_of in E. apply andb_true_iff in E as [E1 E2].
      apply String.eqb_eq in E1, E2. now split. }
    destruct (single _); exact Hc2.
  - destruct (insert_attendance _ _) as [rows|] eqn:E; [|exact Hc1].
    cbn [snd]. pose proof Hc1 as (H1 & H2 & H3 & H4).
    destruct (insert_attendance_keyed _ _ _ E H2) as [Hk Hin].
    apply consistent_attendance; [exact Hk | | exact Hc1].
    intros a Ha. destruct (Hin a Ha) as [Hold | [<- | []]]; [now apply H3|].
    exact Hsid.
Qed.

Lemma createSession_consistent todayStart todayEnd now secret new_id classId
    teacherId st :
  consistent st ->
  consistent
    (snd (createSession todayStart todayEnd now secret new_id classId teacherId
            st)).
Proof.
  intros Hc. unfold createSession.
  assert (New :
    consistent
      (snd (let row := mkSession new_id classId teacherId now (now + 90 * 1000)
                         false secret active false in
            match insert_session row (sessions st) with
            | None => (Err db_error, st)
            | Some table =>
                let st1 := with_sessions st table in
                let attendanceRecords :=
                  map (absent_record new_id) (enrolled_in classId st1) in
                match insert_attendance attendanceRecords (attendance st1) with
                | Some rows => (Ok row, with_attendance st1 rows)
                | None => (Ok row, st1)
                end
            end))).
  { cbv zeta. unfold insert_session. cbn [s_id].
    destruct (existsb _ (sessions st)) eqn:E; [exact Hc|].
    pose proof Hc as (H1 & H2 & H3 & H4).
    assert (Hc1 : consistent
                    (with_sessions st
                       (sessions st
                        ++ [mkSession new_id classId teacherId now
                              (now + 90 * 1000) false secret active false]))).
    { unfold consistent, sessions_keyed, attendance_keyed, attendance_refers,
        enrollments_keyed. simpl. rewrite map_app. simpl.
      repeat split; auto.
      - apply NoDup_app; [exact H1 | repeat constructor; simpl; tauto |].
        intros k Hk [<- | []]. apply not_true_iff_false in E. apply E.
        apply in_map_iff in Hk as (x & Hx & Hin). apply existsb_exists.
        exists x. split; [exact Hin | now apply String.eqb_eq].
      - intros a Ha. apply in_or_app. left. now apply H3. }
    destruct (insert_attendance _ _) as [rows|] eqn:Ei; [|exact Hc1].
    cbn [snd]. pose proof Hc1 as (K1 & K2 & K3 & K4).
    destruct (insert_attendance_keyed _ _ _ Ei K2) as [Hk Hin].
    apply consistent_attendance; [exact Hk | | exact Hc1].
    intros a Ha. destruct (Hin a Ha) as [Hold | Hnew]; [now apply K3|].
    apply in_map_iff in Hnew as (e & <- & _). simpl. rewrite map_app.
    apply in_or_app. right. now left. }
  destruct (maybeSingle _) as [|existingSession|]; [exact New | | exact New].
  cbv zeta.
  assert (Hc1 : consistent
                  (update_sessions_by_id (s_id existingSession)
                     (reactivate now secret) st))
    by (apply consistent_update; [reflexivity | exact Hc]).
  destruct (single _); exact Hc1.
Qed.

Lemma extendSession_consistent sessionId st :
  consistent st -> consistent (snd (extendSession sessionId st)).
Proof.
  intros Hc. unfold extendSession.
  destruct (single _) as [session|]; [|exact Hc].
  destruct (s_extended session); [exact Hc|]. cbv zeta.
  assert (Hc1 : consistent
                  (update_sessions_by_id sessionId
                     (extend_to (s_end_time session + 30 * 1000)) st))
    by (apply consistent_update; [reflexivity | exact Hc]).
  destruct (single _); exact Hc1.
Qed.

Lemma endSession_consistent now sessionId st :
  consistent st -> consistent (snd (endSession now sessionId st)).
Proof.
  intros Hc. unfold endSession. cbv zeta.
  assert (Hc1 : consistent (update_sessions_by_id sessionId (finish now) st))
    by (apply consistent_update; [reflexivity | exact Hc]).
  destruct (single _); exact Hc1.
Qed.

Lemma sweep_consistent now st :
  consistent st -> consistent (snd (send_absence_notifications now st)).
Proof.
  intros Hc. rewrite send_absence_notifications_closed. cbn [snd].
  apply consistent_sessions; [|exact Hc].
  rewrite map_map. apply map_ext. intros s.
  unfold expire. destruct (existsb _ _), (_ && _); reflexivity.
Qed.

(** X23. Every operation keeps the keys: from a store in which the ids
    of the sessions, the (session, student) pairs of the attendance
    records and the (class, student) pairs of the enrollments are unique
    and every record refers to a stored session, each of the operations,
    whatever its arguments and its outcome, leads to such a store. *)
Theorem operations_keep_consistent (st : Store) :
  consistent st ->
  (forall todayStart todayEnd now secret new_id classId teacherId,
      consistent
        (snd (createSession todayStart todayEnd now secret new_id classId
                teacherId st))) /\
  (forall sessionId, consistent (snd (extendSession sessionId st))) /\
  (forall now sessionId, consistent (snd (endSession now sessionId st))) /\
  (forall now token studentId,
      consistent (snd (acknowledgeScan now token studentId st))) /\
  (forall now req, consistent (snd (submit_attendance now req st))) /\
  (forall now, consistent (snd (send_absence_notifications now st))) /\
  (forall now now',
      consistent (snd (send_absence_notifications_scheduled now now' st))).
Proof.
  intros Hc.
  split; [intros; now apply createSession_consistent|].
  split; [intros; now apply extendSession_consistent|].
  split; [intros; now apply endSession_consistent|].
  split; [intros; now apply acknowledgeScan_consistent|].
  split; [intros; now apply submit_attendance_consistent|].
  split; [intros; now apply sweep_consistent|].
  intros now now'. unfold send_absence_notifications_scheduled. cbv zeta.
  apply sweep_consistent. unfold mark_ended.
  apply consistent_sessions; [|exact Hc].
  rewrite map_map. apply map_ext. intros s. now destruct (_ && _).
Qed.

End InvariantFacts.

(** ** The registers *)

Module RegisterFacts.
Import Json Db Api Edge Spec Notions Reports.
Import DbFacts NoticeFacts SubmitFacts.
Local Open Scope list_scope.

Lemma filter_filter {A : Type} (p q : A -> bool) (l : list A) :
  filter p (filter q l) = filter (fun x => q x && p x) l.
Proof.
  induction l as [|x l IH]; simpl; [reflexivity|].
  destruct (q x); simpl; [destruct (p x)|]; now rewrite IH.
Qed.

Lemma find_filter {A : Type} (p : A -> bool) (l : list A) :
  find p l = hd_error (filter p l).
Proof.
  induction l as [|x l IH]; simpl; [reflexivity|]. now destruct (p x).
Qed.

Lemma existsb_filter {A : Type} (p r : A -> bool) (l : list A) :
  existsb (fun x => p x && r x) l = existsb r (filter p l).
Proof.
  induction l as [|x l IH]; simpl; [reflexivity|].
  destruct (p x); simpl; now rewrite IH.
Qed.

(** The embedded rows of a student in a session are the records of the
    pair. *)
Lemma rows_of_student session uid st :
  filter (fun a => String.eqb (a_student_id a) uid) (attendance_in session st)
  = attendance_of (s_id session) uid st.
Proof. unfold attendance_in, attendance_of. apply filter_filter. Qed.

Lemma filter_length_permutation {A : Type} (p : A -> bool) (l l' : list A) :
  Permutation l l' -> List.length (filter p l) = List.length (filter p l').
Proof.
  induction 1 as [|x l l' _ IH|x y l|l l' l'' _ IH1 _ IH2]; simpl.
  - reflexivity.
  - destruct (p x); simpl; now rewrite IH.
  - destruct (p x), (p y); reflexivity.
  - now rewrite IH1.
Qed.

(** X24. The two registers agree under the key of the attendance table.
    For every session and every enrolled student, the plain register
    counts the session as present exactly when the detailed register
    shows it as present, and the cell of the detailed register carries
    the status of the one record of the student for the session, or
    absent when there is none.  So the totals of the two registers are
    equal, in whatever order the two queries return the sessions of the
    class, and no total of present sessions exceeds the number of
    sessions; [getClassRegister] has one entry for each enrollment of the
    class, with these totals. *)
Theorem registers_agree (classId : string) (sessions' : list Session)
    (st : Store) :
  attendance_keyed st ->
  Permutation (class_sessions classId st) sessions' ->
  (forall enrollment session,
      existsb (fun att =>
                 String.eqb (a_student_id att) (e_student_id enrollment)
                 && att_status_eqb (a_status att) present)
        (attendance_in session st)
      = att_status_eqb (cell_status (session_cell st enrollment session)) present /\
      cell_status (session_cell st enrollment session)
      = match attendance_of (s_id session) (e_student_id enrollment) st with
        | a :: _ => a_status a
        | [] => absent
        end) /\
  Forall2
    (fun enrollment entry =>
       cr_student_id entry = e_student_id enrollment /\
       cr_total_present entry
       = dr_total_present (detailed_entry sessions' st enrollment) /\
       cr_total_sessions entry
       = dr_total_sessions (detailed_entry sessions' st enrollment) /\
       (cr_total_present entry <= cr_total_sessions entry)%nat)
    (enrolled_in classId st) (getClassRegister classId st).
Proof.
  intros Hk Hperm.
  assert (Cell : forall enrollment session,
             existsb (fun att =>
                        String.eqb (a_student_id att) (e_student_id enrollment)
                        && att_status_eqb (a_status att) present)
               (attendance_in session st)
             = att_status_eqb (cell_status (session_cell st enrollment session))
                 present /\
             cell_status (session_cell st enrollment session)
             = match attendance_of (s_id session) (e_student_id enrollment) st with
               | a :: _ => a_status a
               | [] => absent
               end).
  { intros enrollment session. unfold session_cell. cbv zeta. cbn [cell_status].
    rewrite existsb_filter, find_filter, rows_of_student.
    destruct (keyed_attendance_of (s_id session) (e_student_id enrollment) st Hk)
      as [E | [a E]]; rewrite E; simpl; [auto|].
    split; [apply orb_false_r | reflexivity]. }
  split; [exact Cell|]. unfold getClassRegister.
  induction (enrolled_in classId st) as [|enrollment l IH]; simpl;
    constructor; [|exact IH].
  unfold register_entry, detailed_entry. cbv zeta.
  cbn [cr_student_id cr_total_present dr_total_present cr_total_sessions
         dr_total_sessions].
  rewrite length_map. split; [reflexivity|]. split; [|split].
  - rewrite (filter_map_pred_any
               (fun s => att_status_eqb (cell_status s) present)
               (fun session =>
                  att_status_eqb
                    (cell_status (session_cell st enrollment session)) present)
               (session_cell st enrollment))
      by reflexivity.
    rewrite length_map.
    rewrite <- (filter_length_permutation _ _ _ Hperm).
    f_equal. apply filter_ext. intros session. apply (Cell enrollment session).
  - now apply Permutation_length.
  - clear. induction (class_sessions classId st) as [|x l IH]; simpl; [lia|].
    destruct (existsb _ _); simpl; lia.
Qed.

End RegisterFacts.

(** ** A check-in from start to finish *)

Module FlowFacts.
Import Json Db Api Edge Spec Notions.
Import DbFacts CodecFacts CheckinFacts DailySessionFacts TokenFacts ScanFacts
  NoticeFacts SubmitFacts InvariantFacts RegisterFacts.
Local Open Scope list_scope.

Lemma filter_none {A : Type} (p : A -> bool) (l : list A) :
  (forall x, In x l -> p x = false) -> filter p l = [].
Proof.
  induction l as [|x l IH]; simpl; intros H; [reflexivity|].
  rewrite (H x (or_introl eq_refl)). apply IH. intros y Hy. apply H. now right.
Qed.

(** After the first call of the day the record of an enrolled student
    for the new session is the absent one. *)
Lemma created_record new_id uid classId st enrollment :
  attendance_refers st -> enrollments_keyed st ->
  ~ In new_id (map s_id (sessions st)) ->
  In enrollment (enrollments st) ->
  e_student_id enrollment = uid -> e_class_id enrollment = classId ->
  filter (is_attendance_of new_id uid)
    (attendance st ++ map (absent_record new_id) (enrolled_in classId st))
  = [absent_record new_id enrollment].
Proof.
  intros Hr Hek Hfresh He Hu Hc. rewrite filter_app, filter_none.
  - cbn [app]. unfold enrolled_in.
    rewrite (filter_map_pred_any (is_attendance_of new_id uid)
               (fun e => String.eqb (e_student_id e) uid) (absent_record new_id)).
    + rewrite filter_filter.
      rewrite (filter_ext _ (fun e => String.eqb (e_student_id e) uid
                                      && String.eqb (e_class_id e) classId)).
      * now rewrite (keyed_enrollment uid classId st enrollment Hek He Hu Hc).
      * intros e. apply andb_comm.
    + intros e. unfold is_attendance_of. simpl. now rewrite String.eqb_refl.
  - intros a Ha. unfold is_attendance_of.
    destruct (String.eqb (a_session_id a) new_id) eqn:E; [|reflexivity].
    exfalso. apply String.eqb_eq in E. apply Hfresh. rewrite <- E. now apply Hr.
Qed.

(** X25. A check-in from start to finish.  On a store that respects its
    keys, the teacher, who is not enrolled in the class, starts the first
    session of the day for it; a student enrolled in the class, who
    therefore sees the session, scans
    the code on display and then submits the verification without a
    confirmed liveness, both within the 90 seconds of the session.  Then
    the student, absent after the first step, is pending after the scan
    and pending after the submission, which stamps the record anew; there
    is one record throughout, both writes are writes the trigger lets the
    student make, and a later scan with a valid token is accepted again.
    Had the liveness been confirmed, the row the handler writes as the
    student would be a present one, which the trigger refuses. *)
Theorem checkin_flow (todayStart todayEnd : Z -> Z) (now t1 t2 : Z)
    (secret new_id classId teacherId uid : string) (st : Store)
    (enrollment : Enrollment) (user_role : option Role) :
  consistent st ->
  sessions_today todayStart todayEnd classId teacherId now st = [] ->
  ~ In teacherId (map e_student_id (enrolled_in classId st)) ->
  ~ In new_id (map s_id (sessions st)) ->
  new_id <> EmptyString ->
  In enrollment (enrollments st) ->
  e_student_id enrollment = uid ->
  e_class_id enrollment = classId ->
  now <= t1 <= t2 -> t2 <= now + 90000 ->
  exists session st1 r1 st2 r2 st3,
    createSession todayStart todayEnd now secret new_id classId teacherId st
    = (Ok session, st1) /\
    s_id session = new_id /\ s_qr_secret session = secret /\
    Policy.session_visible uid session st1 = true /\
    map a_status (attendance_of new_id uid st1) = [absent] /\
    acknowledgeScan t1 (generateQRToken t1 new_id secret) uid st1 = (Ok r1, st2) /\
    attendance_of new_id uid st2 = [r1] /\
    a_status r1 = pending /\ a_checkin_time r1 = Some t1 /\
    submit_attendance t2
      (mkSubmitRequest (Some (Some uid)) new_id
         (generateQRToken t2 new_id secret) None (JBool false)) st2
    = (Success r2 pending "Attendance submitted for review", st3) /\
    attendance_of new_id uid st3 = [r2] /\
    r2 = mkAttendance new_id uid pending (Some t2) None (JBool false) None /\
    Policy.validate_attendance_update_improved uid user_role (Some session) r1
    = None /\
    Policy.validate_attendance_update_improved uid user_role (Some session) r2
    = None /\
    Policy.validate_attendance_update_improved uid user_role (Some session)
      (mkAttendance new_id uid (attendanceStatus (JBool true)) (Some t2) None
         (JBool true) None)
    = Some "Students can only mark attendance as pending" /\
    (forall t3 token,
        minted token session -> t3 <= now + 90000 ->
        exists r3 st4,
          acknowledgeScan t3 token uid st3 = (Ok r3, st4) /\
          attendance_of new_id uid st4 = [r3] /\ a_status r3 = pending).
Proof.
  intros Hc Htoday _ Hfresh Hne He Hu Hcl Ht Ht2.
  pose proof Hc as (Hk & Hak & Hr & Hek).
  destruct (createSession_creates todayStart todayEnd now secret new_id classId
              teacherId st Hk Hr Hek Htoday Hfresh) as (Hcall & Hk1 & _).
  cbv zeta in Hcall, Hk1.
  set (row := mkSession new_id classId teacherId now (now + 90 * 1000) false
                secret active false) in *.
  set (st1 := mkStore (sessions st ++ [row])
                (attendance st
                 ++ map (absent_record new_id) (enrolled_in classId st))
                (enrollments st) (profiles st) (photos st)) in *.
  assert (Hc1 : consistent st1).
  { replace st1
      with (snd (createSession todayStart todayEnd now secret new_id classId
                   teacherId st))
      by (now rewrite Hcall).
    now apply createSession_consistent. }
  assert (Hrow1 : sessions_by_id new_id st1 = [row]).
  { apply (keyed_by_id st1 row Hk1). simpl. apply in_or_app. right. now left. }
  assert (Hrec1 : attendance_of new_id uid st1 = [absent_record new_id enrollment])
    by (now apply created_record).
  assert (Hvis : Policy.session_visible uid row st1 = true).
  { unfold Policy.session_visible. apply orb_true_iff. right.
    apply existsb_exists. exists enrollment. split; [exact He|].
    simpl. now rewrite Hcl, Hu, !String.eqb_refl. }
  (* the scan *)
  assert (Hm1 : minted (generateQRToken t1 new_id secret) row)
    by (left; now exists t1).
  destruct (minted_decodes _ _ Hm1) as (td1 & Hd1 & Hn1).
  pose proof (acknowledgeScan_checked t1 _ uid st1 td1 row Hd1 Hn1 Hrow1 Hne
                eq_refl) as Hscan.
  change (s_end_time row) with (now + 90 * 1000) in Hscan.
  change (s_id row) with new_id in Hscan.
  assert (Hg1 : Z.gtb t1 (now + 90 * 1000) = false)
    by (rewrite Z.gtb_ltb; apply Z.ltb_ge; lia).
  rewrite Hg1 in Hscan.
  rewrite (record_scan_updates t1 new_id uid st1 _ Hrec1) in Hscan
    by discriminate.
  set (st2 := update_attendance_of new_id uid (scan t1) st1) in *.
  assert (Hc2 : consistent st2).
  { replace st2
      with (snd (acknowledgeScan t1 (generateQRToken t1 new_id secret) uid st1))
      by (now rewrite Hscan).
    now apply acknowledgeScan_consistent. }
  assert (Hrec2 : attendance_of new_id uid st2
                  = [scan t1 (absent_record new_id enrollment)]).
  { unfold st2. rewrite attendance_of_update by (intros x Hx; exact Hx).
    now rewrite Hrec1. }
  (* the submission *)
  set (req := mkSubmitRequest (Some (Some uid)) new_id
                (generateQRToken t2 new_id secret) None (JBool false)).
  pose proof Hc2 as (_ & Hak2 & _ & Hek2).
  destruct (submit_attendance_passes t2 req st2 uid row enrollment None
              (photos st2) Hak2 Hek2 eq_refl Hrow1 eq_refl)
    as (st3 & Hsub & Hrec3 & _ & Hs3 & _).
  { simpl. lia. }
  { left. now exists t2. }
  { exact He. }
  { exact Hu. }
  { exact Hcl. }
  { reflexivity. }
  cbv zeta in Hsub, Hrec3. cbn in Hsub, Hrec3.
  exists row, st1, (scan t1 (absent_record new_id enrollment)), st2.
  eexists. exists st3.
  split; [exact Hcall|]. split; [reflexivity|]. split; [reflexivity|].
  split; [exact Hvis|].
  split; [now rewrite Hrec1|]. split; [exact Hscan|].
  split; [exact Hrec2|]. split; [reflexivity|]. split; [reflexivity|].
  split; [exact Hsub|]. split; [exact Hrec3|]. split; [reflexivity|].
  assert (Hself : String.eqb uid (e_student_id enrollment) = true)
    by (rewrite Hu; apply String.eqb_refl).
  split; [|split; [|split]].
  - unfold Policy.validate_attendance_update_improved. simpl. now rewrite Hself.
  - unfold Policy.validate_attendance_update_improved. simpl.
    now rewrite String.eqb_refl.
  - unfold Policy.validate_attendance_update_improved. simpl.
    now rewrite String.eqb_refl.
  - intros t3 token Hm3 Ht3.
    destruct (minted_decodes _ _ Hm3) as (td3 & Hd3 & Hn3).
    assert (Hrow3 : sessions_by_id new_id st3 = [row]).
    { unfold sessions_by_id. rewrite Hs3. exact Hrow1. }
    rewrite (acknowledgeScan_checked t3 token uid st3 td3 row Hd3 Hn3 Hrow3 Hne
               eq_refl).
    change (s_end_time row) with (now + 90 * 1000).
    assert (Hg3 : Z.gtb t3 (now + 90 * 1000) = false)
      by (rewrite Z.gtb_ltb; apply Z.ltb_ge; lia).
    rewrite Hg3. change (s_id row) with new_id.
    destruct (record_scan_ok t3 new_id uid st3)
      as (r3 & st4 & Hscan3 & _ & _ & Hp3 & _ & Hone3 & _).
    { right. eexists. split; [exact Hrec3 | discriminate]. }
    exists r3, st4. repeat split; assumption.
Qed.

End FlowFacts.

(** ** The further properties at sample inputs *)

Module FurtherInstances.
Import Json Db Api Edge Spec Notions Reports ImageAccess Policy.
Local Open Scope list_scope.

Lemma acknowledgeScan_accepts_witness :
  exists row st',
    acknowledgeScan 9000 Sample.token1 "stu1" Sample.store1 = (Ok row, st') /\
    a_status row = pending /\ a_checkin_time row = Some 9000.
Proof.
  destruct (ScanFacts.acknowledgeScan_accepts 9000 Sample.token1 "stu1"
              Sample.store1 Sample.session1)
    as (row & st' & H & _ & _ & Hp & Ht & _).
  - left. now exists 9000.
  - reflexivity.
  - discriminate.
  - reflexivity.
  - reflexivity.
  - simpl. lia.
  - right. eexists. split; [reflexivity | discriminate].
  - exists row, st'. auto.
Defined.


Lemma acknowledgeScan_frame_witness :
  same_but_attendance Sample.store1
    (snd (acknowledgeScan 9000 Sample.token1 "stu2" Sample.store1)).
Proof.
  exact (proj1 (ScanFacts.acknowledgeScan_frame 9000 Sample.token1 "stu2"
                  Sample.store1 _ _ (surjective_pairing _))).
Defined.

Lemma endSession_closes_checkin_witness :
  exists st1,
    endSession 50000 "s1" Sample.store1
    = (Ok (finish 50000 Sample.session1), st1) /\
    acknowledgeScan 60000 Sample.token1 "stu1" st1
    = (Err "Session not found or expired", st1) /\
    submit_attendance 60000 (Sample.submission Sample.token1 true) st1
    = (Failure 400 "Session is not active", st1).
Proof.
  apply (ReopenFacts.endSession_closes_checkin 50000 60000 "s1" Sample.token1
           "stu1" Scenarios.token_data1 (Sample.submission Sample.token1 true)
           Sample.store1 Sample.session1).
  - reflexivity.
  - discriminate.
  - vm_compute. reflexivity.
  - reflexivity.
  - reflexivity.
  - discriminate.
Defined.


Lemma createSession_keeps_extended_witness :
  exists st1,
    createSession Sample.midnight Sample.next_midnight 60000 "n3w000" "s9" "c1"
      "t1" Sample.store_extended
    = (Ok (reactivate 60000 "n3w000" (extend_to 121000 Sample.session1)), st1) /\
    extendSession "s1" st1 = (Err "Session cannot be extended", st1).
Proof.
  destruct (ReopenFacts.createSession_keeps_extended Sample.midnight
              Sample.next_midnight 60000 "n3w000" "s9" "c1" "t1"
              Sample.store_extended (extend_to 121000 Sample.session1))
    as (st1 & H1 & H2 & _).
  - repeat constructor. simpl. tauto.
  - vm_compute. reflexivity.
  - exists st1. split; [exact H1|]. now apply H2.
Defined.


Lemma getActiveSessionsCount_endSession_witness :
  getActiveSessionsCount "t1" Sample.store1 = 1%nat /\
  S (getActiveSessionsCount "t1" (snd (endSession 50000 "s1" Sample.store1)))
  = getActiveSessionsCount "t1" Sample.store1.
Proof.
  split; [reflexivity|].
  apply (proj1 (ReopenFacts.getActiveSessionsCount_endSession 50000 "t1"
                  Sample.store1 Sample.session1
                  ltac:(repeat constructor; simpl; tauto)
                  (or_introl eq_refl))); reflexivity.
Defined.

Lemma send_absence_notifications_once_witness :
  In (mkNotice "s1" "stu1" "ann@example.org")
    (fst (send_absence_notifications 100000 Scenarios.store_two)) /\
  In (mkNotice "s2" "stu1" "ann@example.org")
    (fst (send_absence_notifications 300000
            (snd (send_absence_notifications 100000 Scenarios.store_two)))) /\
  "s2" <> "s1".
Proof.
  assert (H1 : In (mkNotice "s1" "stu1" "ann@example.org")
                 (fst (send_absence_notifications 100000 Scenarios.store_two)))
    by (vm_compute; auto).
  assert (H2 : In (mkNotice "s2" "stu1" "ann@example.org")
                 (fst (send_absence_notifications 300000
                         (snd (send_absence_notifications 100000
                                 Scenarios.store_two)))))
    by (vm_compute; auto).
  split; [exact H1|]. split; [exact H2|].
  exact (NoticeFacts.send_absence_notifications_once 100000 300000
           Scenarios.store_two _ _ H1 H2).
Defined.

Lemma reopened_session_not_notified_again_witness :
  In (mkNotice "s3" "stu1" "ann@example.org")
    (fst (send_absence_notifications 200000
            (snd (createSession Sample.midnight Sample.next_midnight 95000
                    "n3w000" "s9" "c1" "t1" Scenarios.store_swept)))) /\
  "s3" <> "s1".
Proof.
  assert (H : In (mkNotice "s3" "stu1" "ann@example.org")
                (fst (send_absence_notifications 200000
                        (snd (createSession Sample.midnight
                                Sample.next_midnight 95000 "n3w000" "s9" "c1"
                                "t1" Scenarios.store_swept)))))
    by (vm_compute; auto).
  split; [exact H|].
  refine (NoticeFacts.reopened_session_not_notified_again Sample.midnight
            Sample.next_midnight 95000
            200000 "n3w000" "s9" "c1" "t1" Scenarios.store_swept
            Sample.session1_swept _ _ _ eq_refl H).
  - repeat constructor; simpl; intuition discriminate.
  - vm_compute. reflexivity.
Defined.

Lemma acknowledgeScan_sound_witness :
  exists row st',
    acknowledgeScan 9000 Sample.token1 "stu1" Sample.store1 = (Ok row, st') /\
    exists session,
      In session (sessions Sample.store1) /\ s_status session = active /\
      9000 <= s_end_time session /\ a_session_id row = s_id session.
Proof.
  assert (E : exists row st',
             acknowledgeScan 9000 Sample.token1 "stu1" Sample.store1
             = (Ok row, st'))
    by (do 2 eexists; vm_compute; reflexivity).
  destruct E as (row & st' & E). exists row, st'. split; [exact E|].
  destruct (SubmitFacts.acknowledgeScan_sound 9000 Sample.token1 "stu1"
              Sample.store1 st' row E)
    as (td & session & _ & _ & _ & _ & H1 & H2 & H3 & H4 & _).
  exists session. auto.
Defined.

Lemma acknowledgeScan_write_admitted_witness :
  exists row st',
    acknowledgeScan 9000 Sample.token1 "stu1" Sample.store1 = (Ok row, st') /\
    student_update_check "stu1" row Sample.store1 = true.
Proof.
  assert (E : exists row st',
             acknowledgeScan 9000 Sample.token1 "stu1" Sample.store1
             = (Ok row, st'))
    by (do 2 eexists; vm_compute; reflexivity).
  destruct E as (row & st' & E). exists row, st'. split; [exact E|].
  destruct (SubmitFacts.acknowledgeScan_write_admitted 9000 Sample.token1
              "stu1" Sample.store1 st' row (Some student) E)
    as (session & _ & _ & _ & H).
  exact H.
Defined.

Lemma submit_attendance_sound_witness :
  exists row st',
    submit_attendance 9000 (Sample.submission Sample.token1 false) Sample.store1
    = (Success row pending "Attendance submitted for review", st') /\
    attendance_of "s1" "stu1" st' = [row].
Proof.
  assert (E : exists row st',
             submit_attendance 9000 (Sample.submission Sample.token1 false)
               Sample.store1
             = (Success row pending "Attendance submitted for review", st'))
    by (do 2 eexists; vm_compute; reflexivity).
  destruct E as (row & st' & E). exists row, st'. split; [exact E|].
  destruct (SubmitFacts.submit_attendance_sound 9000 _ Sample.store1 st' row
              pending _ E)
    as (uid & session & td & e & Ha & _ & Hid & _ & _ & _ & _ & _ & _ & _ & _
        & _ & _ & _ & H).
  injection Ha as <-. rewrite Hid in H. exact H.
Defined.

Lemma trigger_on_submission_witness :
  exists row st',
    submit_attendance 9000 (Sample.submission Sample.token1 true) Sample.store1
    = (Success row present "Attendance marked successfully!", st') /\
    validate_attendance_update_improved "stu1" (Some student)
      (Some Sample.session1) row
    = Some "Students can only mark attendance as pending".
Proof.
  assert (E : exists row st',
             submit_attendance 9000 (Sample.submission Sample.token1 true)
               Sample.store1
             = (Success row present "Attendance marked successfully!", st') /\
             a_session_id row = "s1")
    by (do 2 eexists; vm_compute; split; reflexivity).
  destruct E as (row & st' & E & Hsid). exists row, st'. split; [exact E|].
  destruct (SubmitFacts.trigger_on_submission 9000 _ Sample.store1 st' row
              present _ (Some student) E)
    as (uid & session & Ha & Hs & H & _).
  injection Ha as <-. rewrite Hsid in Hs. injection Hs as <-.
  now apply H.
Defined.

Lemma submit_attendance_frame_witness :
  sessions (snd (submit_attendance 9000 (Sample.submission Sample.token1 true)
                   Sample.store1))
  = sessions Sample.store1.
Proof.
  exact (proj1 (SubmitFacts.submit_attendance_frame 9000
                  (Sample.submission Sample.token1 true) Sample.store1 _ _
                  (surjective_pairing _))).
Defined.

Lemma submit_attendance_accepts_witness :
  exists row st',
    submit_attendance 9000
      (mkSubmitRequest (Some (Some "stu1")) "s1" Sample.token1 None JUndefined)
      Sample.store_present
    = (Success row pending "Attendance submitted for review", st') /\
    a_liveness row = JBool true /\
    attendance_of "s1" "stu1" st' = [row].
Proof.
  destruct (SubmitFacts.submit_attendance_accepts 9000
              (mkSubmitRequest (Some (Some "stu1")) "s1" Sample.token1 None
                 JUndefined)
              Sample.store_present "stu1"
              Sample.session1 (mkEnrollment "c1" "stu1" None) None []
              (Some student))
    as (row & st' & H1 & Hrow & H2 & _).
  - repeat constructor; simpl; intuition discriminate.
  - repeat constructor; simpl; intuition discriminate.
  - reflexivity.
  - reflexivity.
  - reflexivity.
  - simpl. lia.
  - left. now exists 9000.
  - now left.
  - reflexivity.
  - reflexivity.
  - reflexivity.
  - right. now right.
  - exists row, st'. split; [exact H1|]. split; [|exact H2].
    rewrite Hrow. reflexivity.
Defined.

Lemma secure_qr_token_handler_issues_witness :
  map s_status (sessions Sample.store_ended) = [ended] /\
  secure_qr_token_handler 60000 (Some (Some "t1")) "s1" Sample.store_ended
  = TokenIssued (secure_qr_token 60000 (finish 50000 Sample.session1)) "s1"
      300000 /\
  secure_qr_token_handler 60000 (Some (Some "t1")) "s1"
    (with_sessions Sample.store1 [Sample.session1_swept])
  = secure_qr_token_handler 60000 (Some (Some "t1")) "s1" Sample.store1.
Proof.
  split; [reflexivity|]. split.
  - exact (proj1 (proj2
             (SubmitFacts.secure_qr_token_handler_issues 60000
                (Some (Some "t1")) "s1" Sample.store_ended))
             "t1" (mkProfile "t1" "Tia" "tia@example.org" teacher)
             (finish 50000 Sample.session1) eq_refl eq_refl eq_refl eq_refl).
  - apply (proj2 (proj2
             (SubmitFacts.secure_qr_token_handler_issues 60000
                (Some (Some "t1")) "s1" Sample.store1))).
    + reflexivity.
    + repeat constructor.
Defined.

Lemma secure_image_access_sound_witness :
  secure_image_access (Some (Some "stu1")) Scenarios.photo1 Scenarios.store_photo
  = SignedUrl Scenarios.photo1 /\
  In Scenarios.photo1 (photos Scenarios.store_photo).
Proof.
  assert (E : secure_image_access (Some (Some "stu1")) Scenarios.photo1
                Scenarios.store_photo
              = SignedUrl Scenarios.photo1)
    by (vm_compute; reflexivity).
  split; [exact E|].
  exact (proj1 (proj2 (ImageFacts.secure_image_access_sound _ _ _ _ E))).
Defined.

Lemma uploaded_photo_access_witness :
  secure_image_access (Some (Some "stu2")) Scenarios.photo1 Scenarios.store_photo
  = ImageFailure 403 "Unauthorized access to this image".
Proof.
  refine (proj2 (proj2 (proj2
            (ImageFacts.uploaded_photo_access 9000 "stu1" "s1" "aGk="
               "attendance-photos/stu1/s1/9000.jpg" [Scenarios.photo1]
               Sample.store1 "stu2"
               (mkProfile "stu2" "Bob" "bob@example.org" student)
               eq_refl eq_refl _ eq_refl))) _).
  - vm_compute. reflexivity.
  - discriminate.
Defined.

Lemma sample_store_consistent : consistent Sample.store1.
Proof.
  unfold consistent, sessions_keyed, attendance_keyed, attendance_refers,
    enrollments_keyed.
  repeat split; try (repeat constructor; simpl; intuition discriminate).
  intros a [<- | [<- | []]]; simpl; auto.
Defined.

Lemma operations_keep_consistent_witness :
  consistent Sample.store1 /\
  consistent (snd (acknowledgeScan 9000 Sample.token1 "stu1" Sample.store1)).
Proof.
  split; [exact sample_store_consistent|].
  exact (proj1 (proj2 (proj2 (proj2
           (InvariantFacts.operations_keep_consistent Sample.store1
              sample_store_consistent))))
           9000 Sample.token1 "stu1").
Defined.

Lemma registers_agree_witness :
  map cr_total_present (getClassRegister "c1" Sample.store_present) = [1; 0]%nat /\
  Forall2
    (fun enrollment entry =>
       cr_total_present entry
       = dr_total_present
           (detailed_entry [Sample.session1] Sample.store_present enrollment))
    (enrolled_in "c1" Sample.store_present)
    (getClassRegister "c1" Sample.store_present).
Proof.
  split; [reflexivity|].
  refine (Forall2_impl _ _
            (proj2 (RegisterFacts.registers_agree "c1" [Sample.session1]
                      Sample.store_present _ (Permutation_refl _)))).
  - intros e entry (_ & H & _). exact H.
  - repeat constructor; simpl; intuition discriminate.
Defined.

Lemma checkin_flow_witness :
  exists session st1 r1 st2 r2 st3,
    createSession Sample.midnight Sample.next_midnight 1000 "k7f3a0" "s1" "c1"
      "t1" Sample.store0
    = (Ok session, st1) /\
    acknowledgeScan 5000 (generateQRToken 5000 "s1" "k7f3a0") "stu1" st1
    = (Ok r1, st2) /\
    submit_attendance 9000
      (mkSubmitRequest (Some (Some "stu1")) "s1"
         (generateQRToken 9000 "s1" "k7f3a0") None (JBool false)) st2
    = (Success r2 pending "Attendance submitted for review", st3) /\
    map a_status (attendance_of "s1" "stu1" st3) = [pending].
Proof.
  destruct (FlowFacts.checkin_flow Sample.midnight Sample.next_midnight 1000
              5000 9000 "k7f3a0" "s1" "c1" "t1" "stu1" Sample.store0
              (mkEnrollment "c1" "stu1" None) (Some student))
    as (session & st1 & r1 & st2 & r2 & st3 & H1 & _ & _ & _ & _ & H2 & _ & _
        & _ & H3 & H4 & H5 & _).
  - unfold consistent, sessions_keyed, attendance_keyed, attendance_refers,
      enrollments_keyed.
    repeat split; repeat constructor; simpl; intuition discriminate.
  - reflexivity.
  - simpl. intuition discriminate.
  - intros [].
  - discriminate.
  - now left.
  - reflexivity.
  - reflexivity.
  - lia.
  - lia.
  - exists session, st1, r1, st2, r2, st3.
    split; [exact H1|]. split; [exact H2|]. split; [exact H3|].
    rewrite H4, H5. reflexivity.
Defined.

End FurtherInstances.
